(** * Calendar analyzer: event classification and temporal aggregation

    A shallow embedding of [calendar_analyzer.py]: the class
    [CalendarAnalyzer] ([analyze_events], [get_day_stats],
    [get_time_spent], [get_weekly_stats], [get_monthly_stats]) and the
    pattern-file branch of [load_or_generate_patterns].  The second part
    of the definitions adds the other branch of that function, which
    generates the pattern file, and the window and the day columns that
    the main part of the script builds.

    Conventions of the embedding.
    - A Python [str] is the list of its code points ([list N]).
    - A Python [dict] is an association list in insertion order; assigning
      to a key that is present replaces the value in place, assigning to a
      new key appends the entry.  Indexing a missing key raises [KeyError],
      modelled by [None].
    - A [timedelta] is a number of seconds ([Z]); iCalendar DATE-TIME
      values have no sub-second part.
    - A [date] is its proleptic Gregorian ordinal ([date.toordinal()]);
      the wall clock of a [datetime] is [86400 * ordinal + second of day].
      Year, month and day are read back with [ord2ymd], weekdays with
      [(ordinal + 6) mod 7], both as CPython's [datetime] module does.
      Values are taken inside the range that [datetime] represents
      (years 1 to 9999); the [OverflowError] that arithmetic on
      datetimes raises at the two ends of that range is not part of the
      model.  The [ValueError] of the constructor [datetime(year, month,
      day)], which [get_monthly_stats] calls, is ([datetime_ymd]).
    - Python floats are kept abstract ([FloatOps]): the theorems about
      hour totals and averages speak of the very additions and divisions
      the code performs, in the order it performs them.  The instance
      [binary64] is the arithmetic Python has, on the primitive floats
      of the kernel.
    - The regular expression engine ([ReEngine]) and the zone data behind
      [tz.gettz('America/Los_Angeles')] ([TzData]) are interfaces; the
      zone rules in force since 2007 are given as an instance. *)

From Stdlib Require Import ZArith NArith List Bool String Ascii Lia.
From Stdlib Require Import QArith Qcanon.
From Stdlib Require Import Decimal DecimalPos DecimalN.
From Stdlib Require Import Sorted.
From Stdlib Require PrimFloat.
Import ListNotations.
Local Open Scope Z_scope.

(** ** Strings *)

Definition str := list N.

Definition py_str (s : string) : str :=
  map N_of_ascii (list_ascii_of_string s).

Fixpoint str_eqb (a b : str) : bool :=
  match a, b with
  | [], [] => true
  | x :: a', y :: b' => N.eqb x y && str_eqb a' b'
  | _, _ => false
  end.

(** [str.isspace] on one code point (CPython's [_PyUnicode_IsWhitespace]). *)
Definition isspace (c : N) : bool :=
  ((9 <=? c) && (c <=? 13) || (28 <=? c) && (c <=? 32)
   || (c =? 133) || (c =? 160) || (c =? 5760)
   || (8192 <=? c) && (c <=? 8202)
   || (c =? 8232) || (c =? 8233) || (c =? 8239) || (c =? 8287)
   || (c =? 12288))%N.

Fixpoint lstrip (s : str) : str :=
  match s with
  | [] => []
  | c :: s' => if isspace c then lstrip s' else s
  end.

Definition rstrip (s : str) : str := List.rev (lstrip (List.rev s)).

Definition strip (s : str) : str := rstrip (lstrip s).

(** [sep in s] for a one-character [sep]. *)
Definition contains_char (sep : N) (s : str) : bool := existsb (N.eqb sep) s.

(** [s.split(sep, 1)] for a one-character [sep]. *)
Fixpoint split1 (sep : N) (s : str) : list str :=
  match s with
  | [] => [[]]
  | c :: s' =>
      if N.eqb c sep then [[]; s']
      else match split1 sep s' with
           | h :: t => (c :: h) :: t
           | [] => [[c]]
           end
  end.

(** [s.split(sep)] for a one-character [sep]. *)
Fixpoint split (sep : N) (s : str) : list str :=
  match s with
  | [] => [[]]
  | c :: s' =>
      if N.eqb c sep then [] :: split sep s'
      else match split sep s' with
           | h :: t => (c :: h) :: t
           | [] => [[c]]
           end
  end.

Definition colon : N := 58.
Definition hyphen : N := 45.
Definition space : N := 32.

(** Decimal digits, as [str(n)] and [int(s)] see them.  [py_int] covers
    the plain digit strings that [strftime] produces. *)
Fixpoint codes_of_uint (d : Decimal.uint) : str :=
  match d with
  | Nil => []
  | D0 d => 48%N :: codes_of_uint d
  | D1 d => 49%N :: codes_of_uint d
  | D2 d => 50%N :: codes_of_uint d
  | D3 d => 51%N :: codes_of_uint d
  | D4 d => 52%N :: codes_of_uint d
  | D5 d => 53%N :: codes_of_uint d
  | D6 d => 54%N :: codes_of_uint d
  | D7 d => 55%N :: codes_of_uint d
  | D8 d => 56%N :: codes_of_uint d
  | D9 d => 57%N :: codes_of_uint d
  end.

Definition digit_cons (c : N) (d : Decimal.uint) : option Decimal.uint :=
  match c with
  | 48%N => Some (D0 d) | 49%N => Some (D1 d) | 50%N => Some (D2 d)
  | 51%N => Some (D3 d) | 52%N => Some (D4 d) | 53%N => Some (D5 d)
  | 54%N => Some (D6 d) | 55%N => Some (D7 d) | 56%N => Some (D8 d)
  | 57%N => Some (D9 d)
  | _ => None
  end.

Fixpoint uint_of_codes (s : str) : option Decimal.uint :=
  match s with
  | [] => Some Nil
  | c :: s' =>
      match uint_of_codes s' with
      | Some d => digit_cons c d
      | None => None
      end
  end.

Definition py_int (s : str) : option Z :=
  match s with
  | [] => None
  | _ => option_map (fun d => Z.of_N (N.of_uint d)) (uint_of_codes s)
  end.

(** [str(n)] for [n >= 0]. *)
Definition decimal (n : Z) : str := codes_of_uint (N.to_uint (Z.to_N n)).

(** Zero padding on the left up to [width] characters ([%02d], [%04d]). *)
Definition zero_pad (width : nat) (s : str) : str :=
  repeat 48%N (width - List.length s) ++ s.

(** ** Dictionaries *)

Section PyDict.
Context {V : Type}.

Definition dict := list (str * V).

Fixpoint dict_get (d : dict) (k : str) : option V :=
  match d with
  | [] => None
  | (k', v) :: d' => if str_eqb k k' then Some v else dict_get d' k
  end.

Fixpoint dict_set (d : dict) (k : str) (v : V) : dict :=
  match d with
  | [] => [(k, v)]
  | (k', v') :: d' =>
      if str_eqb k k' then (k', v) :: d' else (k', v') :: dict_set d' k v
  end.

Definition dict_keys (d : dict) : list str := map fst d.

Definition dict_values (d : dict) : list V := map snd d.

Definition dict_contains (d : dict) (k : str) : bool :=
  match dict_get d k with Some _ => true | None => false end.

End PyDict.

Arguments dict V : clear implicits.

(** The keys of a dictionary are pairwise distinct. *)
Definition dict_wf {V : Type} (d : dict V) : Prop := NoDup (dict_keys d).

(** ** The proleptic Gregorian calendar of [datetime] *)

Definition is_leap (year : Z) : bool :=
  (year mod 4 =? 0) && (negb (year mod 100 =? 0) || (year mod 400 =? 0)).

Definition days_before_year (year : Z) : Z :=
  let y := year - 1 in y * 365 + y / 4 - y / 100 + y / 400.

Definition DAYS_IN_MONTH (month : Z) : Z :=
  match month with
  | 1 => 31 | 2 => 28 | 3 => 31 | 4 => 30 | 5 => 31 | 6 => 30
  | 7 => 31 | 8 => 31 | 9 => 30 | 10 => 31 | 11 => 30 | 12 => 31
  | _ => -1
  end.

Definition DAYS_BEFORE_MONTH (month : Z) : Z :=
  match month with
  | 1 => 0 | 2 => 31 | 3 => 59 | 4 => 90 | 5 => 120 | 6 => 151
  | 7 => 181 | 8 => 212 | 9 => 243 | 10 => 273 | 11 => 304 | 12 => 334
  | _ => -1
  end.

Definition days_in_month (year month : Z) : Z :=
  if (month =? 2) && is_leap year then 29 else DAYS_IN_MONTH month.

Definition days_before_month (year month : Z) : Z :=
  DAYS_BEFORE_MONTH month + (if (2 <? month) && is_leap year then 1 else 0).

Definition ymd2ord (year month day : Z) : Z :=
  days_before_year year + days_before_month year month + day.

Definition DI400Y : Z := 146097.
Definition DI100Y : Z := 36524.
Definition DI4Y : Z := 1461.

Definition ord2ymd (ordinal : Z) : Z * Z * Z :=
  let n := ordinal - 1 in
  let n400 := n / DI400Y in
  let n := n mod DI400Y in
  let year := n400 * 400 + 1 in
  let n100 := n / DI100Y in
  let n := n mod DI100Y in
  let n4 := n / DI4Y in
  let n := n mod DI4Y in
  let n1 := n / 365 in
  let n := n mod 365 in
  let year := year + n100 * 100 + n4 * 4 + n1 in
  if (n1 =? 4) || (n100 =? 4) then (year - 1, 12, 31)
  else
    let leapyear := (n1 =? 3) && (negb (n4 =? 24) || (n100 =? 3)) in
    let month := Z.shiftr (n + 50) 5 in
    let preceding :=
      DAYS_BEFORE_MONTH month + (if (2 <? month) && leapyear then 1 else 0) in
    if n <? preceding then
      let month := month - 1 in
      let preceding :=
        preceding
        - (DAYS_IN_MONTH month + (if (month =? 2) && leapyear then 1 else 0)) in
      (year, month, n - preceding + 1)
    else (year, month, n - preceding + 1).

(** [date.weekday()]: Monday is 0. *)
Definition weekday_of_ordinal (ordinal : Z) : Z := (ordinal + 6) mod 7.

(** Wall clocks. *)
Definition SECONDS_PER_DAY : Z := 86400.

Definition wall_date (wall : Z) : Z := wall / SECONDS_PER_DAY.

(** [datetime(year, month, day, hour, minute, second)], tz-naive. *)
Definition datetime_of (year month day hour minute second : Z) : Z :=
  ymd2ord year month day * SECONDS_PER_DAY + hour * 3600 + minute * 60 + second.

(** [datetime.MINYEAR] and [datetime.MAXYEAR]. *)
Definition MINYEAR : Z := 1.
Definition MAXYEAR : Z := 9999.

(** The constructor [datetime(year, month, day)], which checks its
    fields: [ValueError] for a year outside [MINYEAR..MAXYEAR], a month
    outside 1..12 or a day the month does not have. *)
Definition datetime_ymd (year month day : Z) : option Z :=
  if (MINYEAR <=? year) && (year <=? MAXYEAR)
     && (1 <=? month) && (month <=? 12)
     && (1 <=? day) && (day <=? days_in_month year month)
  then Some (datetime_of year month day 0 0 0)
  else None.

Definition wall_year (wall : Z) : Z := fst (fst (ord2ymd (wall_date wall))).
Definition wall_month (wall : Z) : Z := snd (fst (ord2ymd (wall_date wall))).
Definition wall_day (wall : Z) : Z := snd (ord2ymd (wall_date wall)).

(** [datetime.weekday()]. *)
Definition weekday (wall : Z) : Z := weekday_of_ordinal (wall_date wall).

(** [strftime('%Y-%m-%d')] and [strftime('%Y-%m')], the year written
    with four digits (0001, ..., 9999) as the [datetime] documentation
    has it. *)
Definition strftime_Y_m (wall : Z) : str :=
  zero_pad 4 (decimal (wall_year wall)) ++ [hyphen]
  ++ zero_pad 2 (decimal (wall_month wall)).

Definition strftime_Y_m_d (wall : Z) : str :=
  strftime_Y_m wall ++ [hyphen] ++ zero_pad 2 (decimal (wall_day wall)).


(** ** Interfaces to the libraries the script calls *)

(** Python floats: [0.0], [+], [/] and the conversion [float(n)] of an
    integer. *)
Class FloatOps (F : Type) := {
  f_zero : F;
  f_add : F -> F -> F;
  f_div : F -> F -> F;
  f_of_int : Z -> F
}.

(** The [re] module: [re.compile(text, flags)], which raises [re.error]
    on a malformed expression ([None]), and [regex.search(text)], read
    as a truth value. *)
Inductive re_flags := NOFLAG | IGNORECASE.

Class ReEngine (Pattern : Type) := {
  re_compile : str -> re_flags -> option Pattern;
  re_search : Pattern -> str -> bool
}.

(** The zone behind [self.local_tz]: the UTC offset in force at a UTC
    instant (what [fromutc] adds) and the offset [utcoffset()] reports
    for a wall clock with [fold=0]. *)
Class TzData := {
  tz_utc_offset : Z -> Z;
  tz_wall_offset : Z -> Z
}.

(** ** Calendar data *)

(** The [.dt] of a DTSTART or DTEND property: a [date], or a [datetime]
    that is naive ([None]) or carries a tzinfo, given by its
    [utcoffset] as a function of the wall clock. *)
Inductive dt_value :=
| DateValue (ordinal : Z)
| DateTimeValue (wall : Z) (tzinfo : option (Z -> Z)).

Record component := {
  comp_name : str;
  comp_dtstart : option dt_value;
  comp_dtend : option dt_value;
  comp_summary : option str;
  comp_description : option str;
  comp_location : option str
}.

(** A [datetime] whose tzinfo is [self.local_tz], with the value of its
    [utcoffset()]. *)
Record local_datetime := {
  ld_wall : Z;
  ld_utcoffset : Z
}.

(** The bounds of the analysis window are aware datetimes: either their
    tzinfo is the very object [self.local_tz], or it is another tzinfo. *)
Inductive window_bound :=
| SameTz (wall : Z)
| OtherTz (wall : Z) (utcoffset : Z).

(** An entry of [events_data]: [(event_start, summary, duration)]. *)
Definition event := (local_datetime * str * Z)%type.

Definition event_start (e : event) : local_datetime := fst (fst e).
Definition event_summary (e : event) : str := snd (fst e).
Definition event_duration (e : event) : Z := snd e.

Definition is_datetime (v : dt_value) : bool :=
  match v with
  | DateTimeValue _ _ => true
  | DateValue _ => false
  end.

(** [v + timedelta(seconds=s)]: a [date] moves by the whole days of the
    timedelta, a [datetime] keeps its tzinfo. *)
Definition add_timedelta (v : dt_value) (seconds : Z) : dt_value :=
  match v with
  | DateValue ordinal => DateValue (ordinal + seconds / SECONDS_PER_DAY)
  | DateTimeValue wall tzinfo => DateTimeValue (wall + seconds) tzinfo
  end.

(** The instant (seconds on the UTC scale) a file value denotes, when it
    carries a tzinfo. *)
Definition file_instant (v : dt_value) : option Z :=
  match v with
  | DateTimeValue wall (Some utcoffset) => Some (wall - utcoffset wall)
  | _ => None
  end.

Definition local_instant (d : local_datetime) : Z := ld_wall d - ld_utcoffset d.

(** [a < b] and [a > b] between a local datetime and a window bound:
    same tzinfo object, the wall clocks are compared; otherwise the
    instants are. *)
Definition dt_lt (a : local_datetime) (b : window_bound) : bool :=
  match b with
  | SameTz wall => ld_wall a <? wall
  | OtherTz wall utcoffset => local_instant a <? wall - utcoffset
  end.

Definition dt_gt (a : local_datetime) (b : window_bound) : bool :=
  match b with
  | SameTz wall => wall <? ld_wall a
  | OtherTz wall utcoffset => wall - utcoffset <? local_instant a
  end.

(** [a - b] for two datetimes that share the tzinfo object: the
    tzinfo is then ignored and the wall clocks are subtracted, without
    any time zone adjustment. *)
Definition dt_sub (a b : local_datetime) : Z := ld_wall a - ld_wall b.

(** [str(component.get(key, ''))]. *)
Definition text_of (field : option str) : str :=
  match field with
  | Some s => s
  | None => []
  end.

(** A loop whose body may raise. *)
Fixpoint foldM {A S : Type} (f : S -> A -> option S) (l : list A) (s : S)
  : option S :=
  match l with
  | [] => Some s
  | x :: l' =>
      match f s x with
      | Some s' => foldM f l' s'
      | None => None
      end
  end.

(** [d[k] = f(d[k])]. *)
Definition dict_update {V : Type} (d : dict V) (k : str) (f : V -> V)
  : option (dict V) :=
  match dict_get d k with
  | Some v => Some (dict_set d k (f v))
  | None => None
  end.

(** [{k: v for k in keys}]. *)
Definition dict_fromkeys {V : Type} (keys : list str) (v : V) : dict V :=
  fold_left (fun d k => dict_set d k v) keys [].

Definition VEVENT : str := py_str "VEVENT".

(** ** [CalendarAnalyzer.analyze_events] *)

Section Analyzer.
Context {Pattern : Type} {RE : ReEngine Pattern} {TZ : TzData}.

(** [x.replace(tzinfo=timezone.utc)]: the wall clock is kept and read as
    UTC from now on. *)
Definition replace_tzinfo_utc (wall : Z) (tzinfo : option (Z -> Z)) : Z := wall.

(** [x.astimezone(self.local_tz)] on a UTC datetime. *)
Definition astimezone_local (utc : Z) : local_datetime :=
  {| ld_wall := utc + tz_utc_offset utc; ld_utcoffset := tz_utc_offset utc |}.

(** [datetime.combine(d, datetime.min.time(), tzinfo=self.local_tz)]. *)
Definition combine_midnight_local (ordinal : Z) : local_datetime :=
  {| ld_wall := ordinal * SECONDS_PER_DAY;
     ld_utcoffset := tz_wall_offset (ordinal * SECONDS_PER_DAY) |}.

Definition normalize (v : dt_value) : local_datetime :=
  match v with
  | DateTimeValue wall tzinfo => astimezone_local (replace_tzinfo_utc wall tzinfo)
  | DateValue ordinal => combine_midnight_local ordinal
  end.

Definition searchable_text (summary description location : str) : str :=
  summary ++ [space] ++ description ++ [space] ++ location.

(** [for pattern_name, regex in patterns.items(): ...] *)
Definition match_pattern (text : str) (e : event)
  (st : dict (list event) * bool) (item : str * Pattern)
  : option (dict (list event) * bool) :=
  let '(events_data, matched) := st in
  let '(pattern_name, regex) := item in
  if re_search regex text then
    match dict_update events_data pattern_name (fun l => l ++ [e]) with
    | Some events_data' => Some (events_data', true)
    | None => None
    end
  else Some (events_data, matched).

(** The body of the loop over components; the state is [events_data]
    and [unmatched_events]. *)
Definition process_component (start_time end_time : window_bound)
  (patterns : dict Pattern) (st : dict (list event) * list event)
  (c : component) : option (dict (list event) * list event) :=
  let '(events_data, unmatched_events) := st in
  if negb (str_eqb (comp_name c) VEVENT) then Some st
  else
    match comp_dtstart c with
    | None => Some st
    | Some event_start =>
        let event_end :=
          match comp_dtend c with
          | None => add_timedelta event_start 3600
          | Some dtend => dtend
          end in
        let is_all_day := negb (is_datetime event_start) in
        let event_start := normalize event_start in
        let event_end := normalize event_end in
        if dt_lt event_end start_time || dt_gt event_start end_time then Some st
        else
          let duration :=
            if is_all_day then 0 else dt_sub event_end event_start in
          let summary := text_of (comp_summary c) in
          let description := text_of (comp_description c) in
          let location := text_of (comp_location c) in
          let text := searchable_text summary description location in
          let e : event := (event_start, summary, duration) in
          match foldM (match_pattern text e) patterns (events_data, false) with
          | Some (events_data', matched) =>
              if negb matched then Some (events_data', unmatched_events ++ [e])
              else Some (events_data', unmatched_events)
          | None => None
          end
    end.

(** The result pairs the returned [events_data] with the list of
    unmatched events that the function prints. *)
Definition analyze_events (calendars : list (list component))
  (start_time end_time : window_bound) (patterns : dict Pattern)
  : option (dict (list event) * list event) :=
  let events_data := dict_fromkeys (dict_keys patterns) ([] : list event) in
  foldM (process_component start_time end_time patterns)
        (List.concat calendars) (events_data, []).

End Analyzer.

(** ** Statistics over [events_data] *)

Section Statistics.
Context {F : Type} {FO : FloatOps F}.

Record day_stat := {
  ds_count : Z;
  ds_total_hours : F;
  ds_avg_hours : F
}.

Record week_stat := {
  ws_total_hours : F;
  ws_avg_hours : F
}.

Record month_stat := {
  ms_total_hours : F;
  ms_avg_hours : F;
  ms_event_count : Z
}.

Definition days : list str :=
  map py_str
    ["Monday"; "Tuesday"; "Wednesday"; "Thursday"; "Friday"; "Saturday";
     "Sunday"]%string.

(** [duration.total_seconds() / 3600]. *)
Definition hours_of (duration : Z) : F :=
  f_div (f_of_int duration) (f_of_int 3600).

Definition event_wall (e : event) : Z := ld_wall (event_start e).

(** *** [get_day_stats] *)

Definition zero_day_stat : day_stat :=
  {| ds_count := 0; ds_total_hours := f_zero; ds_avg_hours := f_zero |}.

Definition day_stat_add (hours : F) (s : day_stat) : day_stat :=
  {| ds_count := ds_count s + 1;
     ds_total_hours := f_add (ds_total_hours s) hours;
     ds_avg_hours := ds_avg_hours s |}.

(** The body of the loop over the events of [pattern]. *)
Definition day_stats_record (pattern : str)
  (distribution : dict (dict day_stat)) (e : event)
  : option (dict (dict day_stat)) :=
  match nth_error days (Z.to_nat (weekday (event_wall e))) with
  | None => None
  | Some day =>
      let hours := hours_of (event_duration e) in
      match dict_get distribution pattern with
      | None => None
      | Some by_day =>
          match dict_update by_day day (day_stat_add hours) with
          | Some by_day' => Some (dict_set distribution pattern by_day')
          | None => None
          end
      end
  end.

(** The body of the closing loop, for [pattern] and [day]. *)
Definition day_stats_average (pattern : str)
  (distribution : dict (dict day_stat)) (day : str)
  : option (dict (dict day_stat)) :=
  match dict_get distribution pattern with
  | None => None
  | Some by_day =>
      match dict_get by_day day with
      | None => None
      | Some s =>
          let count := ds_count s in
          if 0 <? count then
            Some (dict_set distribution pattern
                    (dict_set by_day day
                       {| ds_count := ds_count s;
                          ds_total_hours := ds_total_hours s;
                          ds_avg_hours :=
                            f_div (ds_total_hours s) (f_of_int count) |}))
          else Some distribution
      end
  end.

Definition get_day_stats (events_data : dict (list event))
  : option (dict (dict day_stat)) :=
  let distribution :=
    fold_left
      (fun d pattern => dict_set d pattern (dict_fromkeys days zero_day_stat))
      (dict_keys events_data) [] in
  match
    foldM (fun d item => foldM (day_stats_record (fst item)) (snd item) d)
          events_data distribution
  with
  | None => None
  | Some distribution =>
      foldM (fun d pattern => foldM (day_stats_average pattern) days d)
            (dict_keys distribution) distribution
  end.

(** *** [get_time_spent] *)

Definition get_time_spent (events_data : dict (list event)) : dict Z :=
  fold_left
    (fun d item =>
       dict_set d (fst item)
         (fold_left Z.add (map event_duration (snd item)) 0))
    events_data [].

(** *** [get_weekly_stats] *)

Definition zero_week_stat : week_stat :=
  {| ws_total_hours := f_zero; ws_avg_hours := f_zero |}.

(** [(event_start - timedelta(days=event_start.weekday())).strftime('%Y-%m-%d')] *)
Definition week_key (e : event) : str :=
  let monday := event_wall e - weekday (event_wall e) * SECONDS_PER_DAY in
  strftime_Y_m_d monday.

Definition week_stat_add (hours : F) (w : week_stat) : week_stat :=
  {| ws_total_hours := f_add (ws_total_hours w) hours;
     ws_avg_hours := ws_avg_hours w |}.

Definition weekly_record (pattern : str) (weekly_stats : dict (dict week_stat))
  (e : event) : option (dict (dict week_stat)) :=
  let key := week_key e in
  match dict_get weekly_stats pattern with
  | None => None
  | Some weeks =>
      let weeks :=
        if negb (dict_contains weeks key) then dict_set weeks key zero_week_stat
        else weeks in
      match dict_update weeks key (week_stat_add (hours_of (event_duration e))) with
      | Some weeks' => Some (dict_set weekly_stats pattern weeks')
      | None => None
      end
  end.

Definition week_average (w : week_stat) : week_stat :=
  {| ws_total_hours := ws_total_hours w;
     ws_avg_hours := f_div (ws_total_hours w) (f_of_int 7) |}.

Definition weekly_averages (pattern : str) (weekly_stats : dict (dict week_stat))
  : option (dict (dict week_stat)) :=
  match dict_get weekly_stats pattern with
  | None => None
  | Some weeks =>
      Some (dict_set weekly_stats pattern
              (map (fun kv => (fst kv, week_average (snd kv))) weeks))
  end.

Definition get_weekly_stats (events_data : dict (list event))
  : option (dict (dict week_stat)) :=
  foldM
    (fun weekly_stats item =>
       let weekly_stats := dict_set weekly_stats (fst item) [] in
       match foldM (weekly_record (fst item)) (snd item) weekly_stats with
       | Some weekly_stats => weekly_averages (fst item) weekly_stats
       | None => None
       end)
    events_data [].

(** *** [get_monthly_stats] *)

Definition zero_month_stat : month_stat :=
  {| ms_total_hours := f_zero; ms_avg_hours := f_zero; ms_event_count := 0 |}.

Definition month_key (e : event) : str := strftime_Y_m (event_wall e).

Definition month_stat_add (hours : F) (s : month_stat) : month_stat :=
  {| ms_total_hours := f_add (ms_total_hours s) hours;
     ms_avg_hours := ms_avg_hours s;
     ms_event_count := ms_event_count s + 1 |}.

Definition monthly_record (pattern : str)
  (monthly_stats : dict (dict month_stat)) (e : event)
  : option (dict (dict month_stat)) :=
  let key := month_key e in
  match dict_get monthly_stats pattern with
  | None => None
  | Some months =>
      let months :=
        if negb (dict_contains months key) then dict_set months key zero_month_stat
        else months in
      match dict_update months key (month_stat_add (hours_of (event_duration e))) with
      | Some months' => Some (dict_set monthly_stats pattern months')
      | None => None
      end
  end.

(** [next_month] and [(next_month - datetime(year, month, 1)).days];
    [datetime(year + 1, 1, 1)] raises [ValueError] in December of
    [MAXYEAR]. *)
Definition month_days (year month : Z) : option Z :=
  match
    (if month =? 12 then datetime_ymd (year + 1) 1 1
     else datetime_ymd year (month + 1) 1)
  with
  | None => None
  | Some next_month =>
      match datetime_ymd year month 1 with
      | None => None
      | Some first => Some ((next_month - first) / SECONDS_PER_DAY)
      end
  end.

(** The body of the closing loop over [monthly_stats[pattern].items()];
    unpacking, [int] or [datetime] may raise [ValueError]. *)
Definition month_average (key : str) (s : month_stat) : option month_stat :=
  match map py_int (split hyphen key) with
  | [Some year; Some month] =>
      match month_days year month with
      | None => None
      | Some days_in_month =>
          let weeks_in_month := f_div (f_of_int days_in_month) (f_of_int 7) in
          Some {| ms_total_hours := ms_total_hours s;
                  ms_avg_hours := f_div (ms_total_hours s) weeks_in_month;
                  ms_event_count := ms_event_count s |}
      end
  | _ => None
  end.

Fixpoint month_averages (months : dict month_stat) : option (dict month_stat) :=
  match months with
  | [] => Some []
  | (key, s) :: rest =>
      match month_average key s, month_averages rest with
      | Some s', Some rest' => Some ((key, s') :: rest')
      | _, _ => None
      end
  end.

Definition monthly_averages (pattern : str)
  (monthly_stats : dict (dict month_stat))
  : option (dict (dict month_stat)) :=
  match dict_get monthly_stats pattern with
  | None => None
  | Some months =>
      match month_averages months with
      | Some months' => Some (dict_set monthly_stats pattern months')
      | None => None
      end
  end.

Definition get_monthly_stats (events_data : dict (list event))
  : option (dict (dict month_stat)) :=
  foldM
    (fun monthly_stats item =>
       let monthly_stats := dict_set monthly_stats (fst item) [] in
       match foldM (monthly_record (fst item)) (snd item) monthly_stats with
       | Some monthly_stats => monthly_averages (fst item) monthly_stats
       | None => None
       end)
    events_data [].

End Statistics.

Arguments day_stat F : clear implicits.
Arguments week_stat F : clear implicits.
Arguments month_stat F : clear implicits.

(** ** [load_or_generate_patterns] *)

Section Patterns.
Context {Pattern : Type} {RE : ReEngine Pattern}.

(** The body of [for line in f]. *)
Definition load_pattern_line (patterns : dict Pattern) (line : str)
  : option (dict Pattern) :=
  let line := strip line in
  match line with
  | [] => Some patterns
  | _ =>
      if negb (contains_char colon line) then Some patterns
      else
        match split1 colon line with
        | [name; regex] =>
            match re_compile (strip regex) IGNORECASE with
            | Some compiled => Some (dict_set patterns (strip name) compiled)
            | None => None
            end
        | _ => None
        end
  end.

(** [patterns_file] holds the lines of the file when it exists.  When it
    does not, the function writes a generated file and returns the empty
    dictionary; only the returned value is modelled in that case. *)
Definition load_or_generate_patterns (patterns_file : option (list str))
  : option (dict Pattern) :=
  match patterns_file with
  | Some lines => foldM load_pattern_line lines []
  | None => Some []
  end.

End Patterns.

(** ** Instances *)

(** Exact rational arithmetic, an instance of [FloatOps] free of
    rounding. *)
Definition exact_arith : FloatOps Qc :=
  {| f_zero := Q2Qc 0;
     f_add := Qcplus;
     f_div := Qcdiv;
     f_of_int := fun n => Q2Qc (inject_Z n) |}.

(** Python's floats, IEEE 754 binary64 with rounding to nearest even, as
    the primitive floats of the kernel.  [float(n)] is computed from the
    binary digits of [n], which is exact below 2^53: the durations in
    seconds, the counts and the day numbers the script converts all lie
    below that bound. *)
Fixpoint float_of_pos (p : positive) : PrimFloat.float :=
  match p with
  | xH => PrimFloat.one
  | xO q => PrimFloat.mul (float_of_pos q) PrimFloat.two
  | xI q => PrimFloat.add (PrimFloat.mul (float_of_pos q) PrimFloat.two)
                          PrimFloat.one
  end.

Definition float_of_int (n : Z) : PrimFloat.float :=
  match n with
  | Z0 => PrimFloat.zero
  | Zpos p => float_of_pos p
  | Zneg p => PrimFloat.opp (float_of_pos p)
  end.

Definition binary64 : FloatOps PrimFloat.float :=
  {| f_zero := PrimFloat.zero;
     f_add := PrimFloat.add;
     f_div := PrimFloat.div;
     f_of_int := float_of_int |}.

(** America/Los_Angeles under the United States rules in force since
    2007 (taken from the zone database): daylight time from the second
    Sunday of March, 02:00 standard time, to the first Sunday of
    November, 02:00 daylight time. *)
Definition PST : Z := -28800.
Definition PDT : Z := -25200.

Definition sunday_on_or_after (ordinal : Z) : Z :=
  ordinal + (6 - weekday_of_ordinal ordinal) mod 7.

Definition dst_start_day (year : Z) : Z := sunday_on_or_after (ymd2ord year 3 8).
Definition dst_end_day (year : Z) : Z := sunday_on_or_after (ymd2ord year 11 1).

Definition la_utc_offset (utc : Z) : Z :=
  let year := wall_year utc in
  if (dst_start_day year * SECONDS_PER_DAY + 7200 - PST <=? utc)
     && (utc <? dst_end_day year * SECONDS_PER_DAY + 7200 - PDT)
  then PDT else PST.

Definition la_wall_offset (wall : Z) : Z :=
  let year := wall_year wall in
  if (dst_start_day year * SECONDS_PER_DAY + 7200 <=? wall)
     && (wall <? dst_end_day year * SECONDS_PER_DAY + 7200)
  then PDT else PST.

Definition los_angeles : TzData :=
  {| tz_utc_offset := la_utc_offset; tz_wall_offset := la_wall_offset |}.


(** A small engine for literal patterns, enough to run the analyzer on
    concrete calendars: a pattern is a text free of the metacharacters
    of regular expressions, found when it occurs as a contiguous part of
    the searched text, letters a-z and A-Z being alike under
    IGNORECASE.  Texts with metacharacters are outside this engine, which
    rejects them, as [re.compile] rejects the text "(". *)
Fixpoint starts_with (p s : str) : bool :=
  match p, s with
  | [], _ => true
  | x :: p', y :: s' => N.eqb x y && starts_with p' s'
  | _ :: _, [] => false
  end.

Fixpoint occurs_in (p s : str) : bool :=
  starts_with p s
  || match s with
     | [] => false
     | _ :: s' => occurs_in p s'
     end.

Definition ascii_lower (c : N) : N :=
  if ((65 <=? c) && (c <=? 90))%N then (c + 32)%N else c.

Definition is_metachar (c : N) : bool :=
  existsb (N.eqb c) (py_str ".^$*+?{}[]\|()").

Definition literal_pattern := (str * re_flags)%type.

Definition literal_compile (text : str) (flags : re_flags)
  : option literal_pattern :=
  if existsb is_metachar text then None else Some (text, flags).

Definition literal_search (p : literal_pattern) (text : str) : bool :=
  match snd p with
  | IGNORECASE => occurs_in (map ascii_lower (fst p)) (map ascii_lower text)
  | NOFLAG => occurs_in (fst p) text
  end.

Definition literal_engine : ReEngine literal_pattern :=
  {| re_compile := literal_compile; re_search := literal_search |}.

(** ** What [analyze_events] records for one component *)

Section Recorded.
Context {Pattern : Type} {RE : ReEngine Pattern} {TZ : TzData}.

(** The value [event_end] holds before normalisation. *)
Definition end_value (c : component) (dtstart : dt_value) : dt_value :=
  match comp_dtend c with
  | None => add_timedelta dtstart 3600
  | Some dtend => dtend
  end.

Definition component_text (c : component) : str :=
  searchable_text (text_of (comp_summary c)) (text_of (comp_description c))
                  (text_of (comp_location c)).

(** The tuple appended for a component with DTSTART [dtstart]. *)
Definition recorded_event (c : component) (dtstart : dt_value) : event :=
  (normalize dtstart, text_of (comp_summary c),
   if is_datetime dtstart then dt_sub (normalize (end_value c dtstart)) (normalize dtstart)
   else 0).

(** The components that reach the pattern loop, with their tuple. *)
Definition considered (start_time end_time : window_bound) (c : component)
  : option event :=
  if str_eqb (comp_name c) VEVENT then
    match comp_dtstart c with
    | Some dtstart =>
        if dt_lt (normalize (end_value c dtstart)) start_time
           || dt_gt (normalize dtstart) end_time
        then None
        else Some (recorded_event c dtstart)
    | None => None
    end
  else None.

Definition matches (regex : Pattern) (c : component) : bool :=
  re_search regex (component_text c).

Definition matches_any (patterns : dict Pattern) (c : component) : bool :=
  existsb (fun item => matches (snd item) c) patterns.

(** The tuples of the considered components among [cs] that satisfy [p],
    in calendar order. *)
Fixpoint events_where (start_time end_time : window_bound)
  (p : component -> bool) (cs : list component) : list event :=
  match cs with
  | [] => []
  | c :: cs' =>
      match considered start_time end_time c with
      | Some e =>
          if p c then e :: events_where start_time end_time p cs'
          else events_where start_time end_time p cs'
      | None => events_where start_time end_time p cs'
      end
  end.

End Recorded.


(** ** Calendar notions used in the statements *)

(** The length of a month of the Gregorian calendar, written out. *)
Definition month_length (year month : Z) : Z :=
  if month =? 2 then
    if (year mod 4 =? 0) && (negb (year mod 100 =? 0) || (year mod 400 =? 0))
    then 29 else 28
  else if (month =? 4) || (month =? 6) || (month =? 9) || (month =? 11) then 30
  else 31.

(** The ordinal of the Monday on or before the date of a wall clock. *)
Definition monday_of (wall : Z) : Z := wall_date wall - weekday wall.

(** ** Closed forms of the aggregation loops *)

Section Buckets.
Context {F : Type} {FO : FloatOps F} {X : Type}.
Variables (key : event -> str) (zero : X) (add : F -> X -> X).

(** One event added to the bucket its key names; a missing bucket starts
    from [zero]. *)
Definition bucket_add (inner : dict X) (e : event) : dict X :=
  let hours := hours_of (event_duration e) in
  match dict_get inner (key e) with
  | Some x => dict_set inner (key e) (add hours x)
  | None => dict_set inner (key e) (add hours zero)
  end.

(** The events of a list that fall into bucket [k]. *)
Definition bucket_events (k : str) (events : list event) : list event :=
  filter (fun e => str_eqb (key e) k) events.

Definition accumulate (x : X) (events : list event) : X :=
  fold_left (fun x e => add (hours_of (event_duration e)) x) events x.

End Buckets.

Section Totals.
Context {F : Type} {FO : FloatOps F}.

(** The float sum [0.0 + h1 + h2 + ...] of the hours of a list of
    events, added from left to right. *)
Definition total_of (events : list event) : F :=
  fold_left f_add (map (fun e => hours_of (event_duration e)) events) f_zero.

Definition day_name (i : Z) : str := nth (Z.to_nat i) days [].

Definition day_key (e : event) : str := day_name (weekday (event_wall e)).

(** The events of a list that start on weekday [i]. *)
Definition events_on_weekday (i : Z) (events : list event) : list event :=
  filter (fun e => weekday (event_wall e) =? i) events.

Definition day_average (s : day_stat F) : day_stat F :=
  if 0 <? ds_count s then
    {| ds_count := ds_count s;
       ds_total_hours := ds_total_hours s;
       ds_avg_hours := f_div (ds_total_hours s) (f_of_int (ds_count s)) |}
  else s.

(** The closing loop of [get_day_stats], for one pattern and one day. *)
Definition average_day (by_day : dict (day_stat F)) (day : str)
  : dict (day_stat F) :=
  match dict_get by_day day with
  | Some s => dict_set by_day day (day_average s)
  | None => by_day
  end.

Definition has_all_days (by_day : dict (day_stat F)) : Prop :=
  dict_keys by_day = days.

(** What [get_day_stats] stores for a pattern with the given events. *)
Definition day_table (events : list event) : dict (day_stat F) :=
  fold_left average_day days
    (fold_left (bucket_add day_key zero_day_stat day_stat_add) events
       (dict_fromkeys days zero_day_stat)).

(** What [get_weekly_stats] stores for a pattern with the given events. *)
Definition week_table (events : list event) : dict (week_stat F) :=
  map (fun kv => (fst kv, week_average (snd kv)))
      (fold_left (bucket_add week_key zero_week_stat week_stat_add) events []).

(** What [get_monthly_stats] stores for a pattern with the given events. *)
Definition month_table (events : list event) : dict (month_stat F) :=
  match
    month_averages
      (fold_left (bucket_add month_key zero_month_stat month_stat_add) events [])
  with
  | Some months => months
  | None => []
  end.

(** The start of every event is a [datetime] in a month that has a next
    month: its date is no earlier than day 1 (1 January of year 1), its
    year no later than [MAXYEAR], and it is not in December of
    [MAXYEAR]. *)
Definition valid_events (events : list event) : Prop :=
  forall e, In e events ->
            1 <= wall_date (event_wall e)
            /\ wall_year (event_wall e) <= MAXYEAR
            /\ (wall_year (event_wall e) = MAXYEAR ->
                wall_month (event_wall e) <> 12).

End Totals.

(** ** Reading a pattern line *)

(** The text before the first occurrence of [sep], and the text after
    it. *)
Fixpoint before_sep (sep : N) (s : str) : str :=
  match s with
  | [] => []
  | c :: s' => if N.eqb c sep then [] else c :: before_sep sep s'
  end.

Fixpoint after_sep (sep : N) (s : str) : str :=
  match s with
  | [] => []
  | c :: s' => if N.eqb c sep then s' else after_sep sep s'
  end.

(** The name and the expression text a line of the pattern file
    defines; [None] for a line that is skipped. *)
Definition pattern_line (line : str) : option (str * str) :=
  let line := strip line in
  match line with
  | [] => None
  | _ =>
      if contains_char colon line
      then Some (strip (before_sep colon line), strip (after_sep colon line))
      else None
  end.

(** The expression text of the last line that defines [name]. *)
Fixpoint last_definition (name : str) (lines : list str) : option str :=
  match lines with
  | [] => None
  | line :: rest =>
      match last_definition name rest with
      | Some regex => Some regex
      | None =>
          match pattern_line line with
          | Some (n, regex) => if str_eqb n name then Some regex else None
          | None => None
          end
      end
  end.

(** ** A sample calendar *)

Definition utc_tzinfo : option (Z -> Z) := Some (fun _ => 0).

(** A half-hour meeting on Monday 11 March 2024, 16:00 UTC. *)
Definition standup : component :=
  {| comp_name := VEVENT;
     comp_dtstart := Some (DateTimeValue (datetime_of 2024 3 11 16 0 0) utc_tzinfo);
     comp_dtend := Some (DateTimeValue (datetime_of 2024 3 11 16 30 0) utc_tzinfo);
     comp_summary := Some (py_str "Team standup");
     comp_description := None;
     comp_location := Some (py_str "Room 4") |}.

(** An all-day entry on Tuesday 12 March 2024, without DTEND. *)
Definition holiday : component :=
  {| comp_name := VEVENT;
     comp_dtstart := Some (DateValue (ymd2ord 2024 3 12));
     comp_dtend := None;
     comp_summary := Some (py_str "Holiday");
     comp_description := Some (py_str "office closed");
     comp_location := None |}.

(** A meeting of the year before, outside the sample window. *)
Definition last_year : component :=
  {| comp_name := VEVENT;
     comp_dtstart := Some (DateTimeValue (datetime_of 2023 3 11 16 0 0) utc_tzinfo);
     comp_dtend := Some (DateTimeValue (datetime_of 2023 3 11 17 0 0) utc_tzinfo);
     comp_summary := Some (py_str "Team standup");
     comp_description := None;
     comp_location := None |}.

(** A component that is not an event. *)
Definition timezone_block : component :=
  {| comp_name := py_str "VTIMEZONE";
     comp_dtstart := None;
     comp_dtend := None;
     comp_summary := None;
     comp_description := None;
     comp_location := None |}.

(** DTSTART;TZID=America/Los_Angeles:20240115T100000, one hour long. *)
Definition zoned_meeting : component :=
  {| comp_name := VEVENT;
     comp_dtstart :=
       Some (DateTimeValue (datetime_of 2024 1 15 10 0 0) (Some la_wall_offset));
     comp_dtend :=
       Some (DateTimeValue (datetime_of 2024 1 15 11 0 0) (Some la_wall_offset));
     comp_summary := Some (py_str "Review");
     comp_description := None;
     comp_location := None |}.

(** DTSTART:20240310T093000Z without DTEND: the default hour spans the
    start of daylight time in Los Angeles (10:00 UTC that day). *)
Definition spring_forward : component :=
  {| comp_name := VEVENT;
     comp_dtstart := Some (DateTimeValue (datetime_of 2024 3 10 9 30 0) utc_tzinfo);
     comp_dtend := None;
     comp_summary := Some (py_str "Call");
     comp_description := None;
     comp_location := None |}.

Definition sample_calendars : list (list component) :=
  [[timezone_block; standup; holiday]; [last_year]].

Definition sample_patterns : dict literal_pattern :=
  [(py_str "meetings", (py_str "standup", IGNORECASE));
   (py_str "rooms", (py_str "room", IGNORECASE))].

(** The window [--start 2024-03-01 --end 2024-03-31], in the analyzer's
    own zone. *)
Definition march_start : window_bound := SameTz (datetime_of 2024 3 1 0 0 0).
Definition march_end : window_bound := SameTz (datetime_of 2024 3 31 23 59 59).

(** A decision procedure for the distinctness of keys. *)
Fixpoint distinct (keys : list str) : bool :=
  match keys with
  | [] => true
  | k :: rest => negb (existsb (str_eqb k) rest) && distinct rest
  end.

(** ** Reading the statistics *)

Section Readers.
Context {F : Type} {FO : FloatOps F}.








End Readers.

(** Three tuples as [analyze_events] records them: the stand-up of
    Monday 11 March 2024, an hour on Wednesday 13 March, and the all-day
    entry of Tuesday 12 March. *)
Definition standup_event : event :=
  ({| ld_wall := datetime_of 2024 3 11 9 0 0; ld_utcoffset := PDT |},
   py_str "Team standup", 1800).

Definition sync_event : event :=
  ({| ld_wall := datetime_of 2024 3 13 10 0 0; ld_utcoffset := PDT |},
   py_str "Sync", 3600).

Definition holiday_event : event :=
  ({| ld_wall := ymd2ord 2024 3 12 * SECONDS_PER_DAY;
      ld_utcoffset := la_wall_offset (ymd2ord 2024 3 12 * SECONDS_PER_DAY) |},
   py_str "Holiday", 0).

Definition sample_events : dict (list event) :=
  [(py_str "meetings", [standup_event; holiday_event; sync_event]);
   (py_str "rooms", [standup_event])].

(** A decision procedure for the starts of all events being datetimes
    before December 9999. *)
Definition all_valid (events_data : dict (list event)) : bool :=
  forallb
    (fun item =>
       forallb (fun e => (1 <=? wall_date (ld_wall (event_start e)))
                         && (wall_date (ld_wall (event_start e))
                             <? ymd2ord 9999 12 1))
               (snd item))
    events_data.

Definition sample_lines : list str :=
  [py_str "  work : Standup "; py_str "# no colon here"; py_str "";
   py_str "sport:gym"; py_str "work:  review"].


(** DTSTART:20241103T081500Z with DTEND:20241103T091500Z: an hour from
    01:15 daylight time to 01:15 standard time, across the end of
    daylight time in Los Angeles (09:00 UTC that day). *)
Definition fall_back : component :=
  {| comp_name := VEVENT;
     comp_dtstart := Some (DateTimeValue (datetime_of 2024 11 3 8 15 0) utc_tzinfo);
     comp_dtend := Some (DateTimeValue (datetime_of 2024 11 3 9 15 0) utc_tzinfo);
     comp_summary := Some (py_str "Night shift");
     comp_description := None;
     comp_location := None |}.

Definition shift_patterns : dict literal_pattern :=
  [(py_str "shifts", (py_str "shift", IGNORECASE))].

(** A tuple whose start lies in December 9999, the last month of
    [datetime]. *)
Definition last_december_event : event :=
  ({| ld_wall := datetime_of 9999 12 15 10 0 0; ld_utcoffset := PST |},
   py_str "Party", 3600).

(** The literal engine with the group that switches IGNORECASE off: an
    expression of the form [(?-i:text)] finds [text] as it is written,
    whatever the flags the expression is compiled with. *)
Definition scoped_compile (text : str) (flags : re_flags)
  : option literal_pattern :=
  if starts_with (py_str "(?-i:") text
     && match List.rev text with
        | c :: _ => N.eqb c 41
        | [] => false
        end
  then literal_compile (removelast (skipn 5 text)) NOFLAG
  else literal_compile text flags.

Definition scoped_engine : ReEngine literal_pattern :=
  {| re_compile := scoped_compile; re_search := literal_search |}.



(** * More of the script *)

(** ** The window of [--start] and [--end] *)

(** The wall clock at a time of the day whose ordinal is given. *)
Definition wall_at (ordinal hour minute second : Z) : Z :=
  ordinal * SECONDS_PER_DAY + hour * 3600 + minute * 60 + second.

(** [start_time] is midnight of the start date and [end_time] 23:59:59
    of the end date, both with the tzinfo object of the analyzer
    ([tz.gettz] returns the same object for the same name); the dates
    are given by their ordinals. *)
Definition main_start_time (start_date : Z) : window_bound :=
  SameTz (wall_at start_date 0 0 0).

Definition main_end_time (end_date : Z) : window_bound :=
  SameTz (wall_at end_date 23 59 59).

(** ** The spreadsheet: one column for each day of the window *)

(** [[start_time + timedelta(days=i)
      for i in range((end_time - start_time).days + 1)]], on the wall
    clocks of two datetimes that share their tzinfo. *)
Definition date_list (start_wall end_wall : Z) : list Z :=
  map (fun i => start_wall + Z.of_nat i * SECONDS_PER_DAY)
      (seq 0 (Z.to_nat ((end_wall - start_wall) / SECONDS_PER_DAY + 1))).

(** [f"{d.day}-{d.month}-{d.year}"] *)
Definition date_label (wall : Z) : str :=
  decimal (wall_day wall) ++ [hyphen] ++ decimal (wall_month wall)
  ++ [hyphen] ++ decimal (wall_year wall).

(** The events whose hours the cell of [day] sums: those with
    [event_start.date() == day.date()]. *)
Definition day_events (events : list event) (day : Z) : list event :=
  filter (fun e => wall_date (ld_wall (event_start e)) =? wall_date day) events.

(** ** Generating the pattern file *)

(** The class [[A-Za-zА-Яа-я0-9]] of the keyword expression. *)
Definition is_word_char (c : N) : bool :=
  ((65 <=? c) && (c <=? 90) || (97 <=? c) && (c <=? 122)
   || (1040 <=? c) && (c <=? 1071) || (1072 <=? c) && (c <=? 1103)
   || (48 <=? c) && (c <=? 57))%N.

(** [re.findall(r"[A-Za-zА-Яа-я0-9]{3,}", text)]: scanning from the
    left, the greedy repetition takes every run of characters of the
    class whole, and keeps it when it has three characters or more.
    [run] is the run being read. *)
Fixpoint findall_words_from (run : str) (text : str) : list str :=
  match text with
  | [] => if (3 <=? List.length run)%nat then [run] else []
  | c :: text' =>
      if is_word_char c then findall_words_from (run ++ [c]) text'
      else (if (3 <=? List.length run)%nat then [run] else [])
           ++ findall_words_from [] text'
  end.

Definition findall_words (text : str) : list str := findall_words_from [] text.

(** A text all of whose characters are of the class. *)
Definition word_chars (w : str) : Prop :=
  forall c, In c w -> is_word_char c = true.

(** What stands before a maximal run, and what stands behind it: the
    end of the text or a character outside the class. *)
Definition left_boundary (pre : str) : Prop :=
  pre = [] \/ exists p x, pre = p ++ [x] /\ is_word_char x = false.

Definition right_boundary (post : str) : Prop :=
  match post with
  | [] => True
  | x :: _ => is_word_char x = false
  end.

(** [w.lower()] on a word of the class: the capital Latin and Cyrillic
    letters lie 32 code points below the small ones. *)
Definition lower_char (c : N) : N :=
  if ((65 <=? c) && (c <=? 90) || (1040 <=? c) && (c <=? 1071))%N
  then (c + 32)%N else c.

Definition str_lower (s : str) : str := map lower_char s.

(** [sep.join(parts)]. *)
Fixpoint join (sep : str) (parts : list str) : str :=
  match parts with
  | [] => []
  | [p] => p
  | p :: rest => p ++ sep ++ join sep rest
  end.

(** [keywords.add(w)], the set being kept as a list without
    repetition. *)
Definition set_add (keywords : list str) (w : str) : list str :=
  if existsb (str_eqb w) keywords then keywords else keywords ++ [w].

(** The body of the loop over the components of the calendar files. *)
Definition component_keywords (keywords : list str) (c : component)
  : list str :=
  if negb (str_eqb (comp_name c) VEVENT) then keywords
  else
    let text_parts :=
      [text_of (comp_summary c); text_of (comp_description c);
       text_of (comp_location c)] in
    let text := join [space] text_parts in
    let words := findall_words text in
    fold_left (fun keywords w => set_add keywords (str_lower w)) words keywords.

(** The words of one event. *)
Definition event_words (c : component) : list str :=
  findall_words
    (join [space]
       [text_of (comp_summary c); text_of (comp_description c);
        text_of (comp_location c)]).

Definition collect_keywords (calendars : list (list component)) : list str :=
  fold_left component_keywords (List.concat calendars) [].

(** The order of [str]: by code points, a proper prefix coming first. *)
Fixpoint str_ltb (a b : str) : bool :=
  match a, b with
  | _, [] => false
  | [], _ :: _ => true
  | x :: a', y :: b' => (x <? y)%N || ((x =? y)%N && str_ltb a' b')
  end.

(** [sorted(keywords)]. *)
Fixpoint insert_sorted (w : str) (l : list str) : list str :=
  match l with
  | [] => [w]
  | x :: l' => if str_ltb x w then x :: insert_sorted w l' else w :: l
  end.

Definition sorted (l : list str) : list str := fold_right insert_sorted [] l.

(** [f"{word}:(?i){word}\n"] *)
Definition pattern_file_line (word : str) : str :=
  word ++ py_str ":(?i)" ++ word ++ [10%N].

(** The texts handed to [f.write], one for each keyword. *)
Definition generated_pattern_file (calendars : list (list component))
  : list str :=
  map pattern_file_line (sorted (collect_keywords calendars)).

(** The characters that reach the file: in text mode each line feed
    written becomes [linesep], the line separator of the platform. *)
Definition written_text (linesep : str) (texts : list str) : str :=
  flat_map (fun c => if (c =? 10)%N then linesep else [c]) (List.concat texts).

(** Reading a text file: with universal newlines a carriage return,
    alone or before a line feed, reads as a line feed; [for line in f]
    then yields the lines with their line feed. *)
Fixpoint universal_newlines (text : str) : str :=
  match text with
  | [] => []
  | c :: text' =>
      if (c =? 13)%N then
        match text' with
        | c' :: text'' =>
            if (c' =? 10)%N then 10%N :: universal_newlines text''
            else 10%N :: universal_newlines text'
        | [] => [10%N]
        end
      else c :: universal_newlines text'
  end.

Fixpoint read_lines_from (line : str) (text : str) : list str :=
  match text with
  | [] => match line with [] => [] | _ => [line] end
  | c :: text' =>
      if (c =? 10)%N then (line ++ [c]) :: read_lines_from [] text'
      else read_lines_from (line ++ [c]) text'
  end.

Definition read_lines (text : str) : list str :=
  read_lines_from [] (universal_newlines text).

(** The literal engine with the inline flag of the generated lines: a
    leading [(?i)] switches IGNORECASE on for the literal text behind
    it. *)
Definition inline_flag : str := py_str "(?i)".

Definition inline_compile (text : str) (flags : re_flags)
  : option literal_pattern :=
  if starts_with inline_flag text
  then literal_compile (skipn 4 text) IGNORECASE
  else literal_compile text flags.

Definition inline_engine : ReEngine literal_pattern :=
  {| re_compile := inline_compile; re_search := literal_search |}.

(** The names in the order of their first occurrence. *)
Fixpoint first_occurrences (names : list str) : list str :=
  match names with
  | [] => []
  | n :: rest =>
      n :: filter (fun n' => negb (str_eqb n' n)) (first_occurrences rest)
  end.

(** The names the lines of a pattern file define, line after line. *)
Definition defined_names (lines : list str) : list str :=
  flat_map (fun line =>
              match pattern_line line with
              | Some (name, _) => [name]
              | None => []
              end) lines.

(** ** Sums over the entries of a dictionary *)

(** [sum(f(v) for v in d.values())] for an integer valued [f]. *)
Definition dict_sum {V : Type} (f : V -> Z) (d : dict V) : Z :=
  fold_left Z.add (map (fun kv => f (snd kv)) d) 0.

(** * Properties *)

(** ** Strings and dictionaries *)

Lemma str_eqb_eq (a b : str) : str_eqb a b = true <-> a = b.
Proof.
  revert b; induction a as [|x a IH]; intros [|y b]; simpl;
    try (split; [discriminate | discriminate]); try tauto.
  rewrite andb_true_iff, N.eqb_eq, IH.
  split; [intros [-> ->]; reflexivity | intros H; inversion H; auto].
Qed.

Lemma str_eqb_refl (a : str) : str_eqb a a = true.
Proof. apply str_eqb_eq; reflexivity. Qed.

Lemma str_eqb_neq (a b : str) : str_eqb a b = false <-> a <> b.
Proof.
  rewrite <- str_eqb_eq. destruct (str_eqb a b); split; congruence.
Qed.

Section DictFacts.
Context {V : Type}.
Implicit Types (d : dict V) (k : str) (v : V).

Lemma dict_get_set_same d k v : dict_get (dict_set d k v) k = Some v.
Proof.
  induction d as [|[k' v'] d IH]; simpl.
  - now rewrite str_eqb_refl.
  - destruct (str_eqb k k') eqn:E; simpl; rewrite E; auto.
Qed.

Lemma dict_get_set_other d k k' v :
  k <> k' -> dict_get (dict_set d k v) k' = dict_get d k'.
Proof.
  intros Hne. induction d as [|[k0 v0] d IH]; simpl.
  - apply not_eq_sym, str_eqb_neq in Hne. now rewrite Hne.
  - destruct (str_eqb k k0) eqn:E; simpl.
    + apply str_eqb_eq in E; subst k0.
      apply not_eq_sym, str_eqb_neq in Hne. now rewrite Hne.
    + now rewrite IH.
Qed.

Lemma dict_get_set d k k' v :
  dict_get (dict_set d k v) k' = if str_eqb k k' then Some v else dict_get d k'.
Proof.
  destruct (str_eqb k k') eqn:E.
  - apply str_eqb_eq in E; subst. apply dict_get_set_same.
  - apply dict_get_set_other. now apply str_eqb_neq.
Qed.

Lemma dict_get_Some_In d k v : dict_get d k = Some v -> In k (dict_keys d).
Proof.
  induction d as [|[k' v'] d IH]; simpl; [discriminate|].
  destruct (str_eqb k k') eqn:E; auto.
  apply str_eqb_eq in E; auto.
Qed.

Lemma dict_get_None d k : dict_get d k = None <-> ~ In k (dict_keys d).
Proof.
  induction d as [|[k' v'] d IH]; simpl; [tauto|].
  destruct (str_eqb k k') eqn:E.
  - apply str_eqb_eq in E. split; [discriminate | intros H; exfalso; auto].
  - apply str_eqb_neq in E. rewrite IH. split; [intros H [H1|H1]; auto | tauto].
Qed.

Lemma dict_get_In d k : In k (dict_keys d) -> exists v, dict_get d k = Some v.
Proof.
  intros H. destruct (dict_get d k) eqn:E; eauto.
  apply dict_get_None in E. contradiction.
Qed.

Lemma dict_keys_set_present d k v :
  In k (dict_keys d) -> dict_keys (dict_set d k v) = dict_keys d.
Proof.
  induction d as [|[k' v'] d IH]; simpl; [tauto|].
  intros H. destruct (str_eqb k k') eqn:E; simpl; auto.
  apply str_eqb_neq in E. f_equal. apply IH. destruct H; congruence.
Qed.

Lemma dict_keys_set_absent d k v :
  ~ In k (dict_keys d) -> dict_keys (dict_set d k v) = dict_keys d ++ [k].
Proof.
  induction d as [|[k' v'] d IH]; simpl; auto.
  intros H. destruct (str_eqb k k') eqn:E; simpl.
  - apply str_eqb_eq in E. exfalso; auto.
  - f_equal. apply IH. auto.
Qed.

Lemma dict_wf_set d k v : dict_wf d -> dict_wf (dict_set d k v).
Proof.
  unfold dict_wf. intros H.
  destruct (in_dec (list_eq_dec N.eq_dec) k (dict_keys d)) as [Hin|Hin].
  - now rewrite dict_keys_set_present.
  - rewrite dict_keys_set_absent by assumption.
    apply NoDup_app; auto.
    + constructor; [intros [] | constructor].
    + intros x Hx [Hk|[]]. subst; auto.
Qed.

Lemma dict_get_wf_In d k v : dict_wf d -> In (k, v) d -> dict_get d k = Some v.
Proof.
  unfold dict_wf. induction d as [|[k' v'] d IH]; simpl; [tauto|].
  intros Hnd [H|H].
  - inversion H; subst. now rewrite str_eqb_refl.
  - inversion Hnd as [|? ? Hnotin Hnd']; subst.
    destruct (str_eqb k k') eqn:E; auto.
    apply str_eqb_eq in E; subst k'. exfalso. apply Hnotin.
    change k with (fst (k, v)). now apply in_map.
Qed.

Lemma dict_get_In_pair d k v : dict_get d k = Some v -> In (k, v) d.
Proof.
  induction d as [|[k' v'] d IH]; simpl; [discriminate|].
  destruct (str_eqb k k') eqn:E; auto.
  apply str_eqb_eq in E; subst. intros H; inversion H; auto.
Qed.

End DictFacts.

Lemma dict_fromkeys_fold {V : Type} (v : V) (keys : list str) (d0 : dict V) :
  NoDup (dict_keys d0 ++ keys) ->
  dict_keys (fold_left (fun d k => dict_set d k v) keys d0) = dict_keys d0 ++ keys
  /\ forall k, dict_get (fold_left (fun d k => dict_set d k v) keys d0) k
               = if existsb (str_eqb k) keys then Some v else dict_get d0 k.
Proof.
  revert d0. induction keys as [|k0 keys IH]; intros d0 Hnd; simpl.
  - now rewrite app_nil_r.
  - assert (Hnotin : ~ In k0 (dict_keys d0)).
    { intros Hin. apply NoDup_remove_2 in Hnd. apply Hnd.
      apply in_or_app; auto. }
    destruct (IH (dict_set d0 k0 v)) as [Hk Hg].
    { rewrite dict_keys_set_absent by assumption.
      rewrite <- app_assoc. exact Hnd. }
    split.
    + rewrite Hk, dict_keys_set_absent by assumption.
      now rewrite <- app_assoc.
    + intros k. rewrite Hg, dict_get_set.
      destruct (str_eqb k k0) eqn:E; simpl.
      * apply str_eqb_eq in E; subst k0. rewrite str_eqb_refl.
        now destruct (existsb (str_eqb k) keys).
      * assert (E' : str_eqb k0 k = false).
        { apply str_eqb_neq. apply str_eqb_neq in E. congruence. }
        now rewrite E'.
Qed.

Lemma dict_fromkeys_keys {V : Type} (v : V) (keys : list str) :
  NoDup keys -> dict_keys (dict_fromkeys keys v) = keys.
Proof.
  intros H. apply (dict_fromkeys_fold v keys []). exact H.
Qed.

Lemma dict_fromkeys_get {V : Type} (v : V) (keys : list str) (k : str) :
  NoDup keys -> In k keys -> dict_get (dict_fromkeys keys v) k = Some v.
Proof.
  intros H Hin. unfold dict_fromkeys.
  destruct (dict_fromkeys_fold v keys [] H) as [_ Hg]. rewrite Hg.
  replace (existsb (str_eqb k) keys) with true; auto.
  symmetry. apply existsb_exists. exists k. split; auto. apply str_eqb_refl.
Qed.

(** ** The loops of [analyze_events] *)

Section AnalyzerFacts.
Context {Pattern : Type} {RE : ReEngine Pattern} {TZ : TzData}.

Lemma match_pattern_step (text : str) (e : event) (data : dict (list event))
  (m : bool) (k : str) (regex : Pattern) :
  match_pattern text e (data, m) (k, regex)
  = if re_search regex text then
      match dict_get data k with
      | Some l => Some (dict_set data k (l ++ [e]), true)
      | None => None
      end
    else Some (data, m).
Proof.
  unfold match_pattern, dict_update.
  destruct (re_search regex text); auto.
  destruct (dict_get data k); auto.
Qed.

Lemma match_patterns_spec (text : str) (e : event) (items : dict Pattern) :
  forall (data : dict (list event)) (m : bool),
    dict_wf items ->
    (forall k, In k (dict_keys items) -> In k (dict_keys data)) ->
    exists data',
      foldM (match_pattern text e) items (data, m)
      = Some (data', m || existsb (fun it => re_search (snd it) text) items)
      /\ dict_keys data' = dict_keys data
      /\ forall k,
           dict_get data' k
           = match dict_get items k with
             | Some regex =>
                 if re_search regex text
                 then option_map (fun l => l ++ [e]) (dict_get data k)
                 else dict_get data k
             | None => dict_get data k
             end.
Proof.
  induction items as [|[k0 rx0] items IH]; intros data m Hwf Hin.
  - exists data. simpl. rewrite orb_false_r. auto.
  - inversion Hwf as [|? ? Hnotin Hwf']; subst.
    assert (Hrest : dict_get items k0 = None) by now apply dict_get_None.
    cbn [foldM]. rewrite match_pattern_step.
    destruct (re_search rx0 text) eqn:Es.
    + destruct (dict_get_In data k0) as [l Hl]. { apply Hin. simpl; auto. }
      rewrite Hl.
      destruct (IH (dict_set data k0 (l ++ [e])) true Hwf') as (data' & Hf & Hk & Hg).
      { intros k Hk. rewrite dict_keys_set_present.
        - apply Hin. simpl; auto.
        - eapply dict_get_Some_In; eauto. }
      exists data'. split; [|split].
      * rewrite Hf. simpl. rewrite Es. now rewrite orb_true_r.
      * rewrite Hk. apply dict_keys_set_present. eapply dict_get_Some_In; eauto.
      * intros k. rewrite Hg. simpl. rewrite dict_get_set.
        destruct (str_eqb k k0) eqn:E.
        -- apply str_eqb_eq in E; subst k0. rewrite Hrest, str_eqb_refl, Es, Hl.
           reflexivity.
        -- assert (E' : str_eqb k0 k = false).
           { apply str_eqb_neq. apply str_eqb_neq in E. congruence. }
           rewrite E'. reflexivity.
    + destruct (IH data m Hwf') as (data' & Hf & Hk & Hg).
      { intros k Hk. apply Hin. simpl; auto. }
      exists data'. split; [|split]; auto.
      * rewrite Hf. simpl. now rewrite Es.
      * intros k. rewrite Hg. simpl.
        destruct (str_eqb k k0) eqn:E; auto.
        apply str_eqb_eq in E; subst k0. now rewrite Hrest, Es.
Qed.

Lemma process_component_considered (start_time end_time : window_bound)
  (patterns : dict Pattern) (data : dict (list event)) (un : list event)
  (c : component) :
  process_component start_time end_time patterns (data, un) c
  = match considered start_time end_time c with
    | None => Some (data, un)
    | Some e =>
        match foldM (match_pattern (component_text c) e) patterns (data, false) with
        | Some (data', matched) =>
            if negb matched then Some (data', un ++ [e]) else Some (data', un)
        | None => None
        end
    end.
Proof.
  unfold process_component, considered.
  destruct (str_eqb (comp_name c) VEVENT); simpl; auto.
  destruct (comp_dtstart c) as [v|]; auto.
  fold (end_value c v).
  destruct (dt_lt (normalize (end_value c v)) start_time
            || dt_gt (normalize v) end_time); auto.
  unfold recorded_event, component_text.
  destruct v; reflexivity.
Qed.

Lemma analyze_loop_spec (start_time end_time : window_bound)
  (patterns : dict Pattern) (cs : list component) :
  forall (data : dict (list event)) (un : list event),
    dict_wf patterns ->
    (forall k, In k (dict_keys patterns) -> In k (dict_keys data)) ->
    exists data',
      foldM (process_component start_time end_time patterns) cs (data, un)
      = Some (data',
              un ++ events_where start_time end_time
                      (fun c => negb (matches_any patterns c)) cs)
      /\ dict_keys data' = dict_keys data
      /\ forall k,
           dict_get data' k
           = match dict_get patterns k with
             | Some regex =>
                 option_map
                   (fun l => l ++ events_where start_time end_time (matches regex) cs)
                   (dict_get data k)
             | None => dict_get data k
             end.
Proof.
  induction cs as [|c cs IH]; intros data un Hwf Hin.
  - exists data. simpl. rewrite app_nil_r. split; [|split]; auto.
    intros k. destruct (dict_get patterns k); auto.
    destruct (dict_get data k); simpl; auto. now rewrite app_nil_r.
  - cbn [foldM]. rewrite process_component_considered.
    cbn [events_where].
    destruct (considered start_time end_time c) as [e|].
    + destruct (match_patterns_spec (component_text c) e patterns data false Hwf Hin)
        as (data1 & Hf & Hk & Hg).
      rewrite Hf. simpl orb.
      fold (matches_any patterns c) in *.
      change (existsb (fun it => re_search (snd it) (component_text c)) patterns)
        with (matches_any patterns c).
      assert (Hin1 : forall k, In k (dict_keys patterns) -> In k (dict_keys data1)).
      { intros k Hk'. rewrite Hk. auto. }
      destruct (matches_any patterns c) eqn:Em; simpl negb; cbv iota.
      * destruct (IH data1 un Hwf Hin1) as (data' & Hf' & Hk' & Hg').
        exists data'. split; [|split]; auto; try congruence.
        intros k. rewrite Hg', Hg.
        destruct (dict_get patterns k) as [rx|]; auto.
        unfold matches at 2. destruct (re_search rx (component_text c)); auto.
        destruct (dict_get data k); simpl; auto.
        now rewrite <- app_assoc.
      * destruct (IH data1 (un ++ [e]) Hwf Hin1) as (data' & Hf' & Hk' & Hg').
        exists data'. split; [|split]; auto; try congruence.
        -- rewrite Hf'. now rewrite <- app_assoc.
        -- intros k. rewrite Hg', Hg.
           destruct (dict_get patterns k) as [rx|]; auto.
           unfold matches at 2. destruct (re_search rx (component_text c)); auto.
           destruct (dict_get data k); simpl; auto.
           now rewrite <- app_assoc.
    + apply IH; auto.
Qed.

Lemma analyze_events_spec (calendars : list (list component))
  (start_time end_time : window_bound) (patterns : dict Pattern) :
  dict_wf patterns ->
  exists data,
    analyze_events calendars start_time end_time patterns
    = Some (data,
            events_where start_time end_time
              (fun c => negb (matches_any patterns c)) (List.concat calendars))
    /\ dict_keys data = dict_keys patterns
    /\ forall k regex,
         dict_get patterns k = Some regex ->
         dict_get data k
         = Some (events_where start_time end_time (matches regex)
                   (List.concat calendars)).
Proof.
  intros Hwf. unfold analyze_events.
  destruct (analyze_loop_spec start_time end_time patterns (List.concat calendars)
              (dict_fromkeys (dict_keys patterns) []) [] Hwf)
    as (data & Hf & Hk & Hg).
  { intros k Hk. now rewrite dict_fromkeys_keys. }
  exists data. split; [|split].
  - exact Hf.
  - rewrite Hk. now apply dict_fromkeys_keys.
  - intros k rx Hrx. rewrite Hg, Hrx.
    rewrite dict_fromkeys_get; auto.
    eapply dict_get_Some_In; eauto.
Qed.

End AnalyzerFacts.

(** ** Loops that update one entry of a dictionary *)

Section DictLoops.
Context {V : Type}.
Implicit Types (d : dict V) (k : str) (v : V).

Lemma dict_set_id d k v : dict_get d k = Some v -> dict_set d k v = d.
Proof.
  induction d as [|[k' v'] d IH]; simpl; [discriminate|].
  destruct (str_eqb k k') eqn:E.
  - intros H; inversion H; reflexivity.
  - intros H. now rewrite IH.
Qed.

Lemma dict_set_set d k v v' : dict_set (dict_set d k v) k v' = dict_set d k v'.
Proof.
  induction d as [|[k0 v0] d IH]; simpl.
  - now rewrite str_eqb_refl.
  - destruct (str_eqb k k0) eqn:E; simpl; rewrite E; auto.
    now rewrite IH.
Qed.

Lemma dict_keys_set_In d k v k' :
  In k' (dict_keys d) -> In k' (dict_keys (dict_set d k v)).
Proof.
  induction d as [|[k0 v0] d IH]; simpl; [tauto|].
  destruct (str_eqb k k0); simpl; intros [H|H]; auto.
Qed.

Lemma dict_get_map_values {W : Type} (f : V -> W) d k :
  dict_get (map (fun kv => (fst kv, f (snd kv))) d) k = option_map f (dict_get d k).
Proof.
  induction d as [|[k' v'] d IH]; simpl; auto.
  destruct (str_eqb k k'); auto.
Qed.


(** A loop whose body rewrites the value under [k] leaves a dictionary
    that differs from the initial one at [k] only. *)
Lemma foldM_update_entry {A : Type} (step : dict V -> A -> option (dict V))
  (pure : V -> A -> V) (Inv : V -> Prop) (P : A -> Prop) (k : str) :
  (forall d v a, P a -> dict_get d k = Some v -> Inv v ->
                 step d a = Some (dict_set d k (pure v a)) /\ Inv (pure v a)) ->
  forall (l : list A) d v,
    Forall P l -> dict_get d k = Some v -> Inv v ->
    foldM step l d = Some (dict_set d k (fold_left pure l v))
    /\ Inv (fold_left pure l v).
Proof.
  intros Hstep. induction l as [|a l IH]; intros d v HP Hg Hv; simpl.
  - split; auto. now rewrite dict_set_id.
  - inversion HP as [|? ? Pa HP']; subst.
    destruct (Hstep d v a Pa Hg Hv) as [Hs Hi]. rewrite Hs.
    destruct (IH (dict_set d k (pure v a)) (pure v a)) as [Hf Hi']; auto.
    { apply dict_get_set_same. }
    rewrite Hf, dict_set_set. auto.
Qed.

(** A loop over the items of a dictionary whose body rewrites the value
    stored under the item's key. *)
Lemma foldM_items_update {A : Type}
  (step : dict V -> str * A -> option (dict V)) (table : A -> V -> V)
  (Inv : V -> Prop) :
  (forall d k a v, dict_get d k = Some v -> Inv v ->
                   step d (k, a) = Some (dict_set d k (table a v))) ->
  forall (items : dict A) d,
    dict_wf items ->
    (forall k, In k (dict_keys items) -> exists v, dict_get d k = Some v /\ Inv v) ->
    exists d',
      foldM step items d = Some d'
      /\ dict_keys d' = dict_keys d
      /\ forall k,
           dict_get d' k
           = match dict_get items k with
             | Some a => option_map (table a) (dict_get d k)
             | None => dict_get d k
             end.
Proof.
  intros Hstep. induction items as [|[k0 a0] items IH]; intros d Hwf Hin.
  - exists d. simpl. auto.
  - inversion Hwf as [|? ? Hnotin Hwf']; subst.
    assert (Hrest : dict_get items k0 = None) by now apply dict_get_None.
    destruct (Hin k0) as (v0 & Hv0 & Hi0). { simpl; auto. }
    cbn [foldM]. rewrite (Hstep d k0 a0 v0 Hv0 Hi0).
    destruct (IH (dict_set d k0 (table a0 v0)) Hwf') as (d' & Hf & Hk & Hg).
    { intros k Hk. destruct (Hin k) as (v & Hv & Hi). { simpl; auto. }
      exists v. split; auto. rewrite dict_get_set_other; auto.
      intros ->. contradiction. }
    exists d'. split; [|split]; auto.
    + rewrite Hk. apply dict_keys_set_present. eapply dict_get_Some_In; eauto.
    + intros k. rewrite Hg. simpl. rewrite dict_get_set.
      destruct (str_eqb k k0) eqn:E.
      * apply str_eqb_eq in E; subst k0. rewrite Hrest, str_eqb_refl, Hv0.
        reflexivity.
      * assert (E' : str_eqb k0 k = false).
        { apply str_eqb_neq. apply str_eqb_neq in E. congruence. }
        rewrite E'. reflexivity.
Qed.

End DictLoops.

(** [{k: f(v) for k, v in items}] and loops of the same shape. *)
Lemma dict_comprehension {A V : Type} (f : A -> V) (items : dict A) :
  dict_wf items ->
  forall d0 : dict V,
    NoDup (dict_keys d0 ++ dict_keys items) ->
    dict_keys (fold_left (fun d item => dict_set d (fst item) (f (snd item))) items d0)
    = dict_keys d0 ++ dict_keys items
    /\ forall k,
         dict_get (fold_left (fun d item => dict_set d (fst item) (f (snd item))) items d0) k
         = match dict_get items k with
           | Some a => Some (f a)
           | None => dict_get d0 k
           end.
Proof.
  induction items as [|[k0 a0] items IH]; intros Hwf d0 Hnd; simpl.
  - now rewrite app_nil_r.
  - inversion Hwf as [|? ? Hnotin Hwf']; subst.
    assert (Hrest : dict_get items k0 = None) by now apply dict_get_None.
    assert (Hnotin0 : ~ In k0 (dict_keys d0)).
    { intros Hin. simpl in Hnd. apply NoDup_remove_2 in Hnd. apply Hnd.
      apply in_or_app; auto. }
    destruct (IH Hwf' (dict_set d0 k0 (f a0))) as [Hk Hg].
    { rewrite dict_keys_set_absent by assumption.
      rewrite <- app_assoc. exact Hnd. }
    split.
    + rewrite Hk, dict_keys_set_absent by assumption. now rewrite <- app_assoc.
    + intros k. rewrite Hg, dict_get_set.
      destruct (str_eqb k k0) eqn:E.
      * apply str_eqb_eq in E; subst k0. now rewrite Hrest, str_eqb_refl.
      * assert (E' : str_eqb k0 k = false).
        { apply str_eqb_neq. apply str_eqb_neq in E. congruence. }
        now rewrite E'.
Qed.

Lemma foldM_total {A S : Type} (f : S -> A -> option S) (g : S -> A -> S)
  (l : list A) (s : S) :
  (forall s a, f s a = Some (g s a)) -> foldM f l s = Some (fold_left g l s).
Proof.
  intros H. revert s. induction l as [|a l IH]; intros s; simpl; auto.
  now rewrite H.
Qed.

Lemma foldM_app {A S : Type} (f : S -> A -> option S) (l1 l2 : list A) (s : S) :
  foldM f (l1 ++ l2) s
  = match foldM f l1 s with
    | Some s' => foldM f l2 s'
    | None => None
    end.
Proof.
  revert s. induction l1 as [|a l1 IH]; intros s; simpl; auto.
  destruct (f s a); auto.
Qed.

(** ** Buckets *)

Section BucketFacts.
Context {F : Type} {FO : FloatOps F} {X : Type}.
Variables (key : event -> str) (zero : X) (add : F -> X -> X).

Lemma bucket_add_get (inner : dict X) (e : event) (k : str) :
  dict_get (bucket_add key zero add inner e) k
  = if str_eqb (key e) k then
      Some (add (hours_of (event_duration e))
              (match dict_get inner k with Some x => x | None => zero end))
    else dict_get inner k.
Proof.
  unfold bucket_add.
  destruct (str_eqb (key e) k) eqn:E.
  - apply str_eqb_eq in E; subst k.
    destruct (dict_get inner (key e)); apply dict_get_set_same.
  - apply str_eqb_neq in E.
    destruct (dict_get inner (key e)); now apply dict_get_set_other.
Qed.

Lemma bucket_fold_get (events : list event) :
  forall (inner : dict X) (k : str),
    dict_get (fold_left (bucket_add key zero add) events inner) k
    = match bucket_events key k events with
      | [] => dict_get inner k
      | _ :: _ =>
          Some (accumulate add
                  (match dict_get inner k with Some x => x | None => zero end)
                  (bucket_events key k events))
      end.
Proof.
  induction events as [|e events IH]; intros inner k; simpl; auto.
  rewrite IH, bucket_add_get.
  destruct (str_eqb (key e) k) eqn:E; auto.
  unfold accumulate. simpl.
  destruct (bucket_events key k events); reflexivity.
Qed.


Lemma bucket_add_keys_present (inner : dict X) (e : event) :
  In (key e) (dict_keys inner) ->
  dict_keys (bucket_add key zero add inner e) = dict_keys inner.
Proof.
  intros H. unfold bucket_add.
  destruct (dict_get inner (key e)); now apply dict_keys_set_present.
Qed.



(** Every bucket that exists after the loop was there before or is the
    bucket of one of the events. *)
Lemma bucket_fold_keys_origin (events : list event) :
  forall (inner : dict X) (k : str),
    In k (dict_keys (fold_left (bucket_add key zero add) events inner)) ->
    In k (dict_keys inner) \/ exists e, In e events /\ key e = k.
Proof.
  induction events as [|e events IH]; intros inner k H; simpl in *; auto.
  destruct (IH _ _ H) as [H1|(e' & He' & Hk)].
  - destruct (dict_get_In _ _ H1) as [x Hx].
    rewrite bucket_add_get in Hx.
    destruct (str_eqb (key e) k) eqn:E.
    + apply str_eqb_eq in E. right. exists e. auto.
    + left. eapply dict_get_Some_In; eauto.
  - right. exists e'. auto.
Qed.

End BucketFacts.

Lemma foldM_map {A B S : Type} (f : S -> B -> option S) (g : A -> B)
  (l : list A) (s : S) :
  foldM f (map g l) s = foldM (fun s a => f s (g a)) l s.
Proof.
  revert s. induction l as [|a l IH]; intros s; simpl; auto.
  destruct (f s (g a)); auto.
Qed.

(** ** [get_day_stats] *)

Section DayStatsFacts.
Context {F : Type} {FO : FloatOps F}.

Lemma weekday_range (wall : Z) : 0 <= weekday wall < 7.
Proof. unfold weekday, weekday_of_ordinal. apply Z.mod_pos_bound. lia. Qed.

Lemma days_NoDup : NoDup days.
Proof.
  unfold days. simpl.
  repeat (constructor; [simpl; intuition discriminate|]). constructor.
Qed.

Lemma small_index (i : Z) :
  0 <= i < 7 -> i = 0 \/ i = 1 \/ i = 2 \/ i = 3 \/ i = 4 \/ i = 5 \/ i = 6.
Proof. lia. Qed.

Lemma nth_error_days (i : Z) :
  0 <= i < 7 -> nth_error days (Z.to_nat i) = Some (day_name i).
Proof.
  intros H. unfold day_name.
  destruct (small_index i H) as [->|[->|[->|[->|[->|[->| ->]]]]]]; reflexivity.
Qed.

Lemma day_name_In (i : Z) : 0 <= i < 7 -> In (day_name i) days.
Proof. intros H. eapply nth_error_In. now apply nth_error_days. Qed.

Lemma day_name_eqb (i j : Z) :
  0 <= i < 7 -> 0 <= j < 7 -> str_eqb (day_name i) (day_name j) = (i =? j).
Proof.
  intros Hi Hj.
  destruct (small_index i Hi) as [->|[->|[->|[->|[->|[->| ->]]]]]];
    destruct (small_index j Hj) as [->|[->|[->|[->|[->|[->| ->]]]]]];
    reflexivity.
Qed.

Lemma events_on_weekday_bucket (i : Z) (events : list event) :
  0 <= i < 7 ->
  bucket_events day_key (day_name i) events = events_on_weekday i events.
Proof.
  intros Hi. unfold bucket_events, events_on_weekday.
  apply filter_ext. intros e. unfold day_key.
  apply day_name_eqb; auto. apply weekday_range.
Qed.

Lemma accumulate_day_stat (events : list event) :
  forall s : day_stat F,
    accumulate day_stat_add s events
    = {| ds_count := ds_count s + Z.of_nat (List.length events);
         ds_total_hours :=
           fold_left f_add (map (fun e => hours_of (event_duration e)) events)
                     (ds_total_hours s);
         ds_avg_hours := ds_avg_hours s |}.
Proof.
  unfold accumulate.
  induction events as [|e events IH]; intros s.
  - simpl. rewrite Z.add_0_r. now destruct s.
  - cbn [fold_left map List.length]. rewrite IH. simpl. f_equal. lia.
Qed.

Lemma day_stats_record_step (pattern : str) (d : dict (dict (day_stat F)))
  (by_day : dict (day_stat F)) (e : event) :
  dict_get d pattern = Some by_day -> has_all_days by_day ->
  day_stats_record pattern d e
  = Some (dict_set d pattern (bucket_add day_key zero_day_stat day_stat_add by_day e))
  /\ has_all_days (bucket_add day_key zero_day_stat day_stat_add by_day e).
Proof.
  intros Hg Hall.
  assert (Hin : In (day_key e) (dict_keys by_day)).
  { rewrite Hall. apply day_name_In, weekday_range. }
  split.
  - unfold day_stats_record.
    rewrite (nth_error_days _ (weekday_range (event_wall e))).
    fold (day_key e). rewrite Hg. unfold dict_update, bucket_add.
    destruct (dict_get_In _ _ Hin) as [s Hs]. now rewrite Hs.
  - unfold has_all_days. now rewrite bucket_add_keys_present.
Qed.

Lemma day_stats_average_step (pattern : str) (d : dict (dict (day_stat F)))
  (by_day : dict (day_stat F)) (day : str) :
  In day days -> dict_get d pattern = Some by_day -> has_all_days by_day ->
  day_stats_average pattern d day
  = Some (dict_set d pattern (average_day by_day day))
  /\ has_all_days (average_day by_day day).
Proof.
  intros Hday Hg Hall.
  assert (Hin : In day (dict_keys by_day)) by now rewrite Hall.
  destruct (dict_get_In _ _ Hin) as [s Hs].
  unfold day_stats_average, average_day, day_average. rewrite Hg, Hs.
  split.
  - destruct (0 <? ds_count s); auto.
    rewrite (dict_set_id by_day day s Hs). now rewrite dict_set_id.
  - unfold has_all_days. now rewrite dict_keys_set_present.
Qed.

Lemma average_day_get (by_day : dict (day_stat F)) (day k : str) :
  dict_get (average_day by_day day) k
  = if str_eqb day k then option_map day_average (dict_get by_day k)
    else dict_get by_day k.
Proof.
  unfold average_day.
  destruct (str_eqb day k) eqn:E.
  - apply str_eqb_eq in E; subst k.
    destruct (dict_get by_day day) eqn:Hs; simpl.
    + apply dict_get_set_same.
    + exact Hs.
  - apply str_eqb_neq in E.
    destruct (dict_get by_day day); auto. now apply dict_get_set_other.
Qed.

Lemma average_days_get (l : list str) :
  NoDup l ->
  forall (by_day : dict (day_stat F)) (k : str),
    dict_get (fold_left average_day l by_day) k
    = if existsb (str_eqb k) l then option_map day_average (dict_get by_day k)
      else dict_get by_day k.
Proof.
  induction l as [|a l IH]; intros Hnd by_day k; simpl; auto.
  inversion Hnd as [|? ? Hnotin Hnd']; subst.
  rewrite IH by assumption. rewrite average_day_get.
  destruct (str_eqb k a) eqn:E; simpl.
  - apply str_eqb_eq in E; subst a. rewrite str_eqb_refl.
    replace (existsb (str_eqb k) l) with false; auto.
    symmetry. apply not_true_is_false. intros H.
    apply existsb_exists in H. destruct H as (x & Hx & Hkx).
    apply str_eqb_eq in Hkx; subst x. contradiction.
  - assert (E' : str_eqb a k = false).
    { apply str_eqb_neq. apply str_eqb_neq in E. congruence. }
    now rewrite E'.
Qed.

End DayStatsFacts.

Section DayStatsClosed.
Context {F : Type} {FO : FloatOps F}.

Lemma record_days_all_days (events : list event) :
  forall by_day : dict (day_stat F),
    has_all_days by_day ->
    has_all_days (fold_left (bucket_add day_key zero_day_stat day_stat_add) events by_day).
Proof.
  induction events as [|e events IH]; intros by_day H; simpl; auto.
  apply IH. unfold has_all_days in *.
  rewrite bucket_add_keys_present; auto.
  rewrite H. apply day_name_In, weekday_range.
Qed.

Lemma average_days_all_days (l : list str) :
  forall by_day : dict (day_stat F),
    has_all_days by_day -> has_all_days (fold_left average_day l by_day).
Proof.
  induction l as [|a l IH]; intros by_day H; simpl; auto.
  apply IH. unfold has_all_days, average_day in *.
  destruct (dict_get by_day a) eqn:E; auto.
  rewrite dict_keys_set_present; auto. eapply dict_get_Some_In; eauto.
Qed.

Lemma zero_days_all_days : has_all_days (dict_fromkeys days (@zero_day_stat F FO)).
Proof. apply dict_fromkeys_keys, days_NoDup. Qed.

Lemma get_day_stats_closed (events_data : dict (list event)) :
  dict_wf events_data ->
  exists distribution,
    get_day_stats events_data = Some distribution
    /\ dict_keys distribution = dict_keys events_data
    /\ forall pattern,
         dict_get distribution pattern
         = option_map day_table (dict_get events_data pattern).
Proof.
  intros Hwf. unfold get_day_stats.
  set (inner0 := dict_fromkeys days (@zero_day_stat F FO)).
  destruct (dict_fromkeys_fold inner0 (dict_keys events_data) []) as [Hk0 Hg0].
  { exact Hwf. }
  set (d0 := fold_left (fun d pattern => dict_set d pattern inner0)
                       (dict_keys events_data) []) in *.
  simpl in Hk0.
  destruct (foldM_items_update
              (fun d item => foldM (day_stats_record (fst item)) (snd item) d)
              (fun events by_day =>
                 fold_left (bucket_add day_key zero_day_stat day_stat_add) events by_day)
              has_all_days) with (items := events_data) (d := d0)
    as (d1 & Hf1 & Hk1 & Hg1); auto.
  { intros d k a v Hg Hv. cbn [fst snd].
    apply (foldM_update_entry (day_stats_record k)
             (bucket_add day_key zero_day_stat day_stat_add)
             has_all_days (fun _ => True) k); auto.
    - intros d' v' e _. apply day_stats_record_step.
    - apply Forall_forall. auto. }
  { intros k Hk. exists inner0. split.
    - rewrite Hg0. replace (existsb (str_eqb k) (dict_keys events_data)) with true; auto.
      symmetry. apply existsb_exists. exists k. split; auto. apply str_eqb_refl.
    - apply zero_days_all_days. }
  rewrite Hf1.
  assert (Hget1 : forall k, dict_get d1 k
            = option_map (fun events =>
                 fold_left (bucket_add day_key zero_day_stat day_stat_add) events inner0)
                (dict_get events_data k)).
  { intros k. rewrite Hg1, Hg0.
    destruct (dict_get events_data k) eqn:E; simpl.
    - replace (existsb (str_eqb k) (dict_keys events_data)) with true; auto.
      symmetry. apply existsb_exists. exists k. split; [|apply str_eqb_refl].
      eapply dict_get_Some_In; eauto.
    - replace (existsb (str_eqb k) (dict_keys events_data)) with false; auto.
      symmetry. apply not_true_is_false. intros H.
      apply existsb_exists in H. destruct H as (x & Hx & Hkx).
      apply str_eqb_eq in Hkx; subst x. apply dict_get_None in E. contradiction. }
  assert (Hwf1 : dict_wf d1).
  { unfold dict_wf. rewrite Hk1, Hk0. exact Hwf. }
  unfold dict_keys at 1. rewrite foldM_map.
  destruct (foldM_items_update
              (fun d (item : str * dict (day_stat F)) =>
                 foldM (day_stats_average (fst item)) days d)
              (fun (_ : dict (day_stat F)) by_day => fold_left average_day days by_day)
              has_all_days) with (items := d1) (d := d1)
    as (d2 & Hf2 & Hk2 & Hg2); auto.
  { intros d k a v Hg Hv. cbn [fst].
    apply (foldM_update_entry (day_stats_average k) average_day
             has_all_days (fun day => In day days) k); auto.
    - intros d' v' day Hday. now apply day_stats_average_step.
    - apply Forall_forall. auto. }
  { intros k Hk. destruct (dict_get_In _ _ Hk) as [v Hv].
    exists v. split; auto.
    rewrite Hget1 in Hv. destruct (dict_get events_data k); [|discriminate].
    simpl in Hv. inversion Hv. apply record_days_all_days, zero_days_all_days. }
  exists d2. split; [|split]; auto.
  - congruence.
  - intros k. rewrite Hg2. rewrite Hget1.
    destruct (dict_get events_data k); reflexivity.
Qed.

Lemma day_table_get (events : list event) (i : Z) :
  0 <= i < 7 ->
  dict_keys (day_table events) = days
  /\ dict_get (day_table events) (day_name i)
     = Some (day_average
               {| ds_count := Z.of_nat (List.length (events_on_weekday i events));
                  ds_total_hours := total_of (events_on_weekday i events);
                  ds_avg_hours := f_zero |}).
Proof.
  intros Hi. split.
  - apply average_days_all_days, record_days_all_days, zero_days_all_days.
  - unfold day_table. rewrite (average_days_get days days_NoDup).
    replace (existsb (str_eqb (day_name i)) days) with true.
    2:{ symmetry. apply existsb_exists. exists (day_name i).
        split; [now apply day_name_In | apply str_eqb_refl]. }
    rewrite bucket_fold_get.
    rewrite (dict_fromkeys_get zero_day_stat days (day_name i) days_NoDup
               (day_name_In i Hi)).
    rewrite events_on_weekday_bucket by assumption.
    set (l := events_on_weekday i events).
    replace (match l with
             | [] => Some zero_day_stat
             | _ :: _ => Some (accumulate day_stat_add zero_day_stat l)
             end)
      with (Some (accumulate day_stat_add (@zero_day_stat F FO) l))
      by (destruct l; reflexivity).
    rewrite accumulate_day_stat. reflexivity.
Qed.

End DayStatsClosed.

(** ** Decimal text *)

Lemma uint_of_codes_of_uint (d : Decimal.uint) :
  uint_of_codes (codes_of_uint d) = Some d.
Proof. induction d; simpl; try rewrite IHd; reflexivity. Qed.

Lemma uint_of_codes_zeros (k : nat) (s : str) :
  uint_of_codes (repeat 48%N k ++ s)
  = option_map (Nat.iter k D0) (uint_of_codes s).
Proof.
  induction k as [|k IH]; simpl.
  - now destruct (uint_of_codes s).
  - rewrite IH. now destruct (uint_of_codes s).
Qed.

Lemma of_uint_zeros (k : nat) (d : Decimal.uint) :
  N.of_uint (Nat.iter k D0 d) = N.of_uint d.
Proof. induction k as [|k IH]; simpl; auto. Qed.

Lemma codes_of_uint_nonempty (n : N) : codes_of_uint (N.to_uint n) <> [].
Proof.
  destruct n as [|p]; simpl; [discriminate|].
  pose proof (DecimalPos.Unsigned.to_uint_nonnil p) as H.
  destruct (Pos.to_uint p); simpl; try discriminate. congruence.
Qed.

Lemma py_int_zero_pad (width : nat) (n : Z) :
  0 <= n -> py_int (zero_pad width (decimal n)) = Some n.
Proof.
  intros Hn. unfold py_int, zero_pad, decimal.
  remember (repeat 48%N (width - List.length (codes_of_uint (N.to_uint (Z.to_N n))))
            ++ codes_of_uint (N.to_uint (Z.to_N n))) as s eqn:Es.
  destruct s as [|c s].
  - symmetry in Es. apply app_eq_nil in Es. destruct Es as [_ Es].
    now apply codes_of_uint_nonempty in Es.
  - rewrite Es, uint_of_codes_zeros, uint_of_codes_of_uint. simpl.
    rewrite of_uint_zeros, DecimalN.Unsigned.of_to. f_equal. lia.
Qed.

Lemma codes_of_uint_no_hyphen (d : Decimal.uint) : ~ In hyphen (codes_of_uint d).
Proof.
  induction d; simpl; try tauto; intros [H|H]; try discriminate; auto.
Qed.

Lemma zero_pad_no_hyphen (width : nat) (n : Z) :
  ~ In hyphen (zero_pad width (decimal n)).
Proof.
  unfold zero_pad, decimal. intros H. apply in_app_or in H. destruct H as [H|H].
  - apply repeat_spec in H. discriminate.
  - now apply codes_of_uint_no_hyphen in H.
Qed.

Lemma split_no_sep (sep : N) (s : str) : ~ In sep s -> split sep s = [s].
Proof.
  induction s as [|c s IH]; simpl; auto.
  intros H. destruct (N.eqb c sep) eqn:E.
  - apply N.eqb_eq in E. exfalso; auto.
  - rewrite IH; auto.
Qed.

Lemma split_at_sep (sep : N) (a b : str) :
  ~ In sep a -> split sep (a ++ sep :: b) = a :: split sep b.
Proof.
  induction a as [|c a IH]; simpl.
  - now rewrite N.eqb_refl.
  - intros H. destruct (N.eqb c sep) eqn:E.
    + apply N.eqb_eq in E. exfalso; auto.
    + rewrite IH; auto.
Qed.

(** ** The calendar *)

Lemma days_before_year_succ (year : Z) :
  days_before_year (year + 1)
  = days_before_year year + 365 + (if is_leap year then 1 else 0).
Proof.
  unfold days_before_year, is_leap. cbv zeta.
  replace (year + 1 - 1) with year by lia.
  destruct (year mod 4 =? 0) eqn:E4; destruct (year mod 100 =? 0) eqn:E100;
    destruct (year mod 400 =? 0) eqn:E400; simpl;
    rewrite ?Z.eqb_eq, ?Z.eqb_neq in *;
    Z.div_mod_to_equations; lia.
Qed.

Lemma month_index (m : Z) :
  1 <= m <= 12 ->
  m = 1 \/ m = 2 \/ m = 3 \/ m = 4 \/ m = 5 \/ m = 6 \/ m = 7 \/ m = 8
  \/ m = 9 \/ m = 10 \/ m = 11 \/ m = 12.
Proof. lia. Qed.

Lemma days_in_month_first (year month : Z) :
  1 <= month <= 12 -> (1 <=? days_in_month year month) = true.
Proof.
  intros Hm. unfold days_in_month.
  destruct (month_index month Hm)
    as [->|[->|[->|[->|[->|[->|[->|[->|[->|[->|[->| ->]]]]]]]]]]];
    simpl; destruct (is_leap year); reflexivity.
Qed.

Lemma datetime_ymd_first (year month : Z) :
  1 <= year <= 9999 -> 1 <= month <= 12 ->
  datetime_ymd year month 1 = Some (datetime_of year month 1 0 0 0).
Proof.
  intros Hy Hm. unfold datetime_ymd, MINYEAR, MAXYEAR.
  rewrite days_in_month_first by assumption.
  replace (1 <=? year) with true by (symmetry; apply Z.leb_le; lia).
  replace (year <=? 9999) with true by (symmetry; apply Z.leb_le; lia).
  replace (1 <=? month) with true by (symmetry; apply Z.leb_le; lia).
  replace (month <=? 12) with true by (symmetry; apply Z.leb_le; lia).
  reflexivity.
Qed.

Lemma datetime_ymd_year (year month day : Z) :
  9999 < year -> datetime_ymd year month day = None.
Proof.
  intros Hy. unfold datetime_ymd, MINYEAR, MAXYEAR.
  replace (year <=? 9999) with false by (symmetry; apply Z.leb_gt; lia).
  now rewrite andb_false_r.
Qed.

Lemma month_days_length (year month : Z) :
  1 <= year <= 9999 -> 1 <= month <= 12 -> (year = 9999 -> month <> 12) ->
  month_days year month = Some (month_length year month).
Proof.
  intros Hy Hm Hlast. unfold month_days.
  assert (Hnext : (if month =? 12 then datetime_ymd (year + 1) 1 1
                   else datetime_ymd year (month + 1) 1)
                  = Some (if month =? 12 then datetime_of (year + 1) 1 1 0 0 0
                          else datetime_of year (month + 1) 1 0 0 0)).
  { destruct (Z.eqb_spec month 12) as [->|Hne].
    - apply datetime_ymd_first; lia.
    - apply datetime_ymd_first; lia. }
  rewrite Hnext, datetime_ymd_first by assumption. f_equal.
  unfold datetime_of, ymd2ord, SECONDS_PER_DAY.
  assert (Hdiv : forall a b, (a * 86400 + 0 * 3600 + 0 * 60 + 0
                              - (b * 86400 + 0 * 3600 + 0 * 60 + 0)) / 86400 = a - b).
  { intros a b. replace (a * 86400 + 0 * 3600 + 0 * 60 + 0
                         - (b * 86400 + 0 * 3600 + 0 * 60 + 0))
      with ((a - b) * 86400) by lia.
    apply Z.div_mul. lia. }
  unfold month_length. fold (is_leap year).
  destruct (month_index month Hm)
    as [->|[->|[->|[->|[->|[->|[->|[->|[->|[->|[->| ->]]]]]]]]]]];
    cbn [Z.eqb Pos.eqb orb]; cbv iota; rewrite Hdiv;
    try rewrite days_before_year_succ;
    unfold days_before_month; simpl;
    destruct (is_leap year); simpl; lia.
Qed.

Lemma ymd2ord_month_length (year month : Z) :
  1 <= month <= 12 ->
  (if month =? 12 then ymd2ord (year + 1) 1 1 else ymd2ord year (month + 1) 1)
  - ymd2ord year month 1
  = month_length year month.
Proof.
  intros Hm. unfold ymd2ord, month_length. fold (is_leap year).
  destruct (month_index month Hm)
    as [->|[->|[->|[->|[->|[->|[->|[->|[->|[->|[->| ->]]]]]]]]]]];
    cbn [Z.eqb Pos.eqb orb]; cbv iota;
    try rewrite days_before_year_succ;
    unfold days_before_month; simpl;
    destruct (is_leap year); simpl; lia.
Qed.

(** In December of [MAXYEAR] the first of the next month does not
    exist. *)
Lemma month_days_last : month_days 9999 12 = None.
Proof. reflexivity. Qed.

Lemma is_leap_decomp (a b c d : Z) :
  0 <= b <= 3 -> 0 <= c <= 24 -> 0 <= d <= 3 ->
  is_leap (a * 400 + 1 + b * 100 + c * 4 + d)
  = (d =? 3) && (negb (c =? 24) || (b =? 3)).
Proof.
  intros Hb Hc Hd. unfold is_leap.
  set (y := a * 400 + 1 + b * 100 + c * 4 + d).
  assert (H4 : y mod 4 = (d + 1) mod 4).
  { unfold y. replace (a * 400 + 1 + b * 100 + c * 4 + d)
      with (d + 1 + (a * 100 + b * 25 + c) * 4) by lia.
    apply Z.mod_add. lia. }
  assert (H100 : y mod 100 = (c * 4 + d + 1) mod 100).
  { unfold y. replace (a * 400 + 1 + b * 100 + c * 4 + d)
      with (c * 4 + d + 1 + (a * 4 + b) * 100) by lia.
    apply Z.mod_add. lia. }
  assert (H400 : y mod 400 = (b * 100 + c * 4 + d + 1) mod 400).
  { unfold y. replace (a * 400 + 1 + b * 100 + c * 4 + d)
      with (b * 100 + c * 4 + d + 1 + a * 400) by lia.
    apply Z.mod_add. lia. }
  rewrite H4, H100, H400. clear H4 H100 H400 y.
  destruct (d =? 3) eqn:Ed; destruct (c =? 24) eqn:Ec; destruct (b =? 3) eqn:Eb;
    rewrite ?Z.eqb_eq, ?Z.eqb_neq in *; simpl;
    repeat match goal with
           | |- context [?x mod ?m =? 0] =>
               let E := fresh "E" in
               destruct (x mod m =? 0) eqn:E;
               rewrite ?Z.eqb_eq, ?Z.eqb_neq in E
           end; simpl; try reflexivity; exfalso;
    Z.div_mod_to_equations; lia.
Qed.

Lemma days_before_year_decomp (a b c d : Z) :
  0 <= b <= 3 -> 0 <= c <= 24 -> 0 <= d <= 3 ->
  days_before_year (a * 400 + 1 + b * 100 + c * 4 + d)
  = a * 146097 + b * 36524 + c * 1461 + d * 365.
Proof.
  intros Hb Hc Hd. unfold days_before_year. cbv zeta.
  Z.div_mod_to_equations. lia.
Qed.

(** The cycles of 400, 100, 4 and 1 years that [ord2ymd] peels off. *)
Ltac ord2ymd_cycles ordinal :=
  unfold ord2ymd, DI400Y, DI100Y, DI4Y; cbv zeta;
  set (n0 := ordinal - 1);
  pose proof (Z.div_mod n0 146097 ltac:(lia)) as E1;
  pose proof (Z.mod_pos_bound n0 146097 ltac:(lia)) as B1;
  set (a := n0 / 146097) in *; set (r1 := n0 mod 146097) in *;
  pose proof (Z.div_mod r1 36524 ltac:(lia)) as E2;
  pose proof (Z.mod_pos_bound r1 36524 ltac:(lia)) as B2;
  set (b := r1 / 36524) in *; set (r2 := r1 mod 36524) in *;
  pose proof (Z.div_mod r2 1461 ltac:(lia)) as E3;
  pose proof (Z.mod_pos_bound r2 1461 ltac:(lia)) as B3;
  set (c := r2 / 1461) in *; set (r3 := r2 mod 1461) in *;
  pose proof (Z.div_mod r3 365 ltac:(lia)) as E4;
  pose proof (Z.mod_pos_bound r3 365 ltac:(lia)) as B4;
  set (d := r3 / 365) in *; set (r := r3 mod 365) in *;
  assert (Hb : 0 <= b <= 4) by lia;
  assert (Hc : 0 <= c <= 24) by lia;
  assert (Hd : 0 <= d <= 4) by lia;
  assert (Hn : ordinal = n0 + 1) by (unfold n0; lia);
  clearbody a r1 b r2 c r3 d r n0.

(** [ord2ymd] inverts [ymd2ord]: an ordinal is the ordinal of the date
    read from it. *)
Lemma ymd2ord_ord2ymd (ordinal : Z) :
  ymd2ord (fst (fst (ord2ymd ordinal))) (snd (fst (ord2ymd ordinal)))
          (snd (ord2ymd ordinal)) = ordinal.
Proof.
  ord2ymd_cycles ordinal.
  destruct ((d =? 4) || (b =? 4)) eqn:Eedge.
  - cbn [fst snd]. unfold ymd2ord, days_before_month, days_before_year. cbv zeta.
    apply orb_true_iff in Eedge. rewrite !Z.eqb_eq in Eedge.
    assert (Hleap : is_leap (a * 400 + 1 + b * 100 + c * 4 + d - 1) = true).
    { unfold is_leap.
      destruct Eedge as [-> | ->].
      - assert (c <= 23) by lia.
        replace ((a * 400 + 1 + b * 100 + c * 4 + 4 - 1) mod 4) with 0
          by (Z.div_mod_to_equations; lia).
        destruct ((a * 400 + 1 + b * 100 + c * 4 + 4 - 1) mod 100 =? 0) eqn:E100;
          [|reflexivity].
        rewrite Z.eqb_eq in E100. exfalso. Z.div_mod_to_equations. lia.
      - assert (c = 0 /\ d = 0) as [-> ->] by lia.
        replace ((a * 400 + 1 + 4 * 100 + 0 * 4 + 0 - 1) mod 4) with 0
          by (Z.div_mod_to_equations; lia).
        replace ((a * 400 + 1 + 4 * 100 + 0 * 4 + 0 - 1) mod 400) with 0
          by (Z.div_mod_to_equations; lia).
        simpl. now rewrite orb_true_r. }
    rewrite Hleap. simpl.
    destruct Eedge as [-> | ->]; Z.div_mod_to_equations; lia.
  - apply orb_false_iff in Eedge. rewrite !Z.eqb_neq in Eedge.
    assert (Hb' : 0 <= b <= 3) by lia. assert (Hd' : 0 <= d <= 3) by lia.
    pose proof (is_leap_decomp a b c d Hb' Hc Hd') as Hleap.
    pose proof (days_before_year_decomp a b c d Hb' Hc Hd') as Hdby.
    set (leapyear := (d =? 3) && (negb (c =? 24) || (b =? 3))) in *.
    rewrite Z.shiftr_div_pow2 by lia. change (2 ^ 5) with 32.
    assert (Hm : 1 <= (r + 50) / 32 <= 12) by (Z.div_mod_to_equations; lia).
    assert (Hq : 32 * ((r + 50) / 32) <= r + 50 < 32 * ((r + 50) / 32) + 32)
      by (Z.div_mod_to_equations; lia).
    set (m0 := (r + 50) / 32) in *. clearbody m0.
    destruct (month_index m0 Hm)
      as [->|[->|[->|[->|[->|[->|[->|[->|[->|[->|[->| ->]]]]]]]]]]];
      match goal with
      | |- context [r <? ?p] => destruct (r <? p) eqn:Elt
      end;
      cbn [fst snd]; unfold ymd2ord, days_before_month; rewrite Hleap, Hdby;
      destruct leapyear; simpl in Elt |- *;
      rewrite ?Z.ltb_lt, ?Z.ltb_ge in Elt; lia.
Qed.

Lemma ord2ymd_ranges (ordinal : Z) :
  1 <= snd (fst (ord2ymd ordinal)) <= 12
  /\ 1 <= snd (ord2ymd ordinal) <= 31
  /\ (1 <= ordinal -> 1 <= fst (fst (ord2ymd ordinal))).
Proof.
  ord2ymd_cycles ordinal.
  destruct ((d =? 4) || (b =? 4)) eqn:Eedge.
  - cbn [fst snd]. apply orb_true_iff in Eedge. rewrite !Z.eqb_eq in Eedge.
    repeat split; lia.
  - apply orb_false_iff in Eedge. rewrite !Z.eqb_neq in Eedge.
    set (leapyear := (d =? 3) && (negb (c =? 24) || (b =? 3))) in *.
    rewrite Z.shiftr_div_pow2 by lia. change (2 ^ 5) with 32.
    assert (Hm : 1 <= (r + 50) / 32 <= 12) by (Z.div_mod_to_equations; lia).
    assert (Hq : 32 * ((r + 50) / 32) <= r + 50 < 32 * ((r + 50) / 32) + 32)
      by (Z.div_mod_to_equations; lia).
    set (m0 := (r + 50) / 32) in *. clearbody m0.
    assert (Hyear : 1 <= ordinal -> 1 <= a * 400 + 1 + b * 100 + c * 4 + d).
    { intros Hpos. assert (0 <= a) by lia. lia. }
    destruct (month_index m0 Hm)
      as [->|[->|[->|[->|[->|[->|[->|[->|[->|[->|[->| ->]]]]]]]]]]];
      match goal with
      | |- context [r <? ?p] => destruct (r <? p) eqn:Elt
      end;
      cbn [fst snd]; destruct leapyear; simpl in Elt |- *;
      rewrite ?Z.ltb_lt, ?Z.ltb_ge in Elt; lia.
Qed.

Lemma wall_month_range (wall : Z) : 1 <= wall_month wall <= 12.
Proof. apply ord2ymd_ranges. Qed.

Lemma wall_day_range (wall : Z) : 1 <= wall_day wall <= 31.
Proof. apply ord2ymd_ranges. Qed.

Lemma wall_year_pos (wall : Z) : 1 <= wall_date wall -> 1 <= wall_year wall.
Proof. apply ord2ymd_ranges. Qed.

(** The date of a wall clock determines its ordinal. *)
Lemma wall_date_ymd (wall : Z) :
  ymd2ord (wall_year wall) (wall_month wall) (wall_day wall) = wall_date wall.
Proof. apply ymd2ord_ord2ymd. Qed.

(** A date before 1 December 9999 lies in a month that has a next
    month. *)
Lemma wall_before_last_month (wall : Z) :
  wall_date wall < ymd2ord 9999 12 1 ->
  wall_year wall <= 9999 /\ (wall_year wall = 9999 -> wall_month wall <> 12).
Proof.
  intros Hlt. rewrite <- (wall_date_ymd wall) in Hlt.
  pose proof (wall_month_range wall) as Hm.
  pose proof (wall_day_range wall) as Hd.
  assert (Hbm : 0 <= days_before_month (wall_year wall) (wall_month wall)).
  { unfold days_before_month.
    destruct (month_index _ Hm)
      as [->|[->|[->|[->|[->|[->|[->|[->|[->|[->|[->| ->]]]]]]]]]]];
      simpl; destruct (is_leap (wall_year wall)); simpl; lia. }
  change (ymd2ord 9999 12 1) with 3652029 in Hlt.
  unfold ymd2ord in Hlt. split.
  - destruct (Z_le_gt_dec (wall_year wall) 9999) as [H|H]; [exact H|].
    exfalso. unfold days_before_year in Hlt. cbv zeta in Hlt.
    Z.div_mod_to_equations. lia.
  - intros Hy Hmonth. rewrite Hy, Hmonth in Hlt.
    change (days_before_year 9999 + days_before_month 9999 12) with 3652028 in Hlt.
    lia.
Qed.

Lemma month_days_beyond (year month : Z) :
  9999 < year \/ (year = 9999 /\ month = 12) -> month_days year month = None.
Proof.
  intros [Hy|[-> ->]]; [|reflexivity]. unfold month_days.
  destruct (month =? 12); now rewrite datetime_ymd_year by lia.
Qed.

(** ** Keys produced by [strftime] *)

Lemma strftime_Y_m_parse (wall : Z) :
  1 <= wall_date wall ->
  map py_int (split hyphen (strftime_Y_m wall))
  = [Some (wall_year wall); Some (wall_month wall)].
Proof.
  intros Hpos. unfold strftime_Y_m.
  change (zero_pad 4 (decimal (wall_year wall)) ++ [hyphen]
          ++ zero_pad 2 (decimal (wall_month wall)))
    with (zero_pad 4 (decimal (wall_year wall))
          ++ hyphen :: zero_pad 2 (decimal (wall_month wall))).
  rewrite split_at_sep by apply zero_pad_no_hyphen.
  rewrite split_no_sep by apply zero_pad_no_hyphen.
  simpl map. rewrite !py_int_zero_pad; auto.
  - pose proof (wall_month_range wall). lia.
  - pose proof (wall_year_pos wall Hpos). lia.
Qed.

Lemma strftime_Y_m_d_parse (wall : Z) :
  1 <= wall_date wall ->
  map py_int (split hyphen (strftime_Y_m_d wall))
  = [Some (wall_year wall); Some (wall_month wall); Some (wall_day wall)].
Proof.
  intros Hpos. unfold strftime_Y_m_d, strftime_Y_m.
  rewrite <- !app_assoc.
  change (zero_pad 4 (decimal (wall_year wall)) ++ [hyphen]
          ++ zero_pad 2 (decimal (wall_month wall)) ++ [hyphen]
          ++ zero_pad 2 (decimal (wall_day wall)))
    with (zero_pad 4 (decimal (wall_year wall))
          ++ hyphen :: (zero_pad 2 (decimal (wall_month wall))
                        ++ hyphen :: zero_pad 2 (decimal (wall_day wall)))).
  rewrite !split_at_sep by apply zero_pad_no_hyphen.
  rewrite split_no_sep by apply zero_pad_no_hyphen.
  simpl map. rewrite !py_int_zero_pad; auto.
  - pose proof (wall_day_range wall). lia.
  - pose proof (wall_month_range wall). lia.
  - pose proof (wall_year_pos wall Hpos). lia.
Qed.

(** Two datetimes get the same [%Y-%m] text exactly when they lie in the
    same month of the same year. *)
Lemma strftime_Y_m_inj (w1 w2 : Z) :
  1 <= wall_date w1 -> 1 <= wall_date w2 ->
  (strftime_Y_m w1 = strftime_Y_m w2
   <-> wall_year w1 = wall_year w2 /\ wall_month w1 = wall_month w2).
Proof.
  intros H1 H2. split.
  - intros E. pose proof (strftime_Y_m_parse w1 H1) as P1.
    rewrite E, (strftime_Y_m_parse w2 H2) in P1. inversion P1. auto.
  - intros [Ey Em]. unfold strftime_Y_m. now rewrite Ey, Em.
Qed.

(** Two datetimes get the same [%Y-%m-%d] text exactly when they lie on
    the same date. *)
Lemma strftime_Y_m_d_inj (w1 w2 : Z) :
  1 <= wall_date w1 -> 1 <= wall_date w2 ->
  (strftime_Y_m_d w1 = strftime_Y_m_d w2 <-> wall_date w1 = wall_date w2).
Proof.
  intros H1 H2. split.
  - intros E. pose proof (strftime_Y_m_d_parse w1 H1) as P1.
    rewrite E, (strftime_Y_m_d_parse w2 H2) in P1. inversion P1 as [[Ey Em Ed]].
    rewrite <- (wall_date_ymd w1), <- (wall_date_ymd w2). congruence.
  - intros E. unfold strftime_Y_m_d, strftime_Y_m, wall_year, wall_month, wall_day.
    now rewrite E.
Qed.

(** ** Weeks *)

Lemma monday_wall_date (wall : Z) :
  wall_date (wall - weekday wall * SECONDS_PER_DAY) = monday_of wall.
Proof.
  unfold monday_of, wall_date, SECONDS_PER_DAY.
  replace (wall - weekday wall * 86400) with (wall + (- weekday wall) * 86400) by lia.
  rewrite Z.div_add by lia. lia.
Qed.

Lemma monday_of_spec (wall : Z) :
  weekday_of_ordinal (monday_of wall) = 0
  /\ monday_of wall <= wall_date wall < monday_of wall + 7.
Proof.
  unfold monday_of, weekday, weekday_of_ordinal.
  split; Z.div_mod_to_equations; lia.
Qed.

Lemma monday_of_unique (wall ordinal : Z) :
  weekday_of_ordinal ordinal = 0 ->
  ordinal <= wall_date wall < ordinal + 7 ->
  ordinal = monday_of wall.
Proof.
  unfold monday_of, weekday, weekday_of_ordinal.
  intros H0 Hr. Z.div_mod_to_equations. lia.
Qed.

(** ** [get_weekly_stats] *)

Lemma foldM_total_In {A S : Type} (f : S -> A -> option S) (g : S -> A -> S)
  (l : list A) (s : S) :
  (forall s a, In a l -> f s a = Some (g s a)) ->
  foldM f l s = Some (fold_left g l s).
Proof.
  revert s. induction l as [|a l IH]; intros s H; simpl; auto.
  rewrite H by (simpl; auto). apply IH. intros s' a' Hin. apply H. simpl; auto.
Qed.

Section WeeklyFacts.
Context {F : Type} {FO : FloatOps F}.

Lemma weekly_record_step (pattern : str) (d : dict (dict (week_stat F)))
  (weeks : dict (week_stat F)) (e : event) :
  dict_get d pattern = Some weeks ->
  weekly_record pattern d e
  = Some (dict_set d pattern
            (bucket_add week_key zero_week_stat week_stat_add weeks e)).
Proof.
  intros Hg. unfold weekly_record, bucket_add, dict_contains, dict_update.
  rewrite Hg. destruct (dict_get weeks (week_key e)) eqn:E; simpl.
  - now rewrite E.
  - now rewrite dict_get_set_same, dict_set_set.
Qed.

Lemma weekly_item_step (weekly_stats : dict (dict (week_stat F)))
  (pattern : str) (events : list event) :
  match foldM (weekly_record pattern) events (dict_set weekly_stats pattern []) with
  | Some weekly_stats' => weekly_averages pattern weekly_stats'
  | None => None
  end
  = Some (dict_set weekly_stats pattern (week_table events)).
Proof.
  destruct (foldM_update_entry (weekly_record pattern)
              (bucket_add week_key zero_week_stat week_stat_add)
              (fun _ => True) (fun _ => True) pattern) with
    (l := events) (d := dict_set weekly_stats pattern ([] : dict (week_stat F)))
    (v := ([] : dict (week_stat F))) as [Hf _]; auto.
  - intros d v e _ Hg _. split; auto. now apply weekly_record_step.
  - apply Forall_forall. auto.
  - apply dict_get_set_same.
  - rewrite Hf. unfold weekly_averages. rewrite dict_get_set_same.
    now rewrite !dict_set_set.
Qed.

Lemma get_weekly_stats_closed (events_data : dict (list event)) :
  dict_wf events_data ->
  exists weekly_stats,
    get_weekly_stats events_data = Some weekly_stats
    /\ dict_keys weekly_stats = dict_keys events_data
    /\ forall pattern,
         dict_get weekly_stats pattern
         = option_map week_table (dict_get events_data pattern).
Proof.
  intros Hwf.
  assert (Hrun : get_weekly_stats events_data
                 = Some (fold_left
                           (fun d item => dict_set d (fst item) (week_table (snd item)))
                           events_data [])).
  { unfold get_weekly_stats. apply foldM_total.
    intros s [p events]. cbn [fst snd]. apply weekly_item_step. }
  destruct (dict_comprehension (@week_table F FO) events_data Hwf [] Hwf) as [Hk Hg].
  eexists. split; [exact Hrun|]. split; [exact Hk | exact Hg].
Qed.

Lemma accumulate_week_stat (events : list event) :
  forall w : week_stat F,
    accumulate week_stat_add w events
    = {| ws_total_hours :=
           fold_left f_add (map (fun e => hours_of (event_duration e)) events)
                     (ws_total_hours w);
         ws_avg_hours := ws_avg_hours w |}.
Proof.
  unfold accumulate.
  induction events as [|e events IH]; intros w.
  - simpl. now destruct w.
  - cbn [fold_left map]. now rewrite IH.
Qed.

Lemma week_table_get (events : list event) (k : str) :
  dict_get (week_table events) k
  = match bucket_events week_key k events with
    | [] => None
    | _ :: _ =>
        Some {| ws_total_hours := total_of (bucket_events week_key k events);
                ws_avg_hours :=
                  f_div (total_of (bucket_events week_key k events)) (f_of_int 7) |}
    end.
Proof.
  unfold week_table. rewrite dict_get_map_values, bucket_fold_get.
  destruct (bucket_events week_key k events) as [|e l]; auto.
  simpl dict_get. simpl option_map. cbv iota.
  rewrite accumulate_week_stat. reflexivity.
Qed.

End WeeklyFacts.

(** ** [get_monthly_stats] *)

Section MonthlyFacts.
Context {F : Type} {FO : FloatOps F}.

Lemma monthly_record_step (pattern : str) (d : dict (dict (month_stat F)))
  (months : dict (month_stat F)) (e : event) :
  dict_get d pattern = Some months ->
  monthly_record pattern d e
  = Some (dict_set d pattern
            (bucket_add month_key zero_month_stat month_stat_add months e)).
Proof.
  intros Hg. unfold monthly_record, bucket_add, dict_contains, dict_update.
  rewrite Hg. destruct (dict_get months (month_key e)) eqn:E; simpl.
  - now rewrite E.
  - now rewrite dict_get_set_same, dict_set_set.
Qed.

(** The closing loop succeeds when every key reads back as a year and a
    month that has a next month, and then rewrites each entry by
    [month_average]. *)
Lemma month_averages_spec (months : dict (month_stat F)) :
  (forall k, In k (dict_keys months) ->
             exists year month days,
               map py_int (split hyphen k) = [Some year; Some month]
               /\ month_days year month = Some days) ->
  exists months',
    month_averages months = Some months'
    /\ dict_keys months' = dict_keys months
    /\ forall k,
         dict_get months' k
         = match dict_get months k with
           | Some s => month_average k s
           | None => None
           end.
Proof.
  induction months as [|[k0 s0] months IH]; intros Hparse.
  - exists []. simpl. auto.
  - destruct IH as (months' & Hm & Hk & Hg).
    { intros k Hin. apply Hparse. simpl; auto. }
    destruct (Hparse k0) as (y & m & days & Hp & Hdays). { simpl; auto. }
    assert (Hs : exists s', month_average k0 s0 = Some s').
    { unfold month_average. rewrite Hp, Hdays. eauto. }
    destruct Hs as [s' Hs].
    exists ((k0, s') :: months'). simpl. rewrite Hs, Hm.
    split; [reflexivity|]. split.
    + now rewrite Hk.
    + intros k. destruct (str_eqb k k0) eqn:E; auto.
      apply str_eqb_eq in E; subst k0. now rewrite Hs.
Qed.

Lemma month_buckets_parse (events : list event) (k : str) :
  valid_events events ->
  In k (dict_keys (fold_left (bucket_add month_key (@zero_month_stat F FO) month_stat_add)
                             events [])) ->
  exists year month days,
    map py_int (split hyphen k) = [Some year; Some month]
    /\ month_days year month = Some days.
Proof.
  intros Hvalid Hin.
  destruct (bucket_fold_keys_origin _ _ _ _ _ _ Hin) as [[]|(e & He & Hk)].
  subst k. unfold month_key.
  destruct (Hvalid e He) as (Hlo & Hy & Hlast).
  rewrite strftime_Y_m_parse by exact Hlo.
  do 3 eexists. split; [reflexivity|]. apply month_days_length; auto.
  - split; [now apply wall_year_pos | exact Hy].
  - apply wall_month_range.
Qed.

Lemma month_table_run (events : list event) :
  valid_events events ->
  month_averages
    (fold_left (bucket_add month_key zero_month_stat month_stat_add) events [])
  = Some (month_table events).
Proof.
  intros Hvalid. unfold month_table.
  destruct (month_averages_spec
              (fold_left (bucket_add month_key zero_month_stat month_stat_add) events []))
    as (months' & Hm & _).
  { intros k Hin. eapply month_buckets_parse; eauto. }
  now rewrite Hm.
Qed.

Lemma monthly_item_step (monthly_stats : dict (dict (month_stat F)))
  (pattern : str) (events : list event) :
  valid_events events ->
  match foldM (monthly_record pattern) events (dict_set monthly_stats pattern []) with
  | Some monthly_stats' => monthly_averages pattern monthly_stats'
  | None => None
  end
  = Some (dict_set monthly_stats pattern (month_table events)).
Proof.
  intros Hvalid.
  destruct (foldM_update_entry (monthly_record pattern)
              (bucket_add month_key zero_month_stat month_stat_add)
              (fun _ => True) (fun _ => True) pattern) with
    (l := events) (d := dict_set monthly_stats pattern ([] : dict (month_stat F)))
    (v := ([] : dict (month_stat F))) as [Hf _]; auto.
  - intros d v e _ Hg _. split; auto. now apply monthly_record_step.
  - apply Forall_forall. auto.
  - apply dict_get_set_same.
  - rewrite Hf. unfold monthly_averages. rewrite dict_get_set_same.
    rewrite (month_table_run events Hvalid). now rewrite !dict_set_set.
Qed.

Lemma get_monthly_stats_closed (events_data : dict (list event)) :
  dict_wf events_data ->
  (forall pattern events,
      dict_get events_data pattern = Some events -> valid_events events) ->
  exists monthly_stats,
    get_monthly_stats events_data = Some monthly_stats
    /\ dict_keys monthly_stats = dict_keys events_data
    /\ forall pattern,
         dict_get monthly_stats pattern
         = option_map month_table (dict_get events_data pattern).
Proof.
  intros Hwf Hvalid.
  assert (Hrun : get_monthly_stats events_data
                 = Some (fold_left
                           (fun d item => dict_set d (fst item) (month_table (snd item)))
                           events_data [])).
  { unfold get_monthly_stats. apply foldM_total_In.
    intros s [p events] Hin. cbn [fst snd]. apply monthly_item_step.
    apply (Hvalid p). now apply dict_get_wf_In. }
  destruct (dict_comprehension (@month_table F FO) events_data Hwf [] Hwf) as [Hk Hg].
  eexists. split; [exact Hrun|]. split; [exact Hk | exact Hg].
Qed.

Lemma accumulate_month_stat (events : list event) :
  forall s : month_stat F,
    accumulate month_stat_add s events
    = {| ms_total_hours :=
           fold_left f_add (map (fun e => hours_of (event_duration e)) events)
                     (ms_total_hours s);
         ms_avg_hours := ms_avg_hours s;
         ms_event_count := ms_event_count s + Z.of_nat (List.length events) |}.
Proof.
  unfold accumulate.
  induction events as [|e events IH]; intros s.
  - simpl. rewrite Z.add_0_r. now destruct s.
  - cbn [fold_left map List.length]. rewrite IH. simpl. f_equal. lia.
Qed.

Lemma month_table_get (events : list event) (k : str) :
  valid_events events ->
  dict_get (month_table events) k
  = match bucket_events month_key k events with
    | [] => None
    | e0 :: _ =>
        let total := total_of (bucket_events month_key k events) in
        let days_in_month :=
          month_length (wall_year (event_wall e0)) (wall_month (event_wall e0)) in
        Some {| ms_total_hours := total;
                ms_avg_hours :=
                  f_div total (f_div (f_of_int days_in_month) (f_of_int 7));
                ms_event_count :=
                  Z.of_nat (List.length (bucket_events month_key k events)) |}
    end.
Proof.
  intros Hvalid.
  destruct (month_averages_spec
              (fold_left (bucket_add month_key zero_month_stat month_stat_add) events []))
    as (months' & Hm & _ & Hg).
  { intros k' Hin. eapply month_buckets_parse; eauto. }
  unfold month_table. rewrite Hm, Hg, bucket_fold_get.
  destruct (bucket_events month_key k events) as [|e0 l] eqn:Eb; auto.
  simpl dict_get. cbv iota.
  assert (Hin0 : In e0 (bucket_events month_key k events)) by (rewrite Eb; simpl; auto).
  unfold bucket_events in Hin0. apply filter_In in Hin0. destruct Hin0 as [Hin0 Hk0].
  apply str_eqb_eq in Hk0.
  unfold month_average. rewrite <- Hk0. unfold month_key at 1.
  destruct (Hvalid e0 Hin0) as (Hlo & Hy & Hlast).
  rewrite strftime_Y_m_parse by exact Hlo.
  rewrite month_days_length;
    [|split; [now apply wall_year_pos | exact Hy] | apply wall_month_range
     | exact Hlast].
  rewrite accumulate_month_stat. reflexivity.
Qed.

(** *** When [get_monthly_stats] raises *)

Lemma foldM_fails {A S : Type} (f : S -> A -> option S) (l : list A) (x : A) :
  In x l -> (forall s, f s x = None) -> forall s, foldM f l s = None.
Proof.
  intros Hin Hx. induction l as [|a l IH]; intros s; [destruct Hin|].
  cbn [foldM]. destruct Hin as [->|Hin].
  - now rewrite Hx.
  - destruct (f s a); auto.
Qed.

Lemma month_averages_fails (months : dict (month_stat F)) (k : str)
  (s : month_stat F) :
  In (k, s) months -> month_average k s = None -> month_averages months = None.
Proof.
  induction months as [|[k0 s0] months IH]; intros Hin Hk; [destruct Hin|].
  cbn [month_averages]. destruct Hin as [E|Hin].
  - inversion E; subst. now rewrite Hk.
  - rewrite (IH Hin Hk). now destruct (month_average k0 s0).
Qed.

Lemma monthly_item_fails (monthly_stats : dict (dict (month_stat F)))
  (pattern : str) (events : list event) (e : event) :
  In e events -> 1 <= wall_date (event_wall e) ->
  month_days (wall_year (event_wall e)) (wall_month (event_wall e)) = None ->
  match foldM (monthly_record pattern) events (dict_set monthly_stats pattern []) with
  | Some monthly_stats' => monthly_averages pattern monthly_stats'
  | None => None
  end
  = None.
Proof.
  intros Hin Hlo Hnone.
  destruct (foldM_update_entry (monthly_record pattern)
              (bucket_add month_key zero_month_stat month_stat_add)
              (fun _ => True) (fun _ => True) pattern) with
    (l := events) (d := dict_set monthly_stats pattern ([] : dict (month_stat F)))
    (v := ([] : dict (month_stat F))) as [Hf _]; auto.
  - intros d v a _ Hg _. split; auto. now apply monthly_record_step.
  - apply Forall_forall. auto.
  - apply dict_get_set_same.
  - rewrite Hf. unfold monthly_averages. rewrite dict_get_set_same.
    set (buckets := fold_left (bucket_add month_key zero_month_stat month_stat_add)
                              events []).
    assert (Hb : exists s, dict_get buckets (month_key e) = Some s).
    { unfold buckets. rewrite bucket_fold_get.
      destruct (bucket_events month_key (month_key e) events) as [|e0 l] eqn:Eb;
        [|eauto].
      exfalso. assert (Hin' : In e (bucket_events month_key (month_key e) events)).
      { unfold bucket_events. apply filter_In. split; auto. apply str_eqb_refl. }
      rewrite Eb in Hin'. destruct Hin'. }
    destruct Hb as [s Hs]. apply dict_get_In_pair in Hs.
    rewrite (month_averages_fails buckets (month_key e) s Hs); [reflexivity|].
    unfold month_average, month_key.
    rewrite strftime_Y_m_parse by exact Hlo. now rewrite Hnone.
Qed.

Lemma get_monthly_stats_fails (events_data : dict (list event)) (pattern : str)
  (events : list event) (e : event) :
  dict_get events_data pattern = Some events -> In e events ->
  1 <= wall_date (event_wall e) ->
  month_days (wall_year (event_wall e)) (wall_month (event_wall e)) = None ->
  get_monthly_stats events_data = None.
Proof.
  intros Hget Hin Hlo Hnone. unfold get_monthly_stats.
  apply (foldM_fails _ events_data (pattern, events)).
  - now apply dict_get_In_pair.
  - intros s. cbn [fst snd]. now apply (monthly_item_fails s pattern events e).
Qed.

(** A result of [get_monthly_stats] shows that every event lies in a
    month that has a next month. *)
Lemma get_monthly_stats_valid (events_data : dict (list event))
  (monthly_stats : dict (dict (month_stat F))) :
  (forall pattern events e,
      dict_get events_data pattern = Some events -> In e events ->
      1 <= wall_date (event_wall e)) ->
  get_monthly_stats events_data = Some monthly_stats ->
  forall pattern events,
    dict_get events_data pattern = Some events -> valid_events events.
Proof.
  intros Hlo Hrun pattern events Hget e Hin.
  pose proof (Hlo pattern events e Hget Hin) as He.
  split; [exact He|].
  destruct (Z_le_gt_dec (wall_year (event_wall e)) 9999) as [Hy|Hy].
  - split; [exact Hy|]. intros Hmax Hdec.
    rewrite (get_monthly_stats_fails events_data pattern events e) in Hrun;
      auto; [discriminate|].
    apply month_days_beyond. right. auto.
  - exfalso.
    rewrite (get_monthly_stats_fails events_data pattern events e) in Hrun;
      auto; [discriminate|].
    apply month_days_beyond. left. lia.
Qed.

Lemma valid_events_before (events : list event) :
  (forall e, In e events ->
             1 <= wall_date (event_wall e) < ymd2ord 9999 12 1) ->
  valid_events events.
Proof.
  intros H e Hin. destruct (H e Hin) as [Hlo Hhi].
  destruct (wall_before_last_month _ Hhi) as [Hy Hlast]. auto.
Qed.

End MonthlyFacts.

(** ** [get_time_spent] *)

Lemma get_time_spent_closed (events_data : dict (list event)) :
  dict_wf events_data ->
  dict_keys (get_time_spent events_data) = dict_keys events_data
  /\ forall pattern,
       dict_get (get_time_spent events_data) pattern
       = option_map (fun events => fold_left Z.add (map event_duration events) 0)
                    (dict_get events_data pattern).
Proof.
  intros Hwf.
  exact (dict_comprehension
           (fun events => fold_left Z.add (map event_duration events) 0)
           events_data Hwf [] Hwf).
Qed.

(** ** The pattern file *)

(** ** Stripping *)

Lemma lstrip_fixed (s : str) :
  match s with [] => True | c :: _ => isspace c = false end -> lstrip s = s.
Proof. destruct s as [|c s]; simpl; [reflexivity|]. now intros ->. Qed.

Lemma lstrip_head (s : str) :
  match lstrip s with [] => True | c :: _ => isspace c = false end.
Proof.
  induction s as [|c s IH]; simpl; [exact I|].
  destruct (isspace c) eqn:E; [exact IH | exact E].
Qed.

Lemma lstrip_idem (s : str) : lstrip (lstrip s) = lstrip s.
Proof. apply lstrip_fixed, lstrip_head. Qed.

Lemma lstrip_snoc (s : str) (c : N) :
  isspace c = false -> lstrip (s ++ [c]) = lstrip s ++ [c].
Proof.
  intros Hc. induction s as [|x s IH]; simpl.
  - now rewrite Hc.
  - destruct (isspace x); [exact IH | reflexivity].
Qed.

Lemma rstrip_idem (s : str) : rstrip (rstrip s) = rstrip s.
Proof. unfold rstrip. now rewrite List.rev_involutive, lstrip_idem. Qed.

Lemma rstrip_keeps_head (s : str) :
  match s with [] => True | c :: _ => isspace c = false end ->
  match rstrip s with [] => True | c :: _ => isspace c = false end.
Proof.
  destruct s as [|c s]; [intros _; exact I|]. intros Hc.
  unfold rstrip. simpl List.rev. rewrite lstrip_snoc by assumption.
  rewrite List.rev_app_distr. simpl. exact Hc.
Qed.

Lemma strip_idem (s : str) : strip (strip s) = strip s.
Proof.
  unfold strip.
  rewrite (lstrip_fixed (rstrip (lstrip s))).
  - apply rstrip_idem.
  - apply rstrip_keeps_head, lstrip_head.
Qed.

Lemma lstrip_incl (s : str) (c : N) : In c (lstrip s) -> In c s.
Proof.
  induction s as [|x s IH]; simpl; [auto|].
  destruct (isspace x); simpl; auto.
Qed.

Lemma strip_incl (s : str) (c : N) : In c (strip s) -> In c s.
Proof.
  unfold strip, rstrip. intros H.
  apply lstrip_incl. apply in_rev. apply lstrip_incl. now apply in_rev in H.
Qed.

Lemma before_sep_no_sep (sep : N) (s : str) : ~ In sep (before_sep sep s).
Proof.
  induction s as [|c s IH]; simpl; [auto|].
  destruct (N.eqb c sep) eqn:E; simpl; [auto|].
  apply N.eqb_neq in E. intros [H|H]; auto.
Qed.

Lemma before_sep_app (sep : N) (a b : str) :
  ~ In sep a -> before_sep sep (a ++ sep :: b) = a.
Proof.
  induction a as [|c a IH]; intros Ha; simpl.
  - now rewrite N.eqb_refl.
  - destruct (N.eqb_spec c sep) as [->|_]; [exfalso; apply Ha; simpl; auto|].
    f_equal. apply IH. intros H. apply Ha. simpl; auto.
Qed.

Lemma after_sep_app (sep : N) (a b : str) :
  ~ In sep a -> after_sep sep (a ++ sep :: b) = b.
Proof.
  induction a as [|c a IH]; intros Ha; simpl.
  - now rewrite N.eqb_refl.
  - destruct (N.eqb_spec c sep) as [->|_]; [exfalso; apply Ha; simpl; auto|].
    apply IH. intros H. apply Ha. simpl; auto.
Qed.

Lemma lstrip_split (s : str) :
  exists lead, s = lead ++ lstrip s /\ forall c, In c lead -> isspace c = true.
Proof.
  induction s as [|x s IH].
  - exists []. split; [reflexivity | intros c []].
  - cbn [lstrip]. destruct (isspace x) eqn:Ex.
    + destruct IH as (lead & Hs & Hlead). exists (x :: lead). split.
      * simpl. now rewrite <- Hs.
      * intros c [<-|Hc]; auto.
    + exists []. split; [reflexivity | intros c []].
Qed.

Lemma rstrip_split (s : str) :
  exists trail, s = rstrip s ++ trail /\ forall c, In c trail -> isspace c = true.
Proof.
  destruct (lstrip_split (List.rev s)) as (lead & Hs & Hlead).
  exists (List.rev lead). split.
  - unfold rstrip. rewrite <- List.rev_app_distr, <- Hs.
    symmetry. apply List.rev_involutive.
  - intros c Hc. apply Hlead. now apply in_rev.
Qed.

Lemma lstrip_white (lead t : str) :
  (forall c, In c lead -> isspace c = true) -> lstrip (lead ++ t) = lstrip t.
Proof.
  induction lead as [|x lead IH]; intros Hlead; [reflexivity|].
  simpl. rewrite (Hlead x) by (simpl; auto).
  apply IH. intros c Hc. apply Hlead. simpl; auto.
Qed.

(** [strip] returns the text between the white space at the two ends,
    and nothing else does. *)
Lemma strip_spec (s : str) :
  exists lead trail,
    s = lead ++ strip s ++ trail
    /\ (forall c, In c lead -> isspace c = true)
    /\ (forall c, In c trail -> isspace c = true)
    /\ (forall c rest, strip s = c :: rest -> isspace c = false)
    /\ (forall c rest, strip s = rest ++ [c] -> isspace c = false).
Proof.
  destruct (lstrip_split s) as (lead & Hs & Hlead).
  destruct (rstrip_split (lstrip s)) as (trail & Ht & Htrail).
  exists lead, trail. fold (strip s) in Ht.
  split; [now rewrite <- Ht|]. split; [exact Hlead|]. split; [exact Htrail|].
  split.
  - intros c rest E.
    pose proof (rstrip_keeps_head (lstrip s) (lstrip_head s)) as H.
    fold (strip s) in H. now rewrite E in H.
  - intros c rest E. unfold strip, rstrip in E.
    pose proof (lstrip_head (List.rev (lstrip s))) as H.
    apply (f_equal (@List.rev N)) in E.
    rewrite List.rev_involutive, List.rev_app_distr in E. simpl in E.
    now rewrite E in H.
Qed.

Lemma strip_unique (s lead t trail : str) :
  s = lead ++ t ++ trail ->
  (forall c, In c lead -> isspace c = true) ->
  (forall c, In c trail -> isspace c = true) ->
  (forall c rest, t = c :: rest -> isspace c = false) ->
  (forall c rest, t = rest ++ [c] -> isspace c = false) ->
  strip s = t.
Proof.
  intros -> Hlead Htrail Hfirst Hlast. unfold strip.
  rewrite lstrip_white by assumption.
  destruct t as [|x t].
  - simpl. rewrite <- (app_nil_r trail), lstrip_white by assumption.
    reflexivity.
  - assert (Hl : lstrip ((x :: t) ++ trail) = (x :: t) ++ trail).
    { simpl. now rewrite (Hfirst x t eq_refl). }
    rewrite Hl. unfold rstrip. rewrite List.rev_app_distr.
    rewrite lstrip_white by (intros c Hc; apply Htrail; now apply in_rev).
    destruct (exists_last (l := x :: t)) as (rest & z & E); [discriminate|].
    rewrite E, List.rev_app_distr.
    assert (Hr : lstrip (List.rev [z] ++ List.rev rest)
                 = List.rev [z] ++ List.rev rest).
    { simpl. now rewrite (Hlast z rest E). }
    rewrite Hr. now rewrite <- List.rev_app_distr, List.rev_involutive.
Qed.

Lemma first_sep_split (sep : N) (body head tail : str) :
  body = head ++ sep :: tail -> ~ In sep head ->
  contains_char sep body = true
  /\ before_sep sep body = head /\ after_sep sep body = tail.
Proof.
  intros -> Hhead. split; [|split].
  - unfold contains_char. apply existsb_exists. exists sep.
    split; [apply in_or_app; simpl; auto | apply N.eqb_refl].
  - now apply before_sep_app.
  - now apply after_sep_app.
Qed.

Lemma first_sep_found (sep : N) (body : str) :
  contains_char sep body = true ->
  body = before_sep sep body ++ sep :: after_sep sep body.
Proof.
  unfold contains_char. induction body as [|c body IH]; [discriminate|].
  simpl. rewrite (N.eqb_sym sep c).
  destruct (N.eqb_spec c sep) as [->|Hne]; [reflexivity|].
  simpl. intros H. now rewrite <- (IH H).
Qed.

Lemma contains_char_In (sep : N) (s : str) :
  contains_char sep s = false <-> ~ In sep s.
Proof.
  unfold contains_char. split.
  - intros H Hin. assert (Ht : existsb (N.eqb sep) s = true).
    { apply existsb_exists. exists sep. split; auto. apply N.eqb_refl. }
    congruence.
  - intros H. apply not_true_is_false. intros Ht.
    apply existsb_exists in Ht. destruct Ht as (x & Hx & E).
    apply N.eqb_eq in E. subst. contradiction.
Qed.

Lemma split1_contains (sep : N) (s : str) :
  contains_char sep s = true ->
  split1 sep s = [before_sep sep s; after_sep sep s].
Proof.
  unfold contains_char. induction s as [|c s IH]; simpl; [discriminate|].
  rewrite (N.eqb_sym sep c). destruct (N.eqb c sep); simpl; auto.
  intros H. now rewrite (IH H).
Qed.

Section PatternFacts.
Context {Pattern : Type} {RE : ReEngine Pattern}.

Lemma load_pattern_line_step (patterns : dict Pattern) (line : str) :
  load_pattern_line patterns line
  = match pattern_line line with
    | None => Some patterns
    | Some (name, regex) =>
        option_map (dict_set patterns name) (re_compile regex IGNORECASE)
    end.
Proof.
  unfold load_pattern_line, pattern_line.
  destruct (strip line) as [|c s] eqn:Es; auto.
  destruct (contains_char colon (c :: s)) eqn:Ec; simpl negb; cbv iota; auto.
  rewrite (split1_contains _ _ Ec).
  now destruct (re_compile (strip (after_sep colon (c :: s))) IGNORECASE).
Qed.

Lemma load_lines_spec (lines : list str) :
  forall patterns0 : dict Pattern,
    dict_wf patterns0 ->
    (forall line name regex,
        In line lines -> pattern_line line = Some (name, regex) ->
        re_compile regex IGNORECASE <> None) ->
    exists patterns,
      foldM load_pattern_line lines patterns0 = Some patterns
      /\ dict_wf patterns
      /\ forall name,
           dict_get patterns name
           = match last_definition name lines with
             | Some regex => re_compile regex IGNORECASE
             | None => dict_get patterns0 name
             end.
Proof.
  induction lines as [|line lines IH]; intros patterns0 Hwf Hok.
  - exists patterns0. simpl. auto.
  - cbn [foldM]. rewrite load_pattern_line_step.
    destruct (pattern_line line) as [[n rx]|] eqn:Ep.
    + destruct (re_compile rx IGNORECASE) as [p|] eqn:Ec.
      2:{ exfalso. apply (Hok line n rx); simpl; auto. }
      simpl option_map.
      destruct (IH (dict_set patterns0 n p)) as (patterns & Hf & Hwf' & Hg).
      { now apply dict_wf_set. }
      { intros l' n' rx' Hin. apply Hok. simpl; auto. }
      exists patterns. split; [|split]; auto.
      intros name. rewrite Hg. cbn [last_definition]. rewrite Ep.
      destruct (last_definition name lines); auto.
      rewrite dict_get_set. destruct (str_eqb n name); auto.
    + destruct (IH patterns0 Hwf) as (patterns & Hf & Hwf' & Hg).
      { intros l' n' rx' Hin. apply Hok. simpl; auto. }
      exists patterns. split; [|split]; auto.
      intros name. rewrite Hg. cbn [last_definition]. rewrite Ep.
      now destruct (last_definition name lines).
Qed.

Lemma load_lines_error (lines : list str) :
  forall patterns0 : dict Pattern,
    (exists line name regex,
        In line lines /\ pattern_line line = Some (name, regex)
        /\ re_compile regex IGNORECASE = None) ->
    foldM load_pattern_line lines patterns0 = None.
Proof.
  induction lines as [|line lines IH]; intros patterns0 (l & n & rx & Hin & Hp & Hc).
  - destruct Hin.
  - cbn [foldM]. rewrite load_pattern_line_step.
    destruct Hin as [->|Hin].
    + rewrite Hp, Hc. reflexivity.
    + destruct (pattern_line line) as [[n' rx']|].
      * destruct (re_compile rx' IGNORECASE); simpl; auto.
        apply IH. eauto 6.
      * apply IH. eauto 6.
Qed.

End PatternFacts.

Lemma distinct_NoDup (keys : list str) : distinct keys = true -> NoDup keys.
Proof.
  induction keys as [|k keys IH]; simpl; intros H; constructor.
  - apply andb_true_iff in H. destruct H as [H _].
    intros Hin. apply negb_true_iff in H.
    assert (existsb (str_eqb k) keys = true); [|congruence].
    apply existsb_exists. exists k. split; auto. apply str_eqb_refl.
  - apply IH. apply andb_true_iff in H. tauto.
Qed.

Lemma distinct_wf {V : Type} (d : dict V) :
  distinct (dict_keys d) = true -> dict_wf d.
Proof. apply distinct_NoDup. Qed.

(** * The claims *)

Section EventsWhere.
Context {Pattern : Type} {RE : ReEngine Pattern} {TZ : TzData}.

Lemma events_where_app (start_time end_time : window_bound)
  (p : component -> bool) (cs1 cs2 : list component) :
  events_where start_time end_time p (cs1 ++ cs2)
  = events_where start_time end_time p cs1
    ++ events_where start_time end_time p cs2.
Proof.
  induction cs1 as [|c cs1 IH]; simpl; auto.
  destruct (considered start_time end_time c); auto.
  destruct (p c); simpl; now rewrite IH.
Qed.

Lemma events_where_In (start_time end_time : window_bound)
  (p : component -> bool) (cs : list component) (e : event) :
  In e (events_where start_time end_time p cs)
  <-> exists c, In c cs /\ considered start_time end_time c = Some e /\ p c = true.
Proof.
  induction cs as [|c cs IH]; simpl.
  - split; [intros [] | intros (c & [] & _)].
  - destruct (considered start_time end_time c) as [e0|] eqn:Ec.
    + destruct (p c) eqn:Ep; simpl; rewrite IH; split.
      * intros [<-|(c' & Hin & Hc & Hp)]; [exists c; auto | exists c'; auto].
      * intros (c' & [<-|Hin] & Hc & Hp); [left; congruence | right; eauto].
      * intros (c' & Hin & Hc & Hp). exists c'; auto.
      * intros (c' & [<-|Hin] & Hc & Hp); [congruence | eauto].
    + rewrite IH. split.
      * intros (c' & Hin & Hc & Hp). exists c'; auto.
      * intros (c' & [<-|Hin] & Hc & Hp); [congruence | eauto].
Qed.

(** A component that does not reach the pattern loop leaves the result
    of the analysis as it is without it. *)
Lemma analyze_events_skip (calendars : list (list component))
  (start_time end_time : window_bound) (patterns : dict Pattern)
  (before after : list component) (c : component) :
  List.concat calendars = before ++ c :: after ->
  considered start_time end_time c = None ->
  analyze_events calendars start_time end_time patterns
  = analyze_events [before; after] start_time end_time patterns.
Proof.
  intros Hc Hskip. unfold analyze_events. rewrite Hc.
  cbn [List.concat]. rewrite app_nil_r, !foldM_app. cbn [foldM].
  destruct (foldM (process_component start_time end_time patterns) before
              (dict_fromkeys (dict_keys patterns) [], [])) as [[data un]|]; auto.
  now rewrite process_component_considered, Hskip.
Qed.

End EventsWhere.

Section AnalyzerClaims.
Context {Pattern : Type} {RE : ReEngine Pattern} {TZ : TzData}.

(** C1.  With distinct pattern names, [analyze_events] returns, under
    every pattern, the tuples of exactly those events that passed the
    window filter and whose text is found by the pattern's expression,
    in calendar order: a tuple is in the pattern's list if and only if
    it is the tuple of such an event.  The text searched is the summary,
    one space, the description, one space and the location, a missing
    field counting as the empty string. *)
Theorem analyze_events_classifies_by_search
  (calendars : list (list component)) (start_time end_time : window_bound)
  (patterns : dict Pattern) :
  dict_wf patterns ->
  let field := fun o : option str => match o with Some s => s | None => [] end in
  exists events_data unmatched,
    analyze_events calendars start_time end_time patterns
    = Some (events_data, unmatched)
    /\ forall pattern_name regex,
         dict_get patterns pattern_name = Some regex ->
         let found := fun c =>
           re_search regex
             (field (comp_summary c) ++ [32%N]
              ++ field (comp_description c) ++ [32%N]
              ++ field (comp_location c)) in
         exists classified,
           dict_get events_data pattern_name = Some classified
           /\ classified
              = events_where start_time end_time found (List.concat calendars)
           /\ forall e,
                In e classified
                <-> exists c,
                      In c (List.concat calendars)
                      /\ considered start_time end_time c = Some e
                      /\ found c = true.
Proof.
  intros Hwf field.
  destruct (analyze_events_spec calendars start_time end_time patterns Hwf)
    as (data & Hrun & _ & Hget).
  exists data, (events_where start_time end_time
                  (fun c => negb (matches_any patterns c)) (List.concat calendars)).
  split; [exact Hrun|].
  intros name regex Hname found.
  exists (events_where start_time end_time found (List.concat calendars)).
  split; [|split].
  - rewrite (Hget name regex Hname). reflexivity.
  - reflexivity.
  - intros e. apply events_where_In.
Qed.

(** C8.  With distinct pattern names, the dictionary returned by
    [analyze_events] has the pattern names as its keys, in their order;
    under each name stands the list of the considered events the
    pattern matches, so that an event matched by several patterns is in
    each of their lists; and the events reported as unmatched are the
    considered events that no pattern matches. *)
Theorem analyze_events_keys_and_unmatched
  (calendars : list (list component)) (start_time end_time : window_bound)
  (patterns : dict Pattern) :
  dict_wf patterns ->
  exists events_data unmatched,
    analyze_events calendars start_time end_time patterns
    = Some (events_data, unmatched)
    /\ dict_keys events_data = dict_keys patterns
    /\ (forall pattern_name regex,
          dict_get patterns pattern_name = Some regex ->
          dict_get events_data pattern_name
          = Some (events_where start_time end_time (matches regex)
                    (List.concat calendars)))
    /\ unmatched
       = events_where start_time end_time
           (fun c => negb (existsb (fun item => matches (snd item) c) patterns))
           (List.concat calendars).
Proof.
  intros Hwf.
  destruct (analyze_events_spec calendars start_time end_time patterns Hwf)
    as (data & Hrun & Hkeys & Hget).
  exists data, (events_where start_time end_time
                  (fun c => negb (matches_any patterns c)) (List.concat calendars)).
  repeat split; auto.
Qed.

(** C3.  Take a VEVENT with a DTSTART anywhere in the calendars, and
    compare as Python compares aware datetimes: against a bound that
    carries the analyzer's own tzinfo object the wall clocks are
    compared, against a bound with another tzinfo the instants (wall
    clock minus UTC offset).  When the normalized end is strictly before
    [start_time] or the normalized start strictly after [end_time], the
    analysis gives what it gives without the event.  Otherwise, and so
    also when the end equals [start_time] or the start equals
    [end_time], the event is recorded: its tuple stands, at the event's
    place, in the list of every pattern that matches it, and in the
    unmatched list when no pattern matches it.  Where the two compared
    datetimes have the same UTC offset, the order of the wall clocks is
    the order of the instants. *)
Theorem analyze_events_window_filter
  (calendars : list (list component)) (start_time end_time : window_bound)
  (patterns : dict Pattern) (before after : list component) (c : component)
  (dtstart : dt_value) :
  dict_wf patterns ->
  List.concat calendars = before ++ c :: after ->
  comp_name c = VEVENT ->
  comp_dtstart c = Some dtstart ->
  let event_start := normalize dtstart in
  let event_end :=
    normalize (match comp_dtend c with
               | Some dtend => dtend
               | None => add_timedelta dtstart 3600
               end) in
  let end_before_window :=
    match start_time with
    | SameTz wall => ld_wall event_end < wall
    | OtherTz wall utcoffset =>
        ld_wall event_end - ld_utcoffset event_end < wall - utcoffset
    end in
  let start_after_window :=
    match end_time with
    | SameTz wall => wall < ld_wall event_start
    | OtherTz wall utcoffset =>
        wall - utcoffset < ld_wall event_start - ld_utcoffset event_start
    end in
  let end_in_window :=
    match start_time with
    | SameTz wall => wall <= ld_wall event_end
    | OtherTz wall utcoffset =>
        wall - utcoffset <= ld_wall event_end - ld_utcoffset event_end
    end in
  let start_in_window :=
    match end_time with
    | SameTz wall => ld_wall event_start <= wall
    | OtherTz wall utcoffset =>
        ld_wall event_start - ld_utcoffset event_start <= wall - utcoffset
    end in
  (end_before_window \/ start_after_window ->
   analyze_events calendars start_time end_time patterns
   = analyze_events [before; after] start_time end_time patterns)
  /\ (end_in_window /\ start_in_window ->
      exists events_data unmatched,
        analyze_events calendars start_time end_time patterns
        = Some (events_data, unmatched)
        /\ (forall pattern_name regex,
              dict_get patterns pattern_name = Some regex ->
              matches regex c = true ->
              dict_get events_data pattern_name
              = Some (events_where start_time end_time (matches regex) before
                      ++ recorded_event c dtstart
                      :: events_where start_time end_time (matches regex) after))
        /\ (matches_any patterns c = false ->
            unmatched
            = events_where start_time end_time
                (fun c' => negb (matches_any patterns c')) before
              ++ recorded_event c dtstart
              :: events_where start_time end_time
                   (fun c' => negb (matches_any patterns c')) after))
  /\ (forall wall,
        start_time = SameTz wall ->
        tz_wall_offset wall = ld_utcoffset event_end ->
        (end_before_window
         <-> ld_wall event_end - ld_utcoffset event_end
             < wall - tz_wall_offset wall))
  /\ (forall wall,
        end_time = SameTz wall ->
        tz_wall_offset wall = ld_utcoffset event_start ->
        (start_after_window
         <-> wall - tz_wall_offset wall
             < ld_wall event_start - ld_utcoffset event_start)).
Proof.
  intros Hwf Hc Hname Hstart event_start event_end
         end_before_window start_after_window end_in_window start_in_window.
  set (skipped := dt_lt event_end start_time || dt_gt event_start end_time).
  assert (Hcons : considered start_time end_time c
                  = if skipped then None else Some (recorded_event c dtstart)).
  { unfold considered. rewrite Hname, str_eqb_refl, Hstart.
    unfold skipped, event_end, event_start, end_value.
    destruct (comp_dtend c); reflexivity. }
  assert (Hlt : dt_lt event_end start_time = true <-> end_before_window).
  { unfold dt_lt, end_before_window, local_instant.
    destruct start_time; apply Z.ltb_lt. }
  assert (Hgt : dt_gt event_start end_time = true <-> start_after_window).
  { unfold dt_gt, start_after_window, local_instant.
    destruct end_time; apply Z.ltb_lt. }
  split; [|split; [|split]].
  - intros Hout.
    assert (Hs : skipped = true).
    { unfold skipped. apply orb_true_iff. tauto. }
    rewrite Hs in Hcons. eapply analyze_events_skip; eauto.
  - intros [Hend Hbegin].
    assert (Hs : skipped = false).
    { unfold skipped. apply orb_false_iff. split; apply not_true_is_false.
      - intros H. apply Hlt in H. unfold end_before_window, end_in_window in *.
        destruct start_time; lia.
      - intros H. apply Hgt in H. unfold start_after_window, start_in_window in *.
        destruct end_time; lia. }
    rewrite Hs in Hcons.
    destruct (analyze_events_spec calendars start_time end_time patterns Hwf)
      as (data & Hrun & _ & Hget).
    exists data, (events_where start_time end_time
                    (fun c => negb (matches_any patterns c)) (List.concat calendars)).
    split; [exact Hrun|]. split.
    + intros name regex Hregex Hm. rewrite (Hget name regex Hregex), Hc.
      rewrite events_where_app. cbn [events_where]. now rewrite Hcons, Hm.
    + intros Hm. rewrite Hc, events_where_app. cbn [events_where].
      now rewrite Hcons, Hm.
  - intros wall -> Hoff. unfold end_before_window. lia.
  - intros wall -> Hoff. unfold start_after_window. lia.
Qed.

End AnalyzerClaims.

Section StatisticsClaims.
Context {F : Type} {FO : FloatOps F}.

Lemma strftime_Y_m_d_date (w1 w2 : Z) :
  wall_date w1 = wall_date w2 -> strftime_Y_m_d w1 = strftime_Y_m_d w2.
Proof.
  intros E. unfold strftime_Y_m_d, strftime_Y_m, wall_year, wall_month, wall_day.
  now rewrite E.
Qed.

Lemma wall_date_midnight (ordinal : Z) :
  wall_date (ordinal * SECONDS_PER_DAY) = ordinal.
Proof. unfold wall_date, SECONDS_PER_DAY. apply Z.div_mul. lia. Qed.

Lemma monday_of_pos (wall : Z) : 1 <= wall_date wall -> 1 <= monday_of wall.
Proof.
  unfold monday_of, weekday, weekday_of_ordinal. intros H.
  Z.div_mod_to_equations. lia.
Qed.

Lemma week_key_monday (e : event) :
  week_key e = strftime_Y_m_d (monday_of (event_wall e) * SECONDS_PER_DAY).
Proof.
  unfold week_key. apply strftime_Y_m_d_date.
  now rewrite monday_wall_date, wall_date_midnight.
Qed.

(** C7.  For every pattern and each of the seven weekdays,
    [get_day_stats] reports as [count] the number of the pattern's
    events that start on that weekday, as [total_hours] the sum of their
    durations in hours, and as [avg_hours] the total divided by the
    count when the count is positive and [0.0] otherwise. *)
Theorem get_day_stats_counts_and_averages (events_data : dict (list event)) :
  dict_wf events_data ->
  exists distribution,
    get_day_stats events_data = Some distribution
    /\ dict_keys distribution = dict_keys events_data
    /\ forall pattern events,
         dict_get events_data pattern = Some events ->
         exists by_day,
           dict_get distribution pattern = Some by_day
           /\ dict_keys by_day = days
           /\ forall i,
                0 <= i < 7 ->
                let on_day :=
                  filter (fun e => weekday (ld_wall (event_start e)) =? i) events in
                let count := Z.of_nat (List.length on_day) in
                let total :=
                  fold_left f_add
                    (map (fun e => f_div (f_of_int (event_duration e)) (f_of_int 3600))
                         on_day)
                    f_zero in
                dict_get by_day (nth (Z.to_nat i) days [])
                = Some {| ds_count := count;
                          ds_total_hours := total;
                          ds_avg_hours :=
                            if 0 <? count then f_div total (f_of_int count)
                            else f_zero |}.
Proof.
  intros Hwf.
  destruct (get_day_stats_closed events_data Hwf) as (distribution & Hrun & Hkeys & Hget).
  exists distribution. split; [exact Hrun|]. split; [exact Hkeys|].
  intros pattern events Hev. exists (day_table events).
  split. { rewrite Hget, Hev. reflexivity. }
  split. { apply (day_table_get events 0). lia. }
  intros i Hi on_day count total.
  destruct (day_table_get events i Hi) as [_ Hday].
  fold (day_name i). rewrite Hday. unfold day_average. cbn [ds_count].
  fold on_day. change (events_on_weekday i events) with on_day. fold count.
  destruct (0 <? count); reflexivity.
Qed.

(** C5.  For every pattern, [get_weekly_stats] puts each event into the
    bucket whose key is the [%Y-%m-%d] text of the Monday on or before
    the date of the event's start; the bucket's [total_hours] is the sum
    of the durations in hours of the events put into it and its
    [avg_hours] is that total divided by 7; there is no other bucket;
    and two events whose starts are datetimes share a bucket exactly
    when they have the same Monday. *)
Theorem get_weekly_stats_buckets (events_data : dict (list event)) :
  dict_wf events_data ->
  exists weekly_stats,
    get_weekly_stats events_data = Some weekly_stats
    /\ dict_keys weekly_stats = dict_keys events_data
    /\ forall pattern events,
         dict_get events_data pattern = Some events ->
         exists weeks,
           dict_get weekly_stats pattern = Some weeks
           /\ (forall e,
                 In e events ->
                 let wall := ld_wall (event_start e) in
                 let monday := wall_date wall - weekday wall in
                 let in_week :=
                   filter (fun e' => str_eqb (week_key e') (week_key e)) events in
                 let total :=
                   fold_left f_add
                     (map (fun e' => f_div (f_of_int (event_duration e')) (f_of_int 3600))
                          in_week)
                     f_zero in
                 weekday_of_ordinal monday = 0
                 /\ monday <= wall_date wall < monday + 7
                 /\ week_key e = strftime_Y_m_d (monday * SECONDS_PER_DAY)
                 /\ dict_get weeks (week_key e)
                    = Some {| ws_total_hours := total;
                              ws_avg_hours := f_div total (f_of_int 7) |})
           /\ (forall key,
                 (forall e, In e events -> week_key e <> key) ->
                 dict_get weeks key = None)
           /\ (forall e e',
                 1 <= wall_date (ld_wall (event_start e)) ->
                 1 <= wall_date (ld_wall (event_start e')) ->
                 (week_key e = week_key e'
                  <-> monday_of (ld_wall (event_start e))
                      = monday_of (ld_wall (event_start e')))).
Proof.
  intros Hwf.
  destruct (get_weekly_stats_closed events_data Hwf) as (weekly & Hrun & Hkeys & Hget).
  exists weekly. split; [exact Hrun|]. split; [exact Hkeys|].
  intros pattern events Hev. exists (week_table events).
  split. { rewrite Hget, Hev. reflexivity. }
  split; [|split].
  - intros e Hin wall monday in_week total.
    destruct (monday_of_spec wall) as [Hmon Hrange].
    split; [exact Hmon|]. split; [exact Hrange|].
    split. { apply week_key_monday. }
    rewrite week_table_get.
    change (bucket_events week_key (week_key e) events) with in_week.
    assert (Hin' : In e in_week).
    { unfold in_week. apply filter_In. split; auto. apply str_eqb_refl. }
    destruct in_week; [destruct Hin'|reflexivity].
  - intros key Hnone. rewrite week_table_get.
    destruct (bucket_events week_key key events) as [|e l] eqn:Eb; auto.
    exfalso. assert (Hin : In e (bucket_events week_key key events)).
    { rewrite Eb. simpl; auto. }
    unfold bucket_events in Hin. apply filter_In in Hin. destruct Hin as [Hin Hk].
    apply str_eqb_eq in Hk. exact (Hnone e Hin Hk).
  - intros e e' He He'. rewrite !week_key_monday.
    rewrite strftime_Y_m_d_inj.
    + now rewrite !wall_date_midnight.
    + rewrite wall_date_midnight. now apply monday_of_pos.
    + rewrite wall_date_midnight. now apply monday_of_pos.
Qed.

(** C6.  When every event starts at a datetime before 1 December 9999,
    [get_monthly_stats] puts, for every pattern, each event into the
    bucket of the year and month of its start ([%Y-%m]), two events
    sharing a bucket exactly when year and month agree; the bucket's
    [total_hours] is the sum of the durations in hours, its
    [event_count] the number of events, and its [avg_hours] the total
    divided by [days_in_month / 7], where [days_in_month] is the number
    of days from the first of the month to the first of the next month
    (January of the next year after December), which is the length of
    the month in the Gregorian calendar: 31, 30, or for February 29 in
    leap years and 28 otherwise.  An event that starts in December 9999
    makes [get_monthly_stats] raise: the first of the next month is
    outside the range of [datetime]. *)
Theorem get_monthly_stats_buckets (events_data : dict (list event)) :
  dict_wf events_data ->
  (forall pattern events e,
      dict_get events_data pattern = Some events -> In e events ->
      1 <= wall_date (ld_wall (event_start e))) ->
  (forall pattern events e,
      dict_get events_data pattern = Some events -> In e events ->
      wall_year (ld_wall (event_start e)) = 9999 ->
      wall_month (ld_wall (event_start e)) = 12 ->
      get_monthly_stats events_data = None)
  /\
  ((forall pattern events e,
       dict_get events_data pattern = Some events -> In e events ->
       wall_date (ld_wall (event_start e)) < ymd2ord 9999 12 1) ->
  exists monthly_stats,
    get_monthly_stats events_data = Some monthly_stats
    /\ dict_keys monthly_stats = dict_keys events_data
    /\ forall pattern events,
         dict_get events_data pattern = Some events ->
         exists months,
           dict_get monthly_stats pattern = Some months
           /\ (forall e,
                 In e events ->
                 let year := wall_year (ld_wall (event_start e)) in
                 let month := wall_month (ld_wall (event_start e)) in
                 let in_month :=
                   filter
                     (fun e' =>
                        (wall_year (ld_wall (event_start e')) =? year)
                        && (wall_month (ld_wall (event_start e')) =? month))
                     events in
                 let total :=
                   fold_left f_add
                     (map (fun e' => f_div (f_of_int (event_duration e')) (f_of_int 3600))
                          in_month)
                     f_zero in
                 let next_month :=
                   if month =? 12 then ymd2ord (year + 1) 1 1
                   else ymd2ord year (month + 1) 1 in
                 let days_in_month := next_month - ymd2ord year month 1 in
                 1 <= month <= 12
                 /\ days_in_month
                    = (if month =? 2 then
                         if (year mod 4 =? 0)
                            && (negb (year mod 100 =? 0) || (year mod 400 =? 0))
                         then 29 else 28
                       else if (month =? 4) || (month =? 6) || (month =? 9)
                               || (month =? 11)
                            then 30 else 31)
                 /\ dict_get months (strftime_Y_m (ld_wall (event_start e)))
                    = Some {| ms_total_hours := total;
                              ms_avg_hours :=
                                f_div total
                                  (f_div (f_of_int days_in_month) (f_of_int 7));
                              ms_event_count := Z.of_nat (List.length in_month) |})
           /\ (forall key,
                 (forall e, In e events ->
                            strftime_Y_m (ld_wall (event_start e)) <> key) ->
                 dict_get months key = None)).
Proof.
  intros Hwf Hlow. split.
  { intros pattern events e Hev Hin Hyear Hmonth.
    apply (get_monthly_stats_fails events_data pattern events e Hev Hin).
    - apply (Hlow pattern events e Hev Hin).
    - apply month_days_beyond. right. auto. }
  intros Hhigh.
  assert (Hvalid' : forall pattern events,
             dict_get events_data pattern = Some events -> valid_events events).
  { intros p evs Hp. apply valid_events_before. intros e He.
    split; [eapply Hlow | eapply Hhigh]; eauto. }
  destruct (get_monthly_stats_closed events_data Hwf Hvalid')
    as (monthly & Hrun & Hkeys & Hget).
  exists monthly. split; [exact Hrun|]. split; [exact Hkeys|].
  intros pattern events Hev. exists (month_table events).
  split. { rewrite Hget, Hev. reflexivity. }
  pose proof (Hvalid' pattern events Hev) as Hv.
  split.
  - intros e Hin year month in_month total next_month days_in_month.
    pose proof (wall_month_range (ld_wall (event_start e))) as Hm.
    fold month in Hm.
    assert (Hdays : days_in_month = month_length year month).
    { apply (ymd2ord_month_length year month Hm). }
    split; [exact Hm|]. split; [exact Hdays|].
    rewrite (month_table_get events _ Hv).
    assert (Hbucket : bucket_events month_key (strftime_Y_m (ld_wall (event_start e))) events
                      = in_month).
    { unfold bucket_events, in_month.
      assert (Hext : forall l, valid_events l ->
                filter (fun e0 => str_eqb (month_key e0)
                                    (strftime_Y_m (ld_wall (event_start e)))) l
                = filter (fun e' =>
                            (wall_year (ld_wall (event_start e')) =? year)
                            && (wall_month (ld_wall (event_start e')) =? month)) l).
      { induction l as [|x l IHl]; intros Hl; simpl; auto.
        assert (Hx : 1 <= wall_date (event_wall x)) by (apply Hl; simpl; auto).
        assert (He1 : 1 <= wall_date (event_wall e)) by (apply Hv; exact Hin).
        assert (Heq : str_eqb (month_key x) (strftime_Y_m (ld_wall (event_start e)))
                      = (wall_year (ld_wall (event_start x)) =? year)
                        && (wall_month (ld_wall (event_start x)) =? month)).
        { pose proof (strftime_Y_m_inj (event_wall x) (event_wall e) Hx He1)
            as Hinj.
          unfold month_key, event_wall in *.
          destruct (str_eqb (strftime_Y_m (ld_wall (event_start x)))
                            (strftime_Y_m (ld_wall (event_start e)))) eqn:Es.
          - apply str_eqb_eq in Es. apply Hinj in Es. destruct Es as [Ey Em].
            symmetry. apply andb_true_iff. rewrite !Z.eqb_eq. auto.
          - apply str_eqb_neq in Es. symmetry. apply not_true_is_false.
            intros Hb. apply andb_true_iff in Hb. rewrite !Z.eqb_eq in Hb.
            apply Es, Hinj. exact Hb. }
        rewrite Heq, IHl; auto.
        intros y Hy. apply Hl. simpl; auto. }
      apply Hext, Hv. }
    rewrite Hbucket.
    assert (Hin' : In e in_month).
    { unfold in_month. apply filter_In. split; auto.
      apply andb_true_iff. rewrite !Z.eqb_eq. auto. }
    destruct in_month as [|e0 l] eqn:Ei; [destruct Hin'|].
    assert (Hin0 : In e0 (filter
                            (fun e' =>
                               (wall_year (ld_wall (event_start e')) =? year)
                               && (wall_month (ld_wall (event_start e')) =? month))
                            events)).
    { fold in_month. rewrite Ei. simpl; auto. }
    apply filter_In in Hin0. destruct Hin0 as [_ Hym].
    apply andb_true_iff in Hym. rewrite !Z.eqb_eq in Hym. destruct Hym as [Ey Em].
    cbv zeta. unfold event_wall. rewrite Ey, Em, <- Hdays. reflexivity.
  - intros key Hnone. rewrite (month_table_get events _ Hv).
    destruct (bucket_events month_key key events) as [|e l] eqn:Eb; auto.
    exfalso. assert (Hin : In e (bucket_events month_key key events)).
    { rewrite Eb. simpl; auto. }
    unfold bucket_events in Hin. apply filter_In in Hin. destruct Hin as [Hin Hk].
    apply str_eqb_eq in Hk. exact (Hnone e Hin Hk).
Qed.

End StatisticsClaims.

(** ** Events of zero duration *)

Section ZeroDuration.
Context {F : Type} {FO : FloatOps F}.









End ZeroDuration.

Section AllDayClaims.
Context {Pattern : Type} {RE : ReEngine Pattern} {TZ : TzData}.
Context {F : Type} {FO : FloatOps F}.



Lemma day_average_fields (s : day_stat F) :
  ds_count (day_average s) = ds_count s
  /\ ds_total_hours (day_average s) = ds_total_hours s.
Proof. unfold day_average. destruct (0 <? ds_count s); auto. Qed.


End AllDayClaims.

(** ** The pattern file *)

Section PatternClaims.
Context {Pattern : Type} {RE : ReEngine Pattern}.

Lemma pattern_line_defines (line name regex : str) :
  pattern_line line = Some (name, regex)
  <-> strip line <> []
      /\ contains_char colon (strip line) = true
      /\ name = strip (before_sep colon (strip line))
      /\ regex = strip (after_sep colon (strip line)).
Proof.
  unfold pattern_line. destruct (strip line) as [|c s] eqn:Es.
  - split; [discriminate | intros [H _]; congruence].
  - destruct (contains_char colon (c :: s)) eqn:Ec.
    + split.
      * intros H. inversion H. repeat split; auto. discriminate.
      * intros (_ & _ & -> & ->). reflexivity.
    + split; [discriminate | intros (_ & H & _); discriminate].
Qed.

Lemma pattern_line_skipped (line : str) :
  strip line = [] \/ contains_char colon (strip line) = false ->
  pattern_line line = None.
Proof.
  unfold pattern_line. intros [H|H].
  - now rewrite H.
  - rewrite H. now destruct (strip line).
Qed.

Lemma last_definition_app (name : str) (l1 l2 : list str) :
  last_definition name (l1 ++ l2)
  = match last_definition name l2 with
    | Some regex => Some regex
    | None => last_definition name l1
    end.
Proof.
  induction l1 as [|line l1 IH]; simpl.
  - now destruct (last_definition name l2).
  - rewrite IH. now destruct (last_definition name l2).
Qed.

Lemma last_definition_none (name : str) (lines : list str) :
  (forall line regex, In line lines -> pattern_line line <> Some (name, regex)) ->
  last_definition name lines = None.
Proof.
  induction lines as [|line lines IH]; intros H; simpl; auto.
  rewrite IH by (intros l r Hin; apply H; simpl; auto).
  destruct (pattern_line line) as [[n rx]|] eqn:Ep; auto.
  destruct (str_eqb n name) eqn:E; auto.
  apply str_eqb_eq in E; subst n. exfalso. apply (H line rx); simpl; auto.
Qed.

(** What a line defines, told without [strip]: the line is white space,
    a text that neither starts nor ends with white space, and white
    space again; that text holds a colon; name and expression are what
    stands before and after its first colon, between white space in the
    same way. *)
Lemma pattern_line_parts (line name regex : str) :
  (exists body head tail,
      (exists lead trail,
          line = lead ++ body ++ trail
          /\ (forall c, In c lead -> isspace c = true)
          /\ (forall c, In c trail -> isspace c = true)
          /\ (forall c rest, body = c :: rest -> isspace c = false)
          /\ (forall c rest, body = rest ++ [c] -> isspace c = false))
      /\ body = head ++ [colon] ++ tail /\ ~ In colon head
      /\ (exists lead trail,
            head = lead ++ name ++ trail
            /\ (forall c, In c lead -> isspace c = true)
            /\ (forall c, In c trail -> isspace c = true)
            /\ (forall c rest, name = c :: rest -> isspace c = false)
            /\ (forall c rest, name = rest ++ [c] -> isspace c = false))
      /\ (exists lead trail,
            tail = lead ++ regex ++ trail
            /\ (forall c, In c lead -> isspace c = true)
            /\ (forall c, In c trail -> isspace c = true)
            /\ (forall c rest, regex = c :: rest -> isspace c = false)
            /\ (forall c rest, regex = rest ++ [c] -> isspace c = false)))
  <-> pattern_line line = Some (name, regex).
Proof.
  assert (Hstrip : forall s t,
             (exists lead trail,
                 s = lead ++ t ++ trail
                 /\ (forall c, In c lead -> isspace c = true)
                 /\ (forall c, In c trail -> isspace c = true)
                 /\ (forall c rest, t = c :: rest -> isspace c = false)
                 /\ (forall c rest, t = rest ++ [c] -> isspace c = false))
             <-> strip s = t).
  { intros s t. split.
    - intros (lead & trail & Hs & Hl & Ht & Hf & Hz).
      now apply (strip_unique s lead t trail).
    - intros <-. apply strip_spec. }
  rewrite pattern_line_defines. split.
  - intros (body & head & tail & Hb & Hsplit & Hhead & Hn & Hr).
    apply Hstrip in Hb. apply Hstrip in Hn. apply Hstrip in Hr. subst body.
    destruct (first_sep_split colon (strip line) head tail Hsplit Hhead)
      as (Hc & Hbefore & Hafter).
    rewrite Hbefore, Hafter. repeat split; auto.
    rewrite Hsplit. destruct head; discriminate.
  - intros (Hne & Hc & -> & ->).
    exists (strip line), (before_sep colon (strip line)),
           (after_sep colon (strip line)).
    split; [now apply Hstrip|].
    split; [now apply first_sep_found|].
    split; [apply before_sep_no_sep|].
    split; now apply Hstrip.
Qed.

Lemma blank_line_parts (line : str) :
  (exists body,
      (exists lead trail,
          line = lead ++ body ++ trail
          /\ (forall c, In c lead -> isspace c = true)
          /\ (forall c, In c trail -> isspace c = true)
          /\ (forall c rest, body = c :: rest -> isspace c = false)
          /\ (forall c rest, body = rest ++ [c] -> isspace c = false))
      /\ ~ In colon body)
  <-> pattern_line line = None.
Proof.
  split.
  - intros (body & (lead & trail & Hs & Hl & Ht & Hf & Hz) & Hcolon).
    rewrite <- (strip_unique line lead body trail Hs Hl Ht Hf Hz) in Hcolon.
    apply pattern_line_skipped. right. now apply contains_char_In.
  - intros Hnone. exists (strip line). split; [apply strip_spec|].
    apply contains_char_In. unfold pattern_line in Hnone.
    destruct (strip line) as [|c s]; [reflexivity|].
    destruct (contains_char colon (c :: s)); [discriminate|reflexivity].
Qed.

(** C10.  Reading the lines of an existing pattern file.  Stripping a
    text removes the white space at its two ends and nothing else.  A
    line whose stripped text holds no colon, the empty text included,
    changes nothing.  Any other line defines a pattern: its name is the
    stripped text before the first colon, its expression the stripped
    text after it, compiled with IGNORECASE.  When every expression
    compiles, the dictionary maps each defined name to the compiled
    expression of the last line defining it, and nothing else; when one
    of them does not compile, the function raises. *)
Theorem load_patterns_from_file (lines : list str) :
  let white := fun s : str => forall c, In c s -> isspace c = true in
  let stripped := fun s t : str =>
    exists lead trail,
      s = lead ++ t ++ trail /\ white lead /\ white trail
      /\ (forall c rest, t = c :: rest -> isspace c = false)
      /\ (forall c rest, t = rest ++ [c] -> isspace c = false) in
  let skipped := fun line : str =>
    exists body, stripped line body /\ ~ In colon body in
  let defines := fun line name regex : str =>
    exists body head tail,
      stripped line body
      /\ body = head ++ [colon] ++ tail /\ ~ In colon head
      /\ stripped head name /\ stripped tail regex in
  (forall before line after,
      lines = before ++ line :: after ->
      skipped line ->
      load_or_generate_patterns (Some lines)
      = load_or_generate_patterns (Some (before ++ after)))
  /\ ((forall line name regex,
          In line lines -> defines line name regex ->
          re_compile regex IGNORECASE <> None) ->
      exists patterns,
        load_or_generate_patterns (Some lines) = Some patterns
        /\ dict_wf patterns
        /\ (forall before line after name regex,
              lines = before ++ line :: after ->
              defines line name regex ->
              (forall later regex', In later after -> ~ defines later name regex') ->
              dict_get patterns name = re_compile regex IGNORECASE)
        /\ (forall name,
              (forall line regex, In line lines -> ~ defines line name regex) ->
              dict_get patterns name = None))
  /\ ((exists line name regex,
          In line lines /\ defines line name regex
          /\ re_compile regex IGNORECASE = None) ->
      load_or_generate_patterns (Some lines) = None).
Proof.
  intros white stripped skipped defines.
  assert (Hdef : forall line name regex,
             defines line name regex <-> pattern_line line = Some (name, regex)).
  { intros line name regex. apply pattern_line_parts. }
  assert (Hskip : forall line, skipped line -> pattern_line line = None).
  { intros line. apply blank_line_parts. }
  split; [|split].
  - intros before line after -> Hline. unfold load_or_generate_patterns.
    rewrite !foldM_app. cbn [foldM].
    destruct (foldM load_pattern_line before []) as [d|]; auto.
    now rewrite load_pattern_line_step, (Hskip line Hline).
  - intros Hok.
    destruct (load_lines_spec lines []) as (patterns & Hrun & Hwf & Hget).
    { constructor. }
    { intros line name regex Hin Hp. apply (Hok line name regex Hin).
      now apply Hdef. }
    exists patterns. split; [exact Hrun|]. split; [exact Hwf|]. split.
    + intros before line after name regex -> Hline Hlater.
      rewrite Hget, last_definition_app. cbn [last_definition].
      rewrite (last_definition_none name after).
      2:{ intros l r Hin Hp. apply (Hlater l r Hin). now apply Hdef. }
      apply Hdef in Hline. now rewrite Hline, str_eqb_refl.
    + intros name Hnone. rewrite Hget, last_definition_none; auto.
      intros l r Hin Hp. apply (Hnone l r Hin). now apply Hdef.
  - intros (line & name & regex & Hin & Hline & Hc).
    unfold load_or_generate_patterns. apply load_lines_error.
    exists line, name, regex. repeat split; auto. now apply Hdef.
Qed.

End PatternClaims.

(** ** Time zones and durations *)

Section ZoneFacts.
Context {TZ : TzData}.

(** The normalized value of a datetime is its wall clock read as UTC:
    the tzinfo it carried plays no part. *)
Lemma normalize_instant (wall : Z) (tzinfo : option (Z -> Z)) :
  local_instant (normalize (DateTimeValue wall tzinfo)) = wall.
Proof.
  unfold local_instant, normalize, astimezone_local, replace_tzinfo_utc.
  cbn [ld_wall ld_utcoffset]. lia.
Qed.

(** Normalization keeps the instant of a zoned value exactly when the
    value's UTC offset is zero. *)
Lemma normalize_keeps_instant_iff (wall : Z) (utcoffset : Z -> Z) (instant : Z) :
  file_instant (DateTimeValue wall (Some utcoffset)) = Some instant ->
  (local_instant (normalize (DateTimeValue wall (Some utcoffset))) = instant
   <-> utcoffset wall = 0).
Proof.
  rewrite normalize_instant. simpl. intros H. inversion H. lia.
Qed.

(** The duration recorded for a timed event without DTEND is the hour
    plus the change of the local UTC offset over that hour. *)
Lemma default_hour_duration (c : component) (wall : Z) (tzinfo : option (Z -> Z)) :
  comp_dtend c = None ->
  event_duration (recorded_event c (DateTimeValue wall tzinfo))
  = 3600 + tz_utc_offset (wall + 3600) - tz_utc_offset wall.
Proof.
  intros H. unfold recorded_event, end_value, event_duration. rewrite H.
  cbn [snd is_datetime add_timedelta normalize].
  unfold dt_sub, astimezone_local, replace_tzinfo_utc. cbn [ld_wall]. lia.
Qed.

End ZoneFacts.

(** C2.  On the event DTSTART;TZID=America/Los_Angeles:20240115T100000
    (18:00 UTC) the analyzer records the start 02:00 Pacific time, that
    is 10:00 UTC: the wall clock of the file has been read as UTC, and
    the instant has moved by the eight hours of the zone's offset. *)
Theorem zoned_start_is_read_as_utc :
  let dtstart :=
    DateTimeValue (datetime_of 2024 1 15 10 0 0) (Some la_wall_offset) in
  file_instant dtstart = Some (datetime_of 2024 1 15 18 0 0)
  /\ local_instant (normalize (TZ := los_angeles) dtstart)
     = datetime_of 2024 1 15 10 0 0
  /\ analyze_events (RE := literal_engine) (TZ := los_angeles)
       [[zoned_meeting]] (SameTz (datetime_of 2024 1 1 0 0 0))
       (SameTz (datetime_of 2024 1 31 23 59 59))
       [(py_str "reviews", (py_str "review", IGNORECASE))]
     = Some ([(py_str "reviews",
               [({| ld_wall := datetime_of 2024 1 15 2 0 0; ld_utcoffset := PST |},
                 py_str "Review", 3600)])],
             []).
Proof. vm_compute. repeat split; reflexivity. Qed.

(** C9.  On the event DTSTART:20240310T093000Z without DTEND the
    analyzer records a duration of two hours: the default end, one hour
    after the start, falls after the change to daylight time, and the
    duration is the difference of the two local wall clocks, 01:30 and
    03:30. *)
Theorem default_hour_across_dst_change :
  analyze_events (RE := literal_engine) (TZ := los_angeles)
    [[spring_forward]] march_start march_end
    [(py_str "calls", (py_str "call", IGNORECASE))]
  = Some ([(py_str "calls",
            [({| ld_wall := datetime_of 2024 3 10 1 30 0; ld_utcoffset := PST |},
              py_str "Call", 7200)])],
          [])
  /\ ld_wall (normalize (TZ := los_angeles)
                (add_timedelta
                   (DateTimeValue (datetime_of 2024 3 10 9 30 0) utc_tzinfo) 3600))
     = datetime_of 2024 3 10 3 30 0.
Proof. vm_compute. split; reflexivity. Qed.

(** * The claims on the sample calendar *)

Lemma sample_patterns_wf : dict_wf sample_patterns.
Proof. apply distinct_wf. reflexivity. Qed.

Lemma analyze_events_classifies_by_search_witness :
  dict_wf sample_patterns
  /\ exists events_data unmatched,
       analyze_events (RE := literal_engine) (TZ := los_angeles)
         sample_calendars march_start march_end sample_patterns
       = Some (events_data, unmatched)
       /\ dict_get events_data (py_str "rooms")
          = Some [({| ld_wall := datetime_of 2024 3 11 9 0 0; ld_utcoffset := PDT |},
                   py_str "Team standup", 1800)].
Proof.
  split; [exact sample_patterns_wf|].
  destruct (analyze_events_classifies_by_search (RE := literal_engine)
              (TZ := los_angeles) sample_calendars march_start march_end
              sample_patterns sample_patterns_wf)
    as (events_data & unmatched & Hrun & Hget).
  exists events_data, unmatched. split; [exact Hrun|].
  destruct (Hget (py_str "rooms") (py_str "room", IGNORECASE) eq_refl)
    as (classified & Hlist & -> & _).
  rewrite Hlist. vm_compute. reflexivity.
Defined.

Lemma analyze_events_keys_and_unmatched_witness :
  dict_wf sample_patterns
  /\ exists events_data unmatched,
       analyze_events (RE := literal_engine) (TZ := los_angeles)
         sample_calendars march_start march_end sample_patterns
       = Some (events_data, unmatched)
       /\ dict_keys events_data = [py_str "meetings"; py_str "rooms"]
       /\ unmatched
          = [({| ld_wall := datetime_of 2024 3 12 0 0 0; ld_utcoffset := PDT |},
              py_str "Holiday", 0)].
Proof.
  split; [exact sample_patterns_wf|].
  destruct (analyze_events_keys_and_unmatched (RE := literal_engine)
              (TZ := los_angeles) sample_calendars march_start march_end
              sample_patterns sample_patterns_wf)
    as (events_data & unmatched & Hrun & Hkeys & _ & Hun).
  exists events_data, unmatched. split; [exact Hrun|]. split.
  - rewrite Hkeys. reflexivity.
  - rewrite Hun. vm_compute. reflexivity.
Defined.

Lemma analyze_events_window_filter_witness :
  let dtstart := DateTimeValue (datetime_of 2024 3 11 16 0 0) utc_tzinfo in
  let dtend := DateTimeValue (datetime_of 2024 3 11 16 30 0) utc_tzinfo in
  let run := fun start_time end_time =>
    analyze_events (RE := literal_engine) (TZ := los_angeles)
      sample_calendars start_time end_time sample_patterns in
  let run_without := fun start_time end_time =>
    analyze_events (RE := literal_engine) (TZ := los_angeles)
      [[timezone_block]; [holiday; last_year]] start_time end_time
      sample_patterns in
  dict_wf sample_patterns
  /\ List.concat sample_calendars = [timezone_block] ++ standup :: [holiday; last_year]
  /\ comp_name standup = VEVENT
  /\ comp_dtstart standup = Some dtstart
  /\ comp_dtend standup = Some dtend
  /\ ld_wall (normalize (TZ := los_angeles) dtstart) = datetime_of 2024 3 11 9 0 0
  /\ ld_wall (normalize (TZ := los_angeles) dtend) = datetime_of 2024 3 11 9 30 0
  /\ run (SameTz (datetime_of 2024 3 11 9 30 1)) march_end
     = run_without (SameTz (datetime_of 2024 3 11 9 30 1)) march_end
  /\ run march_start (SameTz (datetime_of 2024 3 11 8 59 59))
     = run_without march_start (SameTz (datetime_of 2024 3 11 8 59 59))
  /\ run (OtherTz (datetime_of 2024 3 11 16 30 1) 0) march_end
     = run_without (OtherTz (datetime_of 2024 3 11 16 30 1) 0) march_end
  /\ (exists events_data unmatched,
        run (SameTz (datetime_of 2024 3 11 9 30 0)) march_end
        = Some (events_data, unmatched)
        /\ dict_get events_data (py_str "meetings") = Some [standup_event])
  /\ (exists events_data unmatched,
        run march_start (SameTz (datetime_of 2024 3 11 9 0 0))
        = Some (events_data, unmatched)
        /\ dict_get events_data (py_str "meetings") = Some [standup_event])
  /\ (exists events_data unmatched,
        run (OtherTz (datetime_of 2024 3 11 16 30 0) 0) march_end
        = Some (events_data, unmatched)
        /\ dict_get events_data (py_str "meetings") = Some [standup_event]).
Proof.
  intros dtstart dtend run run_without.
  pose proof (fun start_time end_time =>
                analyze_events_window_filter (RE := literal_engine)
                  (TZ := los_angeles) sample_calendars start_time end_time
                  sample_patterns [timezone_block] [holiday; last_year] standup
                  dtstart sample_patterns_wf eq_refl eq_refl eq_refl) as W.
  cbv zeta in W.
  split; [exact sample_patterns_wf|].
  split; [reflexivity|]. split; [reflexivity|]. split; [reflexivity|].
  split; [reflexivity|].
  split; [vm_compute; reflexivity|]. split; [vm_compute; reflexivity|].
  split.
  { destruct (W (SameTz (datetime_of 2024 3 11 9 30 1)) march_end) as (Hskip & _).
    apply Hskip. left. vm_compute. reflexivity. }
  split.
  { destruct (W march_start (SameTz (datetime_of 2024 3 11 8 59 59))) as (Hskip & _).
    apply Hskip. right. vm_compute. reflexivity. }
  split.
  { destruct (W (OtherTz (datetime_of 2024 3 11 16 30 1) 0) march_end) as (Hskip & _).
    apply Hskip. left. vm_compute. reflexivity. }
  split.
  { destruct (W (SameTz (datetime_of 2024 3 11 9 30 0)) march_end) as (_ & Hkeep & _).
    destruct Hkeep as (events_data & unmatched & Hrun & Hget & _).
    { split; vm_compute; discriminate. }
    exists events_data, unmatched. split; [exact Hrun|].
    rewrite (Hget (py_str "meetings") (py_str "standup", IGNORECASE) eq_refl).
    - vm_compute. reflexivity.
    - vm_compute. reflexivity. }
  split.
  { destruct (W march_start (SameTz (datetime_of 2024 3 11 9 0 0))) as (_ & Hkeep & _).
    destruct Hkeep as (events_data & unmatched & Hrun & Hget & _).
    { split; vm_compute; discriminate. }
    exists events_data, unmatched. split; [exact Hrun|].
    rewrite (Hget (py_str "meetings") (py_str "standup", IGNORECASE) eq_refl).
    - vm_compute. reflexivity.
    - vm_compute. reflexivity. }
  destruct (W (OtherTz (datetime_of 2024 3 11 16 30 0) 0) march_end) as (_ & Hkeep & _).
  destruct Hkeep as (events_data & unmatched & Hrun & Hget & _).
  { split; vm_compute; discriminate. }
  exists events_data, unmatched. split; [exact Hrun|].
  rewrite (Hget (py_str "meetings") (py_str "standup", IGNORECASE) eq_refl).
  - vm_compute. reflexivity.
  - vm_compute. reflexivity.
Defined.

(** In the repeated hour at the end of daylight time the order of the
    wall clocks is not the order in time: the event from 08:15 to 09:15
    UTC covers the window from 01:30 to 01:40 daylight time (08:30 to
    08:40 UTC), and yet it is left out, its end, 01:15 standard time,
    standing before 01:30 on the wall clock. *)
Lemma window_filter_in_repeated_hour :
  let start_wall := datetime_of 2024 11 3 1 30 0 in
  let end_wall := datetime_of 2024 11 3 1 40 0 in
  let event_start :=
    normalize (TZ := los_angeles)
      (DateTimeValue (datetime_of 2024 11 3 8 15 0) utc_tzinfo) in
  let event_end :=
    normalize (TZ := los_angeles)
      (DateTimeValue (datetime_of 2024 11 3 9 15 0) utc_tzinfo) in
  start_wall - la_wall_offset start_wall = datetime_of 2024 11 3 8 30 0
  /\ end_wall - la_wall_offset end_wall = datetime_of 2024 11 3 8 40 0
  /\ local_instant event_start = datetime_of 2024 11 3 8 15 0
  /\ local_instant event_end = datetime_of 2024 11 3 9 15 0
  /\ ld_wall event_end = datetime_of 2024 11 3 1 15 0
  /\ re_search (ReEngine := literal_engine) (py_str "shift", IGNORECASE)
       (component_text fall_back) = true
  /\ analyze_events (RE := literal_engine) (TZ := los_angeles)
       [[fall_back]] (SameTz start_wall) (SameTz end_wall) shift_patterns
     = Some ([(py_str "shifts", [])], []).
Proof. vm_compute. repeat split; reflexivity. Qed.

Lemma all_valid_spec (events_data : dict (list event)) :
  all_valid events_data = true ->
  forall pattern events e,
    dict_get events_data pattern = Some events -> In e events ->
    1 <= wall_date (ld_wall (event_start e)) < ymd2ord 9999 12 1.
Proof.
  unfold all_valid. intros H pattern events e Hget Hin.
  apply dict_get_In_pair in Hget.
  rewrite forallb_forall in H. specialize (H _ Hget). cbn [snd] in H.
  rewrite forallb_forall in H. specialize (H _ Hin).
  apply andb_true_iff in H. destruct H as [Hlo Hhi].
  split; [now apply Z.leb_le | now apply Z.ltb_lt].
Qed.

Lemma sample_events_wf : dict_wf sample_events.
Proof. apply distinct_wf. reflexivity. Qed.

Lemma get_day_stats_counts_and_averages_witness :
  dict_wf sample_events
  /\ exists distribution by_day,
       get_day_stats (FO := exact_arith) sample_events = Some distribution
       /\ dict_get distribution (py_str "meetings") = Some by_day
       /\ option_map ds_count (dict_get by_day (py_str "Monday")) = Some 1
       /\ option_map ds_count (dict_get by_day (py_str "Sunday")) = Some 0.
Proof.
  split; [exact sample_events_wf|].
  destruct (get_day_stats_counts_and_averages (FO := exact_arith) sample_events
              sample_events_wf) as (distribution & Hrun & _ & Hget).
  destruct (Hget (py_str "meetings") [standup_event; holiday_event; sync_event] eq_refl)
    as (by_day & Hby & _ & Hday).
  exists distribution, by_day. split; [exact Hrun|]. split; [exact Hby|]. split.
  - change (py_str "Monday") with (nth (Z.to_nat 0) days []).
    rewrite (Hday 0 ltac:(lia)). reflexivity.
  - change (py_str "Sunday") with (nth (Z.to_nat 6) days []).
    rewrite (Hday 6 ltac:(lia)). reflexivity.
Defined.

Lemma get_weekly_stats_buckets_witness :
  dict_wf sample_events
  /\ exists weekly_stats weeks,
       get_weekly_stats (FO := exact_arith) sample_events = Some weekly_stats
       /\ dict_get weekly_stats (py_str "meetings") = Some weeks
       /\ week_key sync_event = py_str "2024-03-11"
       /\ (exists w, dict_get weeks (py_str "2024-03-11") = Some w)
       /\ dict_get weeks (py_str "2024-03-04") = None.
Proof.
  split; [exact sample_events_wf|].
  destruct (get_weekly_stats_buckets (FO := exact_arith) sample_events
              sample_events_wf) as (weekly_stats & Hrun & _ & Hget).
  destruct (Hget (py_str "meetings") [standup_event; holiday_event; sync_event] eq_refl)
    as (weeks & Hweeks & Hin & Hout & _).
  exists weekly_stats, weeks. split; [exact Hrun|]. split; [exact Hweeks|].
  assert (Hkey : week_key sync_event = py_str "2024-03-11") by (vm_compute; reflexivity).
  split; [exact Hkey|]. split.
  - destruct (Hin sync_event) as (_ & _ & _ & Hw).
    { simpl. auto. }
    rewrite Hkey in Hw. eexists. exact Hw.
  - apply Hout. intros e [<-|[<-|[<-|[]]]]; vm_compute; discriminate.
Defined.

Lemma get_monthly_stats_buckets_witness :
  dict_wf sample_events
  /\ all_valid sample_events = true
  /\ (exists monthly_stats months,
        get_monthly_stats (FO := binary64) sample_events = Some monthly_stats
        /\ dict_get monthly_stats (py_str "meetings") = Some months
        /\ option_map ms_event_count (dict_get months (py_str "2024-03")) = Some 3
        /\ dict_get months (py_str "2024-02") = None)
  /\ get_monthly_stats (FO := binary64)
       [(py_str "meetings", [standup_event; last_december_event])]
     = None.
Proof.
  split; [exact sample_events_wf|]. split; [reflexivity|].
  split.
  - destruct (get_monthly_stats_buckets (FO := binary64) sample_events
                sample_events_wf
                (fun pattern events e Hget Hin =>
                   proj1 (all_valid_spec sample_events eq_refl pattern events e
                            Hget Hin)))
      as (_ & Hbuckets).
    destruct Hbuckets as (monthly_stats & Hrun & _ & Hget).
    { intros pattern events e Hev Hin.
      apply (all_valid_spec sample_events eq_refl pattern events e Hev Hin). }
    destruct (Hget (py_str "meetings") [standup_event; holiday_event; sync_event] eq_refl)
      as (months & Hmonths & Hin & Hout).
    exists monthly_stats, months. split; [exact Hrun|]. split; [exact Hmonths|]. split.
    + destruct (Hin standup_event) as (_ & _ & Hm).
      { simpl. auto. }
      change (py_str "2024-03")
        with (strftime_Y_m (ld_wall (event_start standup_event))).
      rewrite Hm. reflexivity.
    + apply Hout. intros e [<-|[<-|[<-|[]]]]; vm_compute; discriminate.
  - destruct (get_monthly_stats_buckets (FO := binary64)
                [(py_str "meetings", [standup_event; last_december_event])])
      as (Hraise & _).
    + apply distinct_wf. reflexivity.
    + intros pattern events e Hev Hin.
      destruct (str_eqb pattern (py_str "meetings")) eqn:E;
        cbn [dict_get] in Hev; rewrite E in Hev; [|discriminate].
      injection Hev as <-.
      destruct Hin as [<-|[<-|[]]]; vm_compute; discriminate.
    + apply (Hraise (py_str "meetings") [standup_event; last_december_event]
               last_december_event eq_refl).
      * simpl. auto.
      * vm_compute. reflexivity.
      * vm_compute. reflexivity.
Defined.

(** December 9999 has no first of the next month: for a pattern with an
    event in that month [get_monthly_stats] raises, and reports no
    bucket at all. *)
Lemma december_9999_has_no_monthly_stats :
  wall_year (ld_wall (event_start last_december_event)) = 9999
  /\ wall_month (ld_wall (event_start last_december_event)) = 12
  /\ get_monthly_stats (FO := binary64)
       [(py_str "meetings", [last_december_event])]
     = None.
Proof. vm_compute. repeat split; reflexivity. Qed.



Lemma load_patterns_from_file_witness :
  (load_or_generate_patterns (RE := literal_engine) (Some sample_lines)
   = load_or_generate_patterns (RE := literal_engine)
       (Some ([py_str "  work : Standup "]
              ++ [py_str ""; py_str "sport:gym"; py_str "work:  review"])))
  /\ (exists patterns,
        load_or_generate_patterns (RE := literal_engine) (Some sample_lines)
        = Some patterns
        /\ dict_get patterns (py_str "work") = Some (py_str "review", IGNORECASE)
        /\ dict_get patterns (py_str "play") = None)
  /\ (exists patterns,
        load_or_generate_patterns (RE := literal_engine)
          (Some [py_str "  work : Standup "])
        = Some patterns
        /\ dict_get patterns (py_str "work") = Some (py_str "Standup", IGNORECASE)
        /\ dict_get patterns (py_str "work ") = None)
  /\ load_or_generate_patterns (RE := literal_engine) (Some [py_str "broken:("])
     = None.
Proof.
  destruct (load_patterns_from_file (RE := literal_engine) sample_lines)
    as (Hskip & Hload & _).
  split; [|split; [|split]].
  - apply (Hskip [py_str "  work : Standup "] (py_str "# no colon here")
             [py_str ""; py_str "sport:gym"; py_str "work:  review"] eq_refl).
    apply blank_line_parts. vm_compute. reflexivity.
  - destruct Hload as (patterns & Hrun & _ & Hdef & Hnone).
    { intros line name regex Hin Hline. apply pattern_line_parts in Hline.
      destruct Hin as [<-|[<-|[<-|[<-|[<-|[]]]]]]; vm_compute in Hline;
        try discriminate; injection Hline as <- <-; vm_compute; discriminate. }
    exists patterns. split; [exact Hrun|]. split.
    + apply (Hdef [py_str "  work : Standup "; py_str "# no colon here"; py_str "";
                   py_str "sport:gym"]
               (py_str "work:  review") [] (py_str "work") (py_str "review") eq_refl).
      * apply pattern_line_parts. vm_compute. reflexivity.
      * intros later regex' [].
    + apply Hnone. intros line regex Hin Hline. apply pattern_line_parts in Hline.
      destruct Hin as [<-|[<-|[<-|[<-|[<-|[]]]]]]; vm_compute in Hline;
        discriminate.
  - destruct (load_patterns_from_file (RE := literal_engine)
                [py_str "  work : Standup "]) as (_ & Hload' & _).
    destruct Hload' as (patterns & Hrun & _ & Hdef & Hnone).
    { intros line name regex Hin Hline. apply pattern_line_parts in Hline.
      destruct Hin as [<-|[]]; vm_compute in Hline.
      injection Hline as <- <-. vm_compute. discriminate. }
    exists patterns. split; [exact Hrun|]. split.
    + apply (Hdef [] (py_str "  work : Standup ") [] (py_str "work")
               (py_str "Standup") eq_refl).
      * exists (py_str "work : Standup"), (py_str "work "), (py_str " Standup").
        split.
        { exists (py_str "  "), (py_str " ").
          split; [reflexivity|].
          split; [intros c [<-|[<-|[]]]; reflexivity|].
          split; [intros c [<-|[]]; reflexivity|].
          split.
          - intros c rest E. injection E as <- _. reflexivity.
          - intros c rest E.
            apply (f_equal (@List.rev N)) in E. rewrite List.rev_app_distr in E.
            vm_compute in E. injection E as <- _. reflexivity. }
        split; [reflexivity|].
        split.
        { intros Hin. vm_compute in Hin.
          repeat (destruct Hin as [Hin|Hin]; [discriminate|]). exact Hin. }
        split.
        { exists [], (py_str " ").
          split; [reflexivity|].
          split; [intros c []|].
          split; [intros c [<-|[]]; reflexivity|].
          split.
          - intros c rest E. injection E as <- _. reflexivity.
          - intros c rest E.
            apply (f_equal (@List.rev N)) in E. rewrite List.rev_app_distr in E.
            vm_compute in E. injection E as <- _. reflexivity. }
        { exists (py_str " "), [].
          split; [reflexivity|].
          split; [intros c [<-|[]]; reflexivity|].
          split; [intros c []|].
          split.
          - intros c rest E. injection E as <- _. reflexivity.
          - intros c rest E.
            apply (f_equal (@List.rev N)) in E. rewrite List.rev_app_distr in E.
            vm_compute in E. injection E as <- _. reflexivity. }
      * intros later regex' [].
    + apply Hnone. intros line regex Hin Hline. apply pattern_line_parts in Hline.
      destruct Hin as [<-|[]]; vm_compute in Hline. discriminate.
  - destruct (load_patterns_from_file (RE := literal_engine) [py_str "broken:("])
      as (_ & _ & Hfail).
    apply Hfail. exists (py_str "broken:("), (py_str "broken"), (py_str "(").
    split; [simpl; auto|]. split; [|vm_compute; reflexivity].
    apply pattern_line_parts. vm_compute. reflexivity.
Defined.

(** An expression can switch the flag off for itself: the pattern read
    from the line [work:(?-i:Standup)] finds "Standup" and does not find
    "STANDUP", although it was compiled with IGNORECASE. *)
Lemma loaded_pattern_can_be_case_sensitive :
  load_or_generate_patterns (RE := scoped_engine)
    (Some [py_str "work:(?-i:Standup)"])
  = Some [(py_str "work", (py_str "Standup", NOFLAG))]
  /\ re_search (ReEngine := scoped_engine) (py_str "Standup", NOFLAG)
       (py_str "Team Standup") = true
  /\ re_search (ReEngine := scoped_engine) (py_str "Standup", NOFLAG)
       (py_str "team STANDUP") = false.
Proof. vm_compute. repeat split; reflexivity. Qed.

(** ** The model at work *)

Example sample_analysis :
  analyze_events (RE := literal_engine) (TZ := los_angeles)
    sample_calendars march_start march_end sample_patterns
  = Some ([(py_str "meetings", [standup_event]); (py_str "rooms", [standup_event])],
          [holiday_event]).
Proof. vm_compute. reflexivity. Qed.

Example sample_week_keys :
  map week_key [standup_event; holiday_event; sync_event]
  = [py_str "2024-03-11"; py_str "2024-03-11"; py_str "2024-03-11"].
Proof. vm_compute. reflexivity. Qed.

Example sample_time_spent :
  get_time_spent sample_events
  = [(py_str "meetings", 5400); (py_str "rooms", 1800)].
Proof. vm_compute. reflexivity. Qed.

Example sample_month_days :
  map (fun ym => month_days (fst ym) (snd ym))
      [(2023, 2); (2024, 2); (1900, 2); (2000, 2); (2023, 12); (2024, 4);
       (9999, 11); (9999, 12)]
  = [Some 28; Some 29; Some 28; Some 29; Some 31; Some 30; Some 30; None].
Proof. vm_compute. reflexivity. Qed.

Example sample_pattern_file :
  load_or_generate_patterns (RE := literal_engine) (Some sample_lines)
  = Some [(py_str "work", (py_str "review", IGNORECASE));
          (py_str "sport", (py_str "gym", IGNORECASE))].
Proof. vm_compute. reflexivity. Qed.

(** The end of daylight time: DTSTART:20241103T083000Z without DTEND is
    recorded from 01:30 to 01:30, with no duration at all. *)
Example default_hour_across_dst_end :
  option_map (fun v : dt_value => event_duration (recorded_event
                 (TZ := los_angeles)
                 {| comp_name := VEVENT; comp_dtstart := Some v; comp_dtend := None;
                    comp_summary := None; comp_description := None;
                    comp_location := None |} v))
             (Some (DateTimeValue (datetime_of 2024 11 3 8 30 0) utc_tzinfo))
  = Some 0.
Proof. vm_compute. reflexivity. Qed.


(** * More properties of the script *)

(** ** Calendars, components and the window *)

Section AnalyzerExtras.
Context {Pattern : Type} {RE : ReEngine Pattern} {TZ : TzData}.

(** X1.  Analysing several calendar files amounts to analysing them one
    after the other and appending: under every pattern, and among the
    unmatched events, the tuples of the first files come first. *)
Theorem analyze_events_appends_calendars
  (calendars1 calendars2 : list (list component))
  (start_time end_time : window_bound) (patterns : dict Pattern) :
  dict_wf patterns ->
  exists data1 unmatched1 data2 unmatched2 data unmatched,
    analyze_events calendars1 start_time end_time patterns
    = Some (data1, unmatched1)
    /\ analyze_events calendars2 start_time end_time patterns
       = Some (data2, unmatched2)
    /\ analyze_events (calendars1 ++ calendars2) start_time end_time patterns
       = Some (data, unmatched)
    /\ unmatched = unmatched1 ++ unmatched2
    /\ forall pattern_name,
         In pattern_name (dict_keys patterns) ->
         exists events1 events2,
           dict_get data1 pattern_name = Some events1
           /\ dict_get data2 pattern_name = Some events2
           /\ dict_get data pattern_name = Some (events1 ++ events2).
Proof.
  intros Hwf.
  destruct (analyze_events_spec calendars1 start_time end_time patterns Hwf)
    as (d1 & Hr1 & _ & Hg1).
  destruct (analyze_events_spec calendars2 start_time end_time patterns Hwf)
    as (d2 & Hr2 & _ & Hg2).
  destruct (analyze_events_spec (calendars1 ++ calendars2) start_time end_time
              patterns Hwf) as (d & Hr & _ & Hg).
  exists d1. eexists. exists d2. eexists. exists d. eexists.
  split; [exact Hr1|]. split; [exact Hr2|]. split; [exact Hr|].
  split.
  - rewrite concat_app. apply events_where_app.
  - intros name Hin. destruct (dict_get_In _ _ Hin) as [regex Hregex].
    eexists. eexists. split; [exact (Hg1 name regex Hregex)|].
    split; [exact (Hg2 name regex Hregex)|].
    rewrite (Hg name regex Hregex), concat_app. f_equal. apply events_where_app.
Qed.

(** X2.  A component that is not a VEVENT, or a VEVENT without DTSTART,
    plays no part: the analysis gives what it gives without it. *)
Theorem analyze_events_ignores_other_components
  (calendars : list (list component)) (start_time end_time : window_bound)
  (patterns : dict Pattern) (before after : list component) (c : component) :
  List.concat calendars = before ++ c :: after ->
  comp_name c <> VEVENT \/ comp_dtstart c = None ->
  analyze_events calendars start_time end_time patterns
  = analyze_events [before; after] start_time end_time patterns.
Proof.
  intros Hc Hother. eapply analyze_events_skip; eauto.
  unfold considered. destruct Hother as [Hname|Hstart].
  - apply str_eqb_neq in Hname. now rewrite Hname.
  - rewrite Hstart. now destruct (str_eqb (comp_name c) VEVENT).
Qed.

Lemma wall_before_midnight (wall ordinal : Z) :
  (wall <? wall_at ordinal 0 0 0) = (wall_date wall <? ordinal).
Proof.
  unfold wall_at, wall_date, SECONDS_PER_DAY.
  destruct (wall / 86400 <? ordinal) eqn:E.
  - apply Z.ltb_lt in E. apply Z.ltb_lt. Z.div_mod_to_equations. lia.
  - apply Z.ltb_ge in E. apply Z.ltb_ge. Z.div_mod_to_equations. lia.
Qed.

Lemma wall_after_last_second (wall ordinal : Z) :
  (wall_at ordinal 23 59 59 <? wall) = (ordinal <? wall_date wall).
Proof.
  unfold wall_at, wall_date, SECONDS_PER_DAY.
  destruct (ordinal <? wall / 86400) eqn:E.
  - apply Z.ltb_lt in E. apply Z.ltb_lt. Z.div_mod_to_equations. lia.
  - apply Z.ltb_ge in E. apply Z.ltb_ge. Z.div_mod_to_equations. lia.
Qed.

(** X3.  With the window the script builds from [--start] and [--end],
    only local dates count.  A VEVENT with DTSTART is left out exactly
    when its normalized end falls on a date before the start date or
    its normalized start on a date after the end date; otherwise its
    tuple is recorded, under every pattern that matches it or, when none
    does, among the unmatched events. *)
Theorem analyze_events_window_of_dates
  (calendars : list (list component)) (start_date end_date : Z)
  (patterns : dict Pattern) (before after : list component) (c : component)
  (dtstart : dt_value) :
  dict_wf patterns ->
  List.concat calendars = before ++ c :: after ->
  comp_name c = VEVENT ->
  comp_dtstart c = Some dtstart ->
  let first_date := wall_date (ld_wall (normalize dtstart)) in
  let last_date :=
    wall_date (ld_wall (normalize
                          (match comp_dtend c with
                           | Some dtend => dtend
                           | None => add_timedelta dtstart 3600
                           end))) in
  (last_date < start_date \/ end_date < first_date ->
   analyze_events calendars (main_start_time start_date)
     (main_end_time end_date) patterns
   = analyze_events [before; after] (main_start_time start_date)
       (main_end_time end_date) patterns)
  /\ (start_date <= last_date /\ first_date <= end_date ->
      exists events_data unmatched,
        analyze_events calendars (main_start_time start_date)
          (main_end_time end_date) patterns
        = Some (events_data, unmatched)
        /\ (forall pattern_name regex,
              dict_get patterns pattern_name = Some regex ->
              matches regex c = true ->
              exists events,
                dict_get events_data pattern_name = Some events
                /\ In (recorded_event c dtstart) events)
        /\ (matches_any patterns c = false ->
            In (recorded_event c dtstart) unmatched)).
Proof.
  intros Hwf Hc Hname Hstart first_date last_date.
  set (start_time := main_start_time start_date).
  set (end_time := main_end_time end_date).
  assert (Hcons : considered start_time end_time c
                  = if (last_date <? start_date) || (end_date <? first_date)
                    then None else Some (recorded_event c dtstart)).
  { unfold considered. rewrite Hname, str_eqb_refl, Hstart.
    unfold start_time, end_time, main_start_time, main_end_time, dt_lt, dt_gt.
    rewrite wall_before_midnight, wall_after_last_second.
    unfold last_date, first_date, end_value.
    destruct (comp_dtend c); reflexivity. }
  split.
  - intros Hout. eapply analyze_events_skip; eauto. rewrite Hcons.
    replace ((last_date <? start_date) || (end_date <? first_date)) with true; auto.
    symmetry. apply orb_true_iff. rewrite !Z.ltb_lt. exact Hout.
  - intros [H1 H2].
    replace ((last_date <? start_date) || (end_date <? first_date)) with false
      in Hcons.
    2:{ symmetry. apply orb_false_iff. rewrite !Z.ltb_ge. auto. }
    destruct (analyze_events_spec calendars start_time end_time patterns Hwf)
      as (data & Hrun & _ & Hget).
    exists data. eexists. split; [exact Hrun|]. split.
    + intros name regex Hregex Hm. eexists. split; [exact (Hget name regex Hregex)|].
      apply events_where_In. exists c. rewrite Hc. split; auto.
      apply in_or_app. simpl. auto.
    + intros Hm. apply events_where_In. exists c. rewrite Hc. split.
      * apply in_or_app. simpl. auto.
      * split; auto. now rewrite Hm.
Qed.

End AnalyzerExtras.

(** ** From the analysis to the statistics *)

Section PipelineExtras.
Context {Pattern : Type} {RE : ReEngine Pattern} {TZ : TzData}.
Context {F : Type} {FO : FloatOps F}.

Lemma analyzed_events_valid (calendars : list (list component))
  (start_time end_time : window_bound) (p : component -> bool) :
  (forall c dtstart,
      In c (List.concat calendars) -> comp_dtstart c = Some dtstart ->
      1 <= wall_date (ld_wall (normalize dtstart)) < ymd2ord 9999 12 1) ->
  valid_events (events_where start_time end_time p (List.concat calendars)).
Proof.
  intros Hvalid. apply valid_events_before. intros e He.
  apply events_where_In in He.
  destruct He as (c & Hin & Hc & _). unfold considered in Hc.
  destruct (str_eqb (comp_name c) VEVENT); [|discriminate].
  destruct (comp_dtstart c) as [v|] eqn:Ev; [|discriminate].
  destruct (dt_lt (normalize (end_value c v)) start_time
            || dt_gt (normalize v) end_time); [discriminate|].
  inversion Hc; subst e. exact (Hvalid c v Hin Ev).
Qed.

(** X4.  The statistics never raise on the dictionary that
    [analyze_events] returns: [get_day_stats] and [get_weekly_stats]
    return a dictionary with the pattern names as keys, as
    [get_time_spent] does, and so does [get_monthly_stats] when the
    normalized start of every event is a datetime before 1 December
    9999. *)
Theorem statistics_of_analysis_succeed
  (calendars : list (list component)) (start_time end_time : window_bound)
  (patterns : dict Pattern) :
  dict_wf patterns ->
  exists events_data unmatched distribution weekly_stats,
    analyze_events calendars start_time end_time patterns
    = Some (events_data, unmatched)
    /\ get_day_stats events_data = Some distribution
    /\ dict_keys distribution = dict_keys patterns
    /\ get_weekly_stats events_data = Some weekly_stats
    /\ dict_keys weekly_stats = dict_keys patterns
    /\ dict_keys (get_time_spent events_data) = dict_keys patterns
    /\ ((forall c dtstart,
            In c (List.concat calendars) -> comp_dtstart c = Some dtstart ->
            1 <= wall_date (ld_wall (normalize dtstart)) < ymd2ord 9999 12 1) ->
        exists monthly_stats,
          get_monthly_stats events_data = Some monthly_stats
          /\ dict_keys monthly_stats = dict_keys patterns).
Proof.
  intros Hwf.
  destruct (analyze_events_spec calendars start_time end_time patterns Hwf)
    as (data & Hrun & Hkeys & Hget).
  assert (Hwfd : dict_wf data) by (unfold dict_wf; rewrite Hkeys; exact Hwf).
  destruct (get_day_stats_closed (FO := FO) data Hwfd) as (dist & Hd & Hdk & _).
  destruct (get_weekly_stats_closed (FO := FO) data Hwfd) as (weekly & Hw & Hwk & _).
  destruct (get_time_spent_closed data Hwfd) as [Htk _].
  exists data. eexists. exists dist, weekly.
  split; [exact Hrun|]. split; [exact Hd|]. split; [congruence|].
  split; [exact Hw|]. split; [congruence|]. split; [congruence|].
  intros Hvalid.
  destruct (get_monthly_stats_closed (FO := FO) data Hwfd) as (monthly & Hm & Hmk & _).
  { intros name events Hev.
    destruct (dict_get_In patterns name) as [regex Hregex].
    { rewrite <- Hkeys. eapply dict_get_Some_In; eauto. }
    rewrite (Hget name regex Hregex) in Hev. inversion Hev.
    now apply analyzed_events_valid. }
  exists monthly. split; [exact Hm | congruence].
Qed.

(** X5.  The time [get_time_spent] reports for a pattern, computed from
    the result of [analyze_events], is the sum of the recorded durations
    of the considered events the pattern matches; nothing is reported
    for a name that is not a pattern. *)
Theorem time_spent_of_analysis
  (calendars : list (list component)) (start_time end_time : window_bound)
  (patterns : dict Pattern) :
  dict_wf patterns ->
  exists events_data unmatched,
    analyze_events calendars start_time end_time patterns
    = Some (events_data, unmatched)
    /\ (forall pattern_name regex,
          dict_get patterns pattern_name = Some regex ->
          dict_get (get_time_spent events_data) pattern_name
          = Some (fold_left Z.add
                    (map event_duration
                         (events_where start_time end_time (matches regex)
                            (List.concat calendars)))
                    0))
    /\ (forall name,
          dict_get patterns name = None ->
          dict_get (get_time_spent events_data) name = None).
Proof.
  intros Hwf.
  destruct (analyze_events_spec calendars start_time end_time patterns Hwf)
    as (data & Hrun & Hkeys & Hget).
  assert (Hwfd : dict_wf data) by (unfold dict_wf; rewrite Hkeys; exact Hwf).
  destruct (get_time_spent_closed data Hwfd) as [Htk Htg].
  exists data. eexists. split; [exact Hrun|]. split.
  - intros name regex Hregex. now rewrite Htg, (Hget name regex Hregex).
  - intros name Hnone. apply dict_get_None. rewrite Htk, Hkeys.
    now apply dict_get_None.
Qed.

End PipelineExtras.

(** ** Every event is counted once *)

Section CountExtras.
Context {F : Type} {FO : FloatOps F}.

Lemma weekday_lengths_sum (events : list event) :
  Z.of_nat (List.length (events_on_weekday 0 events))
  + Z.of_nat (List.length (events_on_weekday 1 events))
  + Z.of_nat (List.length (events_on_weekday 2 events))
  + Z.of_nat (List.length (events_on_weekday 3 events))
  + Z.of_nat (List.length (events_on_weekday 4 events))
  + Z.of_nat (List.length (events_on_weekday 5 events))
  + Z.of_nat (List.length (events_on_weekday 6 events))
  = Z.of_nat (List.length events).
Proof.
  induction events as [|e events IH]; [reflexivity|].
  unfold events_on_weekday in *. cbn [filter].
  destruct (small_index _ (weekday_range (event_wall e))) as [E|[E|[E|[E|[E|[E|E]]]]]];
    rewrite E; cbn [Z.eqb Pos.eqb List.length]; lia.
Qed.

Lemma fold_add_shift (l : list Z) (a : Z) :
  fold_left Z.add l a = a + fold_left Z.add l 0.
Proof.
  revert a. induction l as [|x l IH]; intros a; simpl; [lia|].
  rewrite (IH (a + x)), (IH x). lia.
Qed.

(** The sum over the values is the sum, over the keys, of the value
    found under each key. *)
Lemma dict_sum_by_keys {V : Type} (f : V -> Z) (d : dict V) :
  dict_wf d ->
  dict_sum f d
  = fold_left Z.add
      (map (fun k => match option_map f (dict_get d k) with
                     | Some n => n
                     | None => 0
                     end) (dict_keys d)) 0.
Proof.
  unfold dict_sum, dict_wf. induction d as [|[k v] d IH]; intros Hnd; [reflexivity|].
  inversion Hnd as [|? ? Hnotin Hnd']; subst.
  cbn [map dict_keys fst snd fold_left dict_get]. rewrite str_eqb_refl.
  cbn [option_map]. rewrite fold_add_shift, (fold_add_shift _ (0 + f v)).
  f_equal. rewrite (IH Hnd'). f_equal. apply map_ext_in.
  intros k' Hin. destruct (str_eqb k' k) eqn:E; auto.
  apply str_eqb_eq in E; subst k'. contradiction.
Qed.

(** X6.  In the result of [get_day_stats] the seven counts of a pattern
    add up to the number of its events: every event is counted on one
    weekday and one only. *)
Theorem day_counts_add_up (events_data : dict (list event)) :
  dict_wf events_data ->
  exists distribution,
    get_day_stats events_data = Some distribution
    /\ forall pattern events,
         dict_get events_data pattern = Some events ->
         exists by_day,
           dict_get distribution pattern = Some by_day
           /\ dict_sum ds_count by_day = Z.of_nat (List.length events).
Proof.
  intros Hwf.
  destruct (get_day_stats_closed events_data Hwf) as (dist & Hrun & _ & Hget).
  exists dist. split; [exact Hrun|].
  intros pattern events Hev. exists (day_table events).
  split. { now rewrite Hget, Hev. }
  assert (Hkeys : dict_keys (day_table events) = days).
  { apply (day_table_get events 0). lia. }
  assert (Hcount : forall i, 0 <= i < 7 ->
            option_map ds_count (dict_get (day_table events) (day_name i))
            = Some (Z.of_nat (List.length (events_on_weekday i events)))).
  { intros i Hi. destruct (day_table_get events i Hi) as [_ ->].
    simpl option_map. f_equal. apply day_average_fields. }
  rewrite (dict_sum_by_keys ds_count (day_table events)).
  2:{ unfold dict_wf. rewrite Hkeys. apply days_NoDup. }
  rewrite Hkeys. change days with (map day_name [0; 1; 2; 3; 4; 5; 6]).
  cbn [map].
  rewrite !Hcount by lia. cbn [fold_left].
  pose proof (weekday_lengths_sum events). lia.
Qed.

End CountExtras.

Section MonthCountExtras.
Context {F : Type} {FO : FloatOps F}.

Lemma dict_sum_set {V : Type} (f : V -> Z) (d : dict V) (k : str) (v : V) :
  dict_sum f (dict_set d k v)
  = dict_sum f d
    - match dict_get d k with Some v0 => f v0 | None => 0 end
    + f v.
Proof.
  unfold dict_sum. induction d as [|[k0 v0] d IH]; simpl; [lia|].
  destruct (str_eqb k k0); cbn [map snd fold_left].
  - rewrite fold_add_shift, (fold_add_shift _ (0 + f v0)). lia.
  - rewrite fold_add_shift, (fold_add_shift _ (0 + f v0)), IH. lia.
Qed.

Lemma month_buckets_count (events : list event) :
  forall inner : dict (month_stat F),
    dict_sum ms_event_count
      (fold_left (bucket_add month_key zero_month_stat month_stat_add) events inner)
    = dict_sum ms_event_count inner + Z.of_nat (List.length events).
Proof.
  induction events as [|e events IH]; intros inner; cbn [fold_left List.length].
  - lia.
  - rewrite IH. unfold bucket_add.
    destruct (dict_get inner (month_key e)) as [s|] eqn:E;
      rewrite dict_sum_set, E; cbn [ms_event_count month_stat_add zero_month_stat]; lia.
Qed.

Lemma month_averages_counts (months months' : dict (month_stat F)) :
  month_averages months = Some months' ->
  dict_sum ms_event_count months' = dict_sum ms_event_count months.
Proof.
  unfold dict_sum. revert months'.
  induction months as [|[k s] months IH]; intros months' H; simpl in H.
  - now inversion H.
  - destruct (month_average k s) as [s'|] eqn:Es; [|discriminate].
    destruct (month_averages months) as [rest|]; [|discriminate].
    inversion H; subst months'. cbn [map snd fold_left].
    rewrite fold_add_shift, (fold_add_shift _ (0 + ms_event_count s)).
    rewrite (IH rest eq_refl). f_equal. f_equal.
    unfold month_average in Es.
    destruct (map py_int (split hyphen k)) as [|[y|] [|[m|] [|]]]; try discriminate.
    destruct (month_days y m); [|discriminate].
    now inversion Es.
Qed.

Lemma month_bucket_add_wf (inner : dict (month_stat F)) (e : event) :
  dict_wf inner ->
  dict_wf (bucket_add month_key zero_month_stat month_stat_add inner e).
Proof.
  unfold bucket_add. destruct (dict_get inner (month_key e)); apply dict_wf_set.
Qed.

Lemma month_buckets_wf (events : list event) :
  forall inner : dict (month_stat F),
    dict_wf inner ->
    dict_wf (fold_left (bucket_add month_key zero_month_stat month_stat_add)
                       events inner).
Proof.
  induction events as [|e events IH]; intros inner H; simpl; auto.
  apply IH. now apply month_bucket_add_wf.
Qed.

(** X7.  In every result that [get_monthly_stats] returns, the months of
    a pattern are pairwise distinct, each holds at least one event, and
    their event counts add up to the number of the pattern's events:
    every event is counted in one month and one only.  It returns a
    result when every event starts before 1 December 9999. *)
Theorem month_counts_add_up (events_data : dict (list event)) :
  dict_wf events_data ->
  (forall pattern events e,
      dict_get events_data pattern = Some events -> In e events ->
      1 <= wall_date (ld_wall (event_start e))) ->
  (forall monthly_stats,
      get_monthly_stats events_data = Some monthly_stats ->
      forall pattern events,
        dict_get events_data pattern = Some events ->
        exists months,
          dict_get monthly_stats pattern = Some months
          /\ dict_wf months
          /\ (forall key s, dict_get months key = Some s -> 1 <= ms_event_count s)
          /\ dict_sum ms_event_count months = Z.of_nat (List.length events))
  /\ ((forall pattern events e,
          dict_get events_data pattern = Some events -> In e events ->
          wall_date (ld_wall (event_start e)) < ymd2ord 9999 12 1) ->
      exists monthly_stats, get_monthly_stats events_data = Some monthly_stats).
Proof.
  intros Hwf Hlow. split.
  - intros monthly_stats Hsome.
    pose proof (get_monthly_stats_valid events_data monthly_stats Hlow Hsome)
      as Hvalid'.
    destruct (get_monthly_stats_closed events_data Hwf Hvalid')
      as (monthly & Hrun & _ & Hget).
    rewrite Hsome in Hrun. injection Hrun as <-.
    intros pattern events Hev. exists (month_table events).
    split. { now rewrite Hget, Hev. }
    pose proof (Hvalid' pattern events Hev) as Hv.
    pose proof (month_table_run events Hv) as Hav.
    split; [|split].
    + destruct (month_averages_spec
                  (fold_left (bucket_add month_key zero_month_stat month_stat_add)
                             events []))
        as (months' & Hm & Hk & _).
      { intros k Hin. eapply month_buckets_parse; eauto. }
      rewrite Hav in Hm. inversion Hm; subst months'.
      unfold dict_wf. rewrite Hk. apply month_buckets_wf. constructor.
    + intros key s Hs. rewrite (month_table_get events key Hv) in Hs.
      destruct (bucket_events month_key key events) as [|e0 l]; [discriminate|].
      cbv zeta in Hs. inversion Hs. cbn [ms_event_count List.length]. lia.
    + rewrite (month_averages_counts _ _ Hav), month_buckets_count.
      reflexivity.
  - intros Hhigh.
    destruct (get_monthly_stats_closed events_data Hwf) as (monthly & Hrun & _).
    { intros p evs Hp. apply valid_events_before. intros e He.
      split; [eapply Hlow | eapply Hhigh]; eauto. }
    exists monthly. exact Hrun.
Qed.

End MonthCountExtras.

(** ** The columns of the spreadsheet *)

Lemma wall_date_wall_at (ordinal hour minute second : Z) :
  0 <= hour * 3600 + minute * 60 + second < 86400 ->
  wall_date (wall_at ordinal hour minute second) = ordinal.
Proof.
  intros H. unfold wall_date, wall_at, SECONDS_PER_DAY.
  Z.div_mod_to_equations. lia.
Qed.

Lemma In_seq_dates (first x : Z) (n : nat) :
  In x (map (fun i => first + Z.of_nat i) (seq 0 n))
  <-> first <= x < first + Z.of_nat n.
Proof.
  rewrite in_map_iff. split.
  - intros (i & <- & Hi). apply in_seq in Hi. lia.
  - intros H. exists (Z.to_nat (x - first)). split; [lia|].
    apply in_seq. lia.
Qed.

Lemma NoDup_map_by {A B C : Type} (g : A -> B) (f : A -> C) (l : list A) :
  (forall x y, In x l -> In y l -> f x = f y -> g x = g y) ->
  NoDup (map g l) -> NoDup (map f l).
Proof.
  induction l as [|a l IH]; intros Hinj Hnd; [constructor|].
  cbn [map] in *. inversion Hnd as [|? ? Hnotin Hnd']; subst.
  constructor.
  - intros Hf. apply in_map_iff in Hf. destruct Hf as (a' & Ef & Hin').
    apply Hnotin. apply in_map_iff. exists a'. split; auto.
    apply Hinj; simpl; auto.
  - apply IH; auto. intros x y Hx Hy. apply Hinj; simpl; auto.
Qed.

Lemma NoDup_seq_dates (first : Z) (n : nat) :
  NoDup (map (fun i => first + Z.of_nat i) (seq 0 n)).
Proof.
  apply (NoDup_map_by (fun i : nat => i)).
  - intros i j _ _ H. lia.
  - rewrite map_id. apply seq_NoDup.
Qed.

Lemma date_list_closed (start_date end_date : Z) :
  date_list (wall_at start_date 0 0 0) (wall_at end_date 23 59 59)
  = map (fun i => wall_at (start_date + Z.of_nat i) 0 0 0)
        (seq 0 (Z.to_nat (end_date - start_date + 1))).
Proof.
  assert (Hn : (wall_at end_date 23 59 59 - wall_at start_date 0 0 0)
               / SECONDS_PER_DAY + 1 = end_date - start_date + 1).
  { unfold wall_at, SECONDS_PER_DAY. Z.div_mod_to_equations. lia. }
  unfold date_list. rewrite Hn. apply map_ext. intros i.
  unfold wall_at, SECONDS_PER_DAY. lia.
Qed.

Lemma date_list_dates (start_date end_date : Z) :
  map wall_date (date_list (wall_at start_date 0 0 0) (wall_at end_date 23 59 59))
  = map (fun i => start_date + Z.of_nat i)
        (seq 0 (Z.to_nat (end_date - start_date + 1))).
Proof.
  rewrite date_list_closed, map_map. apply map_ext. intros i.
  apply wall_date_wall_at. lia.
Qed.

Lemma date_list_In (start_date end_date ordinal : Z) :
  In ordinal (map wall_date
                  (date_list (wall_at start_date 0 0 0) (wall_at end_date 23 59 59)))
  <-> start_date <= ordinal <= end_date.
Proof. rewrite date_list_dates, In_seq_dates. lia. Qed.

(** X8.  The days of the spreadsheet are the midnights of the dates from
    the start date to the end date, both included and each once, in
    order; there is none when the end date is before the start date. *)
Theorem date_list_covers_window (start_date end_date : Z) :
  date_list (wall_at start_date 0 0 0) (wall_at end_date 23 59 59)
  = map (fun i => wall_at (start_date + Z.of_nat i) 0 0 0)
        (seq 0 (Z.to_nat (end_date - start_date + 1)))
  /\ (forall ordinal,
        In ordinal (map wall_date
                        (date_list (wall_at start_date 0 0 0)
                                   (wall_at end_date 23 59 59)))
        <-> start_date <= ordinal <= end_date)
  /\ NoDup (map wall_date
                (date_list (wall_at start_date 0 0 0) (wall_at end_date 23 59 59)))
  /\ (end_date < start_date ->
      date_list (wall_at start_date 0 0 0) (wall_at end_date 23 59 59) = []).
Proof.
  split; [apply date_list_closed|]. split; [|split].
  - intros ordinal. apply date_list_In.
  - rewrite date_list_dates. apply NoDup_seq_dates.
  - intros Hlt. rewrite date_list_closed.
    replace (Z.to_nat (end_date - start_date + 1)) with 0%nat by lia. reflexivity.
Qed.

Lemma date_label_parse (wall : Z) :
  1 <= wall_date wall ->
  map py_int (split hyphen (date_label wall))
  = [Some (wall_day wall); Some (wall_month wall); Some (wall_year wall)].
Proof.
  intros Hpos. unfold date_label.
  change (decimal (wall_day wall) ++ [hyphen] ++ decimal (wall_month wall)
          ++ [hyphen] ++ decimal (wall_year wall))
    with (zero_pad 0 (decimal (wall_day wall))
          ++ hyphen :: (zero_pad 0 (decimal (wall_month wall))
                        ++ hyphen :: zero_pad 0 (decimal (wall_year wall)))).
  rewrite !split_at_sep by apply zero_pad_no_hyphen.
  rewrite split_no_sep by apply zero_pad_no_hyphen.
  simpl map. rewrite !py_int_zero_pad; auto.
  - pose proof (wall_year_pos wall Hpos). lia.
  - pose proof (wall_month_range wall). lia.
  - pose proof (wall_day_range wall). lia.
Qed.

(** X9.  The label of a column names its day: two datetimes get the same
    label [day-month-year] exactly when they lie on the same date, so
    that the columns of a window have pairwise distinct labels. *)
Theorem date_labels_are_distinct (start_date end_date : Z) :
  1 <= start_date ->
  (forall w1 w2,
      1 <= wall_date w1 -> 1 <= wall_date w2 ->
      (date_label w1 = date_label w2 <-> wall_date w1 = wall_date w2))
  /\ NoDup (map date_label
                (date_list (wall_at start_date 0 0 0) (wall_at end_date 23 59 59))).
Proof.
  intros Hstart.
  assert (Hinj : forall w1 w2,
             1 <= wall_date w1 -> 1 <= wall_date w2 ->
             (date_label w1 = date_label w2 <-> wall_date w1 = wall_date w2)).
  { intros w1 w2 H1 H2. split.
    - intros E. pose proof (date_label_parse w1 H1) as P1.
      rewrite E, (date_label_parse w2 H2) in P1. inversion P1 as [[Ed Em Ey]].
      rewrite <- (wall_date_ymd w1), <- (wall_date_ymd w2). congruence.
    - intros E. unfold date_label, wall_year, wall_month, wall_day. now rewrite E. }
  split; [exact Hinj|].
  pose proof (date_list_In start_date end_date) as Hin.
  assert (Hnd : NoDup (map wall_date
                         (date_list (wall_at start_date 0 0 0)
                                    (wall_at end_date 23 59 59))))
    by (rewrite date_list_dates; apply NoDup_seq_dates).
  apply (NoDup_map_by wall_date); auto.
  intros d d' Hd Hd' E. apply Hinj; auto.
  - assert (start_date <= wall_date d <= end_date); [|lia].
    apply Hin. now apply in_map.
  - assert (start_date <= wall_date d' <= end_date); [|lia].
    apply Hin. now apply in_map.
Qed.

Lemma filter_date_out (first date : Z) (n : nat) :
  forall a : nat,
    date < first + Z.of_nat a \/ first + Z.of_nat a + Z.of_nat n <= date ->
    filter (fun i => date =? first + Z.of_nat i) (seq a n) = [].
Proof.
  induction n as [|n IH]; intros a H; [reflexivity|].
  cbn [seq filter].
  replace (date =? first + Z.of_nat a) with false by (symmetry; apply Z.eqb_neq; lia).
  apply IH. lia.
Qed.

Lemma filter_date_in (first date : Z) (n : nat) :
  forall a : nat,
    first + Z.of_nat a <= date < first + Z.of_nat a + Z.of_nat n ->
    filter (fun i => date =? first + Z.of_nat i) (seq a n) = [Z.to_nat (date - first)].
Proof.
  induction n as [|n IH]; intros a H; [lia|].
  cbn [seq filter]. destruct (date =? first + Z.of_nat a) eqn:E.
  - apply Z.eqb_eq in E. rewrite filter_date_out by lia. f_equal. lia.
  - apply Z.eqb_neq in E. apply IH. lia.
Qed.

Lemma filter_map_comm {A B : Type} (p : B -> bool) (f : A -> B) (l : list A) :
  filter p (map f l) = map f (filter (fun x => p (f x)) l).
Proof.
  induction l as [|a l IH]; [reflexivity|].
  cbn [map filter]. destruct (p (f a)); cbn [map]; now rewrite IH.
Qed.

Lemma columns_of_date (start_date end_date date : Z) :
  filter (fun day => date =? wall_date day)
         (date_list (wall_at start_date 0 0 0) (wall_at end_date 23 59 59))
  = if (start_date <=? date) && (date <=? end_date)
    then [wall_at date 0 0 0] else [].
Proof.
  rewrite date_list_closed.
  rewrite filter_map_comm.
  rewrite (filter_ext _ (fun i => date =? start_date + Z.of_nat i)).
  2:{ intros i. rewrite wall_date_wall_at by lia. reflexivity. }
  destruct ((start_date <=? date) && (date <=? end_date)) eqn:E.
  - apply andb_true_iff in E. rewrite !Z.leb_le in E.
    rewrite filter_date_in by lia. cbn [map]. f_equal. f_equal. lia.
  - apply andb_false_iff in E. rewrite !Z.leb_gt in E.
    rewrite filter_date_out; [reflexivity|].
    destruct (Z_lt_le_dec date start_date); [left; lia | right; lia].
Qed.

Section ColumnExtras.
Context {Pattern : Type} {RE : ReEngine Pattern} {TZ : TzData}.

(** X10.  With the window of [--start] and [--end], no recorded event
    starts on a date after the end date.  An event that starts on a date
    of the window feeds the cell of exactly one day, that date; an event
    that started before the start date, and is recorded because it had
    not ended, feeds no cell of the spreadsheet. *)
Theorem spreadsheet_columns_of_events
  (calendars : list (list component)) (start_date end_date : Z)
  (patterns : dict Pattern) :
  dict_wf patterns ->
  exists events_data unmatched,
    analyze_events calendars (main_start_time start_date)
      (main_end_time end_date) patterns
    = Some (events_data, unmatched)
    /\ forall pattern_name events e,
         dict_get events_data pattern_name = Some events ->
         In e events ->
         let date := wall_date (ld_wall (event_start e)) in
         let days :=
           date_list (wall_at start_date 0 0 0) (wall_at end_date 23 59 59) in
         date <= end_date
         /\ (start_date <= date ->
             filter (fun day => date =? wall_date day) days = [wall_at date 0 0 0]
             /\ In e (day_events events (wall_at date 0 0 0)))
         /\ (date < start_date ->
             forall day, In day days -> ~ In e (day_events events day)).
Proof.
  intros Hwf.
  destruct (analyze_events_spec calendars (main_start_time start_date)
              (main_end_time end_date) patterns Hwf)
    as (data & Hrun & Hkeys & Hget).
  exists data. eexists. split; [exact Hrun|].
  intros name events e Hev Hin date days.
  assert (Hend : date <= end_date).
  { destruct (dict_get_In patterns name) as [regex Hregex].
    { rewrite <- Hkeys. eapply dict_get_Some_In; eauto. }
    rewrite (Hget name regex Hregex) in Hev. inversion Hev; subst events.
    apply events_where_In in Hin. destruct Hin as (c & _ & Hc & _).
    unfold considered in Hc.
    destruct (str_eqb (comp_name c) VEVENT); [|discriminate].
    destruct (comp_dtstart c) as [v|]; [|discriminate].
    destruct (dt_lt (normalize (end_value c v)) (main_start_time start_date)
              || dt_gt (normalize v) (main_end_time end_date)) eqn:Ew;
      [discriminate|].
    inversion Hc; subst e. apply orb_false_iff in Ew. destruct Ew as [_ Ew].
    unfold dt_gt, main_end_time in Ew. rewrite wall_after_last_second in Ew.
    apply Z.ltb_ge in Ew. exact Ew. }
  split; [exact Hend|]. split.
  - intros Hstart. split.
    + unfold days. rewrite columns_of_date.
      replace ((start_date <=? date) && (date <=? end_date)) with true; auto.
      symmetry. apply andb_true_iff. rewrite !Z.leb_le. auto.
    + unfold day_events. apply filter_In. split; auto.
      rewrite wall_date_wall_at by lia. apply Z.eqb_refl.
  - intros Hbefore day Hday Hcell. unfold day_events in Hcell.
    apply filter_In in Hcell. destruct Hcell as [_ Heq]. apply Z.eqb_eq in Heq.
    pose proof (date_list_In start_date end_date) as Hdates.
    assert (start_date <= wall_date day <= end_date).
    { apply Hdates. now apply in_map. }
    fold date in Heq. lia.
Qed.

End ColumnExtras.

(** ** The names of a pattern file *)

Lemma filter_filter_comm {A : Type} (p q : A -> bool) (l : list A) :
  filter p (filter q l) = filter q (filter p l).
Proof.
  induction l as [|a l IH]; [reflexivity|]. cbn [filter].
  destruct (q a) eqn:Eq; destruct (p a) eqn:Ep; cbn [filter];
    rewrite ?Eq, ?Ep, IH; reflexivity.
Qed.

Lemma filter_idem {A : Type} (p : A -> bool) (l : list A) :
  filter p (filter p l) = filter p l.
Proof.
  induction l as [|a l IH]; [reflexivity|]. cbn [filter].
  destruct (p a) eqn:Ep; cbn [filter]; rewrite ?Ep, IH; reflexivity.
Qed.

Lemma filter_all {A : Type} (p : A -> bool) (l : list A) :
  (forall x, In x l -> p x = true) -> filter p l = l.
Proof.
  induction l as [|a l IH]; intros H; [reflexivity|]. cbn [filter].
  rewrite (H a) by (simpl; auto). f_equal. apply IH.
  intros x Hx. apply H. simpl; auto.
Qed.

Lemma first_occurrences_In (names : list str) (n : str) :
  In n (first_occurrences names) <-> In n names.
Proof.
  induction names as [|a names IH]; [reflexivity|].
  cbn [first_occurrences]. simpl. rewrite filter_In, IH.
  destruct (str_eqb n a) eqn:E.
  - apply str_eqb_eq in E. subst. tauto.
  - apply str_eqb_neq in E. simpl. split.
    + intros [H|[H _]]; auto.
    + intros [H|H]; [congruence|auto].
Qed.

Lemma first_occurrences_NoDup (names : list str) :
  NoDup (first_occurrences names).
Proof.
  induction names as [|a names IH]; [constructor|].
  cbn [first_occurrences]. constructor.
  - rewrite filter_In. intros [_ H]. now rewrite str_eqb_refl in H.
  - now apply NoDup_filter.
Qed.

Lemma first_occurrences_id (names : list str) :
  NoDup names -> first_occurrences names = names.
Proof.
  induction names as [|a names IH]; intros H; [reflexivity|].
  inversion H as [|? ? Hnotin Hnd]; subst.
  cbn [first_occurrences]. rewrite (IH Hnd). f_equal.
  apply filter_all. intros x Hx. apply negb_true_iff, str_eqb_neq.
  intros ->. contradiction.
Qed.

Lemma first_occurrences_drop (n : str) (names rest : list str) :
  filter (fun x => negb (str_eqb x n)) (first_occurrences (names ++ n :: rest))
  = filter (fun x => negb (str_eqb x n)) (first_occurrences (names ++ rest)).
Proof.
  induction names as [|a names IH].
  - simpl. rewrite str_eqb_refl. simpl. apply filter_idem.
  - simpl. rewrite !(filter_filter_comm (fun x => negb (str_eqb x n))).
    now rewrite IH.
Qed.

Lemma first_occurrences_repeat (n : str) (names rest : list str) :
  In n names ->
  first_occurrences (names ++ n :: rest) = first_occurrences (names ++ rest).
Proof.
  induction names as [|a names IH]; intros Hin; [destruct Hin|].
  destruct (str_eqb a n) eqn:E; simpl.
  - apply str_eqb_eq in E; subst a. now rewrite first_occurrences_drop.
  - apply str_eqb_neq in E. rewrite IH; auto.
    destruct Hin; [contradiction|auto].
Qed.

Section NameExtras.
Context {Pattern : Type} {RE : ReEngine Pattern}.

Lemma load_lines_keys (lines : list str) :
  forall patterns0 patterns : dict Pattern,
    dict_wf patterns0 ->
    foldM load_pattern_line lines patterns0 = Some patterns ->
    dict_keys patterns
    = first_occurrences (dict_keys patterns0 ++ defined_names lines).
Proof.
  induction lines as [|line lines IH]; intros patterns0 patterns Hwf Hrun.
  - simpl in Hrun. inversion Hrun; subst. cbn [defined_names flat_map].
    rewrite app_nil_r. symmetry. now apply first_occurrences_id.
  - cbn [foldM] in Hrun. rewrite load_pattern_line_step in Hrun.
    cbn [defined_names flat_map]. fold (defined_names lines).
    destruct (pattern_line line) as [[n rx]|] eqn:Ep.
    + destruct (re_compile rx IGNORECASE) as [p|]; [|discriminate].
      simpl option_map in Hrun.
      rewrite (IH _ _ (dict_wf_set patterns0 n p Hwf) Hrun).
      cbn [app].
      destruct (in_dec (list_eq_dec N.eq_dec) n (dict_keys patterns0)) as [Hin|Hin].
      * rewrite dict_keys_set_present by assumption.
        symmetry. now apply first_occurrences_repeat.
      * rewrite dict_keys_set_absent by assumption.
        now rewrite <- app_assoc.
    + cbn [app]. now apply IH.
Qed.

(** X11.  The patterns read from a file stand in the order in which
    their names first occur in it: a later line with a name already
    seen leaves the name at its place.  The dictionary is empty exactly
    when every line is skipped. *)
Theorem loaded_patterns_keep_first_position (lines : list str) :
  (forall line name regex,
      In line lines -> pattern_line line = Some (name, regex) ->
      re_compile regex IGNORECASE <> None) ->
  exists patterns,
    load_or_generate_patterns (Some lines) = Some patterns
    /\ dict_keys patterns = first_occurrences (defined_names lines)
    /\ (patterns = []
        <-> forall line, In line lines ->
                         strip line = [] \/ contains_char colon (strip line) = false).
Proof.
  intros Hok.
  destruct (load_lines_spec lines []) as (patterns & Hrun & _ & _).
  { constructor. }
  { exact Hok. }
  exists patterns. split; [exact Hrun|].
  assert (Hkeys : dict_keys patterns = first_occurrences (defined_names lines)).
  { apply (load_lines_keys lines [] patterns); [constructor | exact Hrun]. }
  split; [exact Hkeys|]. split.
  - intros ->. cbn [dict_keys map] in Hkeys. intros line Hin.
    destruct (pattern_line line) as [[n rx]|] eqn:Ep.
    + exfalso. assert (Hn : In n (first_occurrences (defined_names lines))).
      { apply first_occurrences_In. unfold defined_names. apply in_flat_map.
        exists line. split; auto. rewrite Ep. simpl; auto. }
      rewrite <- Hkeys in Hn. destruct Hn.
    + unfold pattern_line in Ep. destruct (strip line) as [|c s]; auto.
      right. destruct (contains_char colon (c :: s)); [discriminate|reflexivity].
  - intros Hskip.
    assert (Hnames : defined_names lines = []).
    { unfold defined_names. clear -Hskip.
      induction lines as [|line lines IH]; [reflexivity|]. cbn [flat_map].
      rewrite (pattern_line_skipped line) by (apply Hskip; simpl; auto).
      apply IH. intros l Hl. apply Hskip. simpl; auto. }
    rewrite Hnames in Hkeys. cbn [first_occurrences] in Hkeys.
    destruct patterns; [reflexivity|discriminate].
Qed.

End NameExtras.

(** ** Stripped names *)

Section StrippedNames.
Context {Pattern : Type} {RE : ReEngine Pattern}.

(** X12.  A pattern name read from a file holds no colon and is left
    unchanged by [strip], whatever the line looked like; it comes from
    a line of the file, whose text after the first colon is stripped
    the same way before it is compiled. *)
Theorem loaded_names_are_stripped (lines : list str) :
  (forall line name regex,
      In line lines -> pattern_line line = Some (name, regex) ->
      re_compile regex IGNORECASE <> None) ->
  exists patterns,
    load_or_generate_patterns (Some lines) = Some patterns
    /\ (forall name, In name (dict_keys patterns) ->
          ~ In colon name /\ strip name = name
          /\ exists line regex,
               In line lines /\ pattern_line line = Some (name, regex)
               /\ strip regex = regex).
Proof.
  intros Hok.
  destruct (load_lines_spec lines []) as (patterns & Hrun & _ & _).
  { constructor. }
  { exact Hok. }
  exists patterns. split; [exact Hrun|].
  intros name Hin.
  rewrite (load_lines_keys lines [] patterns) in Hin; [|constructor|exact Hrun].
  rewrite first_occurrences_In in Hin.
  unfold defined_names in Hin. apply in_flat_map in Hin.
  destruct Hin as (line & Hline & Hname).
  destruct (pattern_line line) as [[n rx]|] eqn:Ep; [|destruct Hname].
  destruct Hname as [->|[]].
  pose proof Ep as Ep'.
  unfold pattern_line in Ep'.
  destruct (strip line) as [|c s] eqn:Es; [discriminate|].
  destruct (contains_char colon (c :: s)); [|discriminate].
  inversion Ep'; subst. split; [|split].
  - intros H. apply strip_incl in H.
    exact (before_sep_no_sep colon (c :: s) H).
  - apply strip_idem.
  - exists line. eexists. split; [exact Hline|]. split; [exact Ep|].
    apply strip_idem.
Qed.

End StrippedNames.

(** ** The words of a text *)

Ltac bool_props H :=
  repeat first
    [ rewrite orb_true_iff in H | rewrite andb_true_iff in H
    | rewrite orb_false_iff in H | rewrite andb_false_iff in H
    | rewrite N.leb_le in H | rewrite N.eqb_eq in H
    | rewrite N.leb_gt in H | rewrite N.eqb_neq in H ].

Ltac bool_goal :=
  repeat first
    [ rewrite orb_true_iff | rewrite andb_true_iff
    | rewrite orb_false_iff | rewrite andb_false_iff
    | rewrite N.leb_le | rewrite N.eqb_eq
    | rewrite N.leb_gt | rewrite N.eqb_neq ].

Lemma word_char_plain (c : N) :
  is_word_char c = true ->
  isspace c = false /\ c <> colon /\ c <> 10%N /\ c <> 13%N.
Proof.
  unfold is_word_char, isspace, colon. intros H. bool_props H.
  split; [bool_goal|]; lia.
Qed.

Lemma lower_char_word (c : N) :
  is_word_char c = true ->
  is_word_char (lower_char c) = true /\ lower_char (lower_char c) = lower_char c.
Proof.
  unfold lower_char. intros H.
  destruct ((65 <=? c) && (c <=? 90) || (1040 <=? c) && (c <=? 1071))%N eqn:E.
  - assert (E2 : ((65 <=? c + 32) && (c + 32 <=? 90)
                  || (1040 <=? c + 32) && (c + 32 <=? 1071))%N = false).
    { unfold is_word_char in H. bool_props H. bool_props E. bool_goal. lia. }
    rewrite E2. split; [|reflexivity].
    unfold is_word_char in *. bool_props E. bool_goal. lia.
  - rewrite E. auto.
Qed.

Lemma word_chars_app (a b : str) :
  word_chars (a ++ b) <-> word_chars a /\ word_chars b.
Proof.
  unfold word_chars. split.
  - intros H. split; intros c Hc; apply H, in_or_app; auto.
  - intros [Ha Hb] c Hc. apply in_app_or in Hc. destruct Hc; auto.
Qed.

Lemma first_other_char (a a' r r' : str) (c c' : N) :
  word_chars a -> word_chars a' ->
  is_word_char c = false -> is_word_char c' = false ->
  a ++ c :: r = a' ++ c' :: r' -> a = a' /\ c = c' /\ r = r'.
Proof.
  revert a'. induction a as [|x a IH]; intros a' Ha Ha' Hc Hc' E.
  - destruct a' as [|y a']; simpl in E.
    + inversion E; auto.
    + inversion E; subst. rewrite (Ha' y) in Hc by (simpl; auto). discriminate.
  - destruct a' as [|y a']; simpl in E.
    + inversion E; subst. rewrite (Ha c') in Hc' by (simpl; auto). discriminate.
    + inversion E; subst.
      destruct (IH a') as (-> & -> & ->); auto.
      * intros z Hz. apply Ha. simpl; auto.
      * intros z Hz. apply Ha'. simpl; auto.
Qed.

Lemma split_first_other (l : str) :
  word_chars l
  \/ exists a y r, l = a ++ y :: r /\ word_chars a /\ is_word_char y = false.
Proof.
  induction l as [|x l IH].
  - left. intros c [].
  - destruct (is_word_char x) eqn:Ex.
    + destruct IH as [IH | (a & y & r & -> & Ha & Hy)].
      * left. intros c [<-|Hc]; auto.
      * right. exists (x :: a), y, r. split; [reflexivity|]. split; [|exact Hy].
        intros c [<-|Hc]; auto.
    + right. exists [], x, l. split; [reflexivity|]. split; [intros c []|exact Ex].
Qed.

Lemma left_boundary_cons (c : N) (pre : str) :
  is_word_char c = false -> left_boundary pre -> left_boundary (c :: pre).
Proof.
  intros Hc [->|(p & x & -> & Hx)].
  - right. exists [], c. auto.
  - right. exists (c :: p), x. auto.
Qed.

Lemma left_boundary_app (a pre : str) :
  pre <> [] -> left_boundary pre -> left_boundary (a ++ pre).
Proof.
  intros Hne [->|(p & x & -> & Hx)]; [contradiction|].
  right. exists (a ++ p), x. now rewrite app_assoc.
Qed.

Lemma left_boundary_tail (a r : str) (y : N) :
  left_boundary (a ++ y :: r) -> left_boundary r.
Proof.
  intros [H|(p & x & E & Hx)].
  - destruct a; discriminate.
  - induction r as [|z r0 _] using rev_ind; [left; reflexivity|].
    right. exists r0, z. split; [reflexivity|].
    change (a ++ y :: r0 ++ [z]) with (a ++ (y :: r0) ++ [z]) in E.
    rewrite app_assoc in E. apply app_inj_tail in E. destruct E as [_ ->].
    exact Hx.
Qed.

Lemma left_boundary_word (pre : str) :
  word_chars pre -> left_boundary pre -> pre = [].
Proof.
  intros Hw [H|(p & x & -> & Hx)]; [exact H|].
  rewrite (Hw x) in Hx by (apply in_or_app; simpl; auto). discriminate.
Qed.

Lemma right_boundary_word (post : str) :
  word_chars post -> right_boundary post -> post = [].
Proof.
  destruct post as [|x post]; [reflexivity|]. intros Hw Hx. simpl in Hx.
  rewrite (Hw x) in Hx by (simpl; auto). discriminate.
Qed.

Lemma findall_words_from_sound (text : str) :
  forall run w,
    In w (findall_words_from run text) ->
    exists pre post,
      run ++ text = pre ++ w ++ post
      /\ (3 <= List.length w)%nat
      /\ (word_chars run -> word_chars w)
      /\ left_boundary pre /\ right_boundary post.
Proof.
  induction text as [|c text IH]; intros run w Hin; cbn [findall_words_from] in Hin.
  - destruct (3 <=? List.length run)%nat eqn:E; [|destruct Hin].
    destruct Hin as [<-|[]]. exists [], []. apply Nat.leb_le in E.
    rewrite app_nil_r. simpl. repeat split; auto. now left.
  - destruct (is_word_char c) eqn:Ec.
    + destruct (IH _ _ Hin) as (pre & post & E & Hlen & Hw & Hl & Hr).
      exists pre, post. rewrite <- app_assoc in E. simpl in E.
      repeat split; auto. intros Hrun. apply Hw.
      apply word_chars_app. split; [exact Hrun|]. now intros z [<-|[]].
    + apply in_app_or in Hin. destruct Hin as [Hin|Hin].
      * destruct (3 <=? List.length run)%nat eqn:E; [|destruct Hin].
        destruct Hin as [<-|[]]. apply Nat.leb_le in E.
        exists [], (c :: text). simpl. repeat split; auto. now left.
      * destruct (IH _ _ Hin) as (pre & post & E & Hlen & Hw & Hl & Hr).
        simpl in E. subst text.
        exists (run ++ c :: pre), post. rewrite <- app_assoc. simpl.
        repeat split; auto.
        -- intros _. apply Hw. intros z [].
        -- destruct pre as [|p0 pre'].
           ++ right. exists run, c. auto.
           ++ apply left_boundary_app; [discriminate|].
              now apply left_boundary_cons.
Qed.

Lemma findall_words_from_complete (text : str) :
  forall run pre w post,
    word_chars run ->
    run ++ text = pre ++ w ++ post ->
    (3 <= List.length w)%nat -> word_chars w ->
    left_boundary pre -> right_boundary post ->
    In w (findall_words_from run text).
Proof.
  induction text as [|c text IH]; intros run pre w post Hrun E Hlen Hw Hl Hr;
    cbn [findall_words_from].
  - rewrite app_nil_r in E. subst run.
    apply word_chars_app in Hrun. destruct Hrun as [Hpre Hrest].
    apply word_chars_app in Hrest. destruct Hrest as [_ Hpost].
    rewrite (left_boundary_word pre), (right_boundary_word post) by assumption.
    rewrite app_nil_r, app_nil_l.
    apply Nat.leb_le in Hlen. rewrite Hlen. simpl; auto.
  - destruct (is_word_char c) eqn:Ec.
    + apply (IH (run ++ [c]) pre w post); auto.
      * apply word_chars_app. split; [exact Hrun|]. now intros z [<-|[]].
      * now rewrite <- app_assoc.
    + apply in_or_app.
      destruct (split_first_other pre) as [Hpre | (a & y & r & -> & Ha & Hy)].
      * rewrite (left_boundary_word pre) in E by assumption. simpl in E.
        destruct post as [|x post].
        { exfalso. rewrite app_nil_r in E. subst w.
          rewrite (Hw c) in Ec by (apply in_or_app; simpl; auto). discriminate. }
        simpl in Hr.
        destruct (first_other_char run w text post c x) as (-> & _ & _); auto.
        left. apply Nat.leb_le in Hlen. rewrite Hlen. simpl; auto.
      * right. rewrite <- app_assoc in E. simpl in E.
        destruct (first_other_char run a text (r ++ w ++ post) c y)
          as (_ & _ & ->); auto.
        apply (IH [] r w post); auto.
        -- intros z [].
        -- eapply left_boundary_tail; eauto.
Qed.

(** X13.  The words taken from a text are exactly its maximal runs of
    Latin letters, Russian letters and digits that have three
    characters or more: a word is a part of the text made of such
    characters, with no such character next to it on either side. *)
Theorem findall_words_are_the_long_runs (text w : str) :
  In w (findall_words text)
  <-> exists pre post,
        text = pre ++ w ++ post
        /\ (3 <= List.length w)%nat
        /\ (forall c, In c w -> is_word_char c = true)
        /\ left_boundary pre /\ right_boundary post.
Proof.
  unfold findall_words. split.
  - intros Hin.
    destruct (findall_words_from_sound text [] w Hin)
      as (pre & post & E & Hlen & Hw & Hl & Hr).
    exists pre, post. repeat split; auto. apply Hw. intros z [].
  - intros (pre & post & E & Hlen & Hw & Hl & Hr).
    apply (findall_words_from_complete text [] pre w post); auto.
    intros z [].
Qed.

(** ** The keywords of the calendars *)

Lemma set_add_In (keywords : list str) (w k : str) :
  In k (set_add keywords w) <-> In k keywords \/ k = w.
Proof.
  unfold set_add. destruct (existsb (str_eqb w) keywords) eqn:E.
  - apply existsb_exists in E. destruct E as (x & Hx & Ex).
    apply str_eqb_eq in Ex. subst x. split; [auto|].
    intros [H| ->]; auto.
  - rewrite in_app_iff. simpl. split; intros [H|H]; auto.
    + destruct H as [H|[]]; auto.
Qed.

Lemma set_add_NoDup (keywords : list str) (w : str) :
  NoDup keywords -> NoDup (set_add keywords w).
Proof.
  unfold set_add. intros Hnd. destruct (existsb (str_eqb w) keywords) eqn:E; auto.
  apply NoDup_app; auto.
  - constructor; [intros []|constructor].
  - intros x Hx [Ex|[]].
    assert (Ht : existsb (str_eqb w) keywords = true).
    { apply existsb_exists. exists x. split; auto. apply str_eqb_eq; auto. }
    congruence.
Qed.

Lemma add_words_In (words : list str) :
  forall keywords k,
    In k (fold_left (fun keywords w => set_add keywords (str_lower w)) words keywords)
    <-> In k keywords \/ exists w, In w words /\ k = str_lower w.
Proof.
  induction words as [|w words IH]; intros keywords k; simpl.
  - split; [auto|]. intros [H|(w & [] & _)]; auto.
  - rewrite IH, set_add_In. split.
    + intros [[H|H]|(w' & Hw' & E)]; eauto.
    + intros [H|(w' & [<-|Hw'] & E)]; eauto.
Qed.

Lemma add_words_NoDup (words : list str) :
  forall keywords,
    NoDup keywords ->
    NoDup (fold_left (fun keywords w => set_add keywords (str_lower w)) words keywords).
Proof.
  induction words as [|w words IH]; intros keywords Hnd; simpl; auto.
  apply IH. now apply set_add_NoDup.
Qed.

Lemma component_keywords_In (keywords : list str) (c : component) (k : str) :
  In k (component_keywords keywords c)
  <-> In k keywords
      \/ (comp_name c = VEVENT /\ exists w, In w (event_words c) /\ k = str_lower w).
Proof.
  unfold component_keywords.
  destruct (str_eqb (comp_name c) VEVENT) eqn:E; simpl negb; cbv iota.
  - apply str_eqb_eq in E. rewrite add_words_In. unfold event_words. tauto.
  - apply str_eqb_neq in E. tauto.
Qed.

Lemma component_keywords_NoDup (keywords : list str) (c : component) :
  NoDup keywords -> NoDup (component_keywords keywords c).
Proof.
  unfold component_keywords. intros Hnd.
  destruct (negb (str_eqb (comp_name c) VEVENT)); auto.
  now apply add_words_NoDup.
Qed.

Lemma fold_keywords_In (components : list component) :
  forall keywords k,
    In k (fold_left component_keywords components keywords)
    <-> In k keywords
        \/ exists c w, In c components /\ comp_name c = VEVENT
                       /\ In w (event_words c) /\ k = str_lower w.
Proof.
  induction components as [|c components IH]; intros keywords k; simpl.
  - split; [auto|]. intros [H|(c & w & [] & _)]; auto.
  - rewrite IH, component_keywords_In. split.
    + intros [[H|(Hn & w & Hw & E)]|(c' & w & Hc' & Hn & Hw & E)]; auto.
      * right. exists c, w. auto.
      * right. exists c', w. auto.
    + intros [H|(c' & w & [<-|Hc'] & Hn & Hw & E)]; auto.
      * left. right. eauto.
      * right. exists c', w. auto.
Qed.

Lemma fold_keywords_NoDup (components : list component) :
  forall keywords,
    NoDup keywords -> NoDup (fold_left component_keywords components keywords).
Proof.
  induction components as [|c components IH]; intros keywords Hnd; simpl; auto.
  apply IH. now apply component_keywords_NoDup.
Qed.

Lemma event_text_is_searched (c : component) :
  join [space]
    [text_of (comp_summary c); text_of (comp_description c);
     text_of (comp_location c)]
  = component_text c.
Proof. reflexivity. Qed.

Lemma str_lower_word (w : str) :
  word_chars w ->
  word_chars (str_lower w) /\ str_lower (str_lower w) = str_lower w.
Proof.
  unfold str_lower. intros Hw. split.
  - intros c Hc. apply in_map_iff in Hc. destruct Hc as (x & <- & Hx).
    apply lower_char_word. auto.
  - rewrite map_map. apply map_ext_in. intros x Hx.
    apply lower_char_word. auto.
Qed.

Lemma collect_keywords_spec (calendars : list (list component)) (k : str) :
  In k (collect_keywords calendars)
  <-> exists c w, In c (List.concat calendars) /\ comp_name c = VEVENT
                  /\ In w (findall_words (component_text c))
                  /\ k = str_lower w.
Proof.
  unfold collect_keywords. rewrite fold_keywords_In. split.
  - intros [[]|H]. exact H.
  - intros H. right. exact H.
Qed.

Lemma collect_keywords_shape (calendars : list (list component)) (k : str) :
  In k (collect_keywords calendars) ->
  (3 <= List.length k)%nat /\ word_chars k /\ str_lower k = k.
Proof.
  intros Hin. apply collect_keywords_spec in Hin.
  destruct Hin as (c & w & _ & _ & Hw & ->).
  destruct (findall_words_from_sound _ [] w Hw)
    as (pre & post & _ & Hlen & Hchars & _).
  specialize (Hchars ltac:(intros z [])).
  change (forall c, In c w -> is_word_char c = true) with (word_chars w) in Hchars.
  destruct (str_lower_word w Hchars) as [H1 H2].
  unfold str_lower at 1. rewrite length_map. auto.
Qed.

(** ** The order of the generated file *)

Lemma str_ltb_irrefl (a : str) : str_ltb a a = false.
Proof.
  induction a as [|x a IH]; simpl; [reflexivity|].
  now rewrite N.ltb_irrefl, N.eqb_refl, IH.
Qed.

Lemma str_ltb_trans (a : str) :
  forall b c, str_ltb a b = true -> str_ltb b c = true -> str_ltb a c = true.
Proof.
  induction a as [|x a IH]; intros [|y b] [|z c]; simpl; try discriminate; auto.
  intros H1 H2.
  rewrite orb_true_iff, andb_true_iff, N.ltb_lt, N.eqb_eq in H1, H2 |- *.
  destruct H1 as [H1|[H1 H1']]; destruct H2 as [H2|[H2 H2']]; subst.
  - left. lia.
  - left. lia.
  - left. lia.
  - right. split; [reflexivity|]. eauto.
Qed.

Lemma str_ltb_total (a : str) :
  forall b, str_ltb a b = false -> a = b \/ str_ltb b a = true.
Proof.
  induction a as [|x a IH]; intros [|y b]; simpl; auto; try discriminate.
  intros H. apply orb_false_iff in H. destruct H as [H1 H2].
  apply N.ltb_ge in H1.
  destruct (N.eqb x y) eqn:E.
  - apply N.eqb_eq in E. subst y. simpl in H2.
    destruct (IH b H2) as [->|H]; auto.
    right. rewrite N.eqb_refl, H. apply orb_true_r.
  - apply N.eqb_neq in E. right. apply orb_true_iff. left. apply N.ltb_lt. lia.
Qed.

Lemma insert_sorted_In (w : str) (l : list str) (k : str) :
  In k (insert_sorted w l) <-> k = w \/ In k l.
Proof.
  induction l as [|x l IH]; simpl.
  - split; intros [H|H]; auto.
  - destruct (str_ltb x w); simpl; rewrite ?IH; split; intros H;
      intuition congruence.
Qed.

Lemma sorted_In (l : list str) (k : str) : In k (sorted l) <-> In k l.
Proof.
  unfold sorted. induction l as [|x l IH]; simpl; [reflexivity|].
  rewrite insert_sorted_In, IH. split; intros [H|H]; auto.
Qed.

Lemma insert_sorted_length (w : str) (l : list str) :
  List.length (insert_sorted w l) = S (List.length l).
Proof.
  induction l as [|x l IH]; simpl; [reflexivity|].
  destruct (str_ltb x w); simpl; auto.
Qed.

Lemma sorted_length (l : list str) : List.length (sorted l) = List.length l.
Proof.
  unfold sorted. induction l as [|x l IH]; simpl; [reflexivity|].
  now rewrite insert_sorted_length, IH.
Qed.

Lemma insert_sorted_ascending (w : str) (l : list str) :
  ~ In w l ->
  StronglySorted (fun a b => str_ltb a b = true) l ->
  StronglySorted (fun a b => str_ltb a b = true) (insert_sorted w l).
Proof.
  induction l as [|x l IH]; intros Hnotin Hs; simpl.
  - constructor; constructor.
  - inversion Hs as [|? ? Hs' Hall]; subst.
    destruct (str_ltb x w) eqn:E.
    + constructor.
      * apply IH; auto. intros H. apply Hnotin. simpl; auto.
      * apply Forall_forall. intros y Hy. apply insert_sorted_In in Hy.
        destruct Hy as [->|Hy]; auto.
        rewrite Forall_forall in Hall. auto.
    + assert (Hwx : str_ltb w x = true).
      { destruct (str_ltb_total x w E) as [->|H]; auto.
        exfalso. apply Hnotin. simpl; auto. }
      constructor; auto.
      constructor; auto.
      rewrite Forall_forall in *. intros y Hy.
      eapply str_ltb_trans; eauto.
Qed.

Lemma sorted_ascending (l : list str) :
  NoDup l -> StronglySorted (fun a b => str_ltb a b = true) (sorted l).
Proof.
  unfold sorted. induction 1 as [|x l Hnotin Hnd IH]; simpl.
  - constructor.
  - apply insert_sorted_ascending; auto.
    intros H. apply Hnotin. now apply (sorted_In l).
Qed.

Lemma ascending_NoDup (l : list str) :
  StronglySorted (fun a b => str_ltb a b = true) l -> NoDup l.
Proof.
  induction 1 as [|x l Hs IH Hall]; constructor; auto.
  intros Hin. rewrite Forall_forall in Hall.
  specialize (Hall x Hin). now rewrite str_ltb_irrefl in Hall.
Qed.

(** X14.  The generated file has one line for each keyword, in
    strictly ascending order of the code points.  The keywords are the
    lower-cased words of the summary, description and location of the
    VEVENT components, joined by spaces as [analyze_events] joins them;
    other components add nothing.  Each keyword has three characters or
    more, all of the class, and no capital letter. *)
Theorem generated_file_lists_the_keywords (calendars : list (list component)) :
  exists keywords,
    generated_pattern_file calendars = map pattern_file_line keywords
    /\ StronglySorted (fun a b => str_ltb a b = true) keywords
    /\ (forall k, In k keywords
                  <-> exists c w, In c (List.concat calendars)
                                  /\ comp_name c = VEVENT
                                  /\ In w (findall_words (component_text c))
                                  /\ k = str_lower w)
    /\ (forall k, In k keywords ->
                  (3 <= List.length k)%nat
                  /\ (forall c, In c k -> is_word_char c = true)
                  /\ str_lower k = k).
Proof.
  exists (sorted (collect_keywords calendars)).
  split; [reflexivity|]. split; [|split].
  - apply sorted_ascending. apply fold_keywords_NoDup. constructor.
  - intros k. rewrite sorted_In. apply collect_keywords_spec.
  - intros k Hk. rewrite sorted_In in Hk.
    exact (collect_keywords_shape calendars k Hk).
Qed.

(** ** Reading the generated file back *)

Lemma universal_newlines_other (c : N) (text : str) :
  c <> 13%N -> universal_newlines (c :: text) = c :: universal_newlines text.
Proof.
  intros Hc. apply N.eqb_neq in Hc.
  change (universal_newlines (c :: text))
    with (if (c =? 13)%N then
            match text with
            | c' :: text'' =>
                if (c' =? 10)%N then 10%N :: universal_newlines text''
                else 10%N :: universal_newlines text
            | [] => [10%N]
            end
          else c :: universal_newlines text).
  now rewrite Hc.
Qed.

Lemma universal_newlines_app (body rest : str) :
  ~ In 13%N body ->
  universal_newlines (body ++ rest) = body ++ universal_newlines rest.
Proof.
  induction body as [|c body IH]; intros Hb; [reflexivity|].
  rewrite <- app_comm_cons, universal_newlines_other.
  - rewrite IH; [reflexivity|]. intros H. apply Hb. simpl; auto.
  - intros ->. apply Hb. simpl; auto.
Qed.

Lemma written_body (linesep body : str) :
  ~ In 10%N body ->
  flat_map (fun c => if (c =? 10)%N then linesep else [c]) body = body.
Proof.
  induction body as [|c body IH]; intros Hb; [reflexivity|]. simpl.
  destruct (N.eqb_spec c 10) as [->|_]; [exfalso; apply Hb; simpl; auto|].
  simpl. f_equal. apply IH. intros H. apply Hb. simpl; auto.
Qed.

Lemma written_text_line (linesep body : str) (texts : list str) :
  ~ In 10%N body ->
  written_text linesep ((body ++ [10%N]) :: texts)
  = body ++ linesep ++ written_text linesep texts.
Proof.
  intros Hb. unfold written_text. simpl List.concat.
  rewrite !flat_map_app, written_body by assumption.
  simpl. now rewrite app_nil_r, <- app_assoc.
Qed.

Lemma read_lines_from_line (body rest : str) :
  forall line,
    ~ In 10%N body ->
    read_lines_from line (body ++ 10%N :: rest)
    = (line ++ body ++ [10%N]) :: read_lines_from [] rest.
Proof.
  induction body as [|c body IH]; intros line Hb; simpl.
  - reflexivity.
  - destruct (N.eqb_spec c 10) as [->|_]; [exfalso; apply Hb; simpl; auto|].
    rewrite IH by (intros H; apply Hb; simpl; auto).
    now rewrite <- app_assoc.
Qed.

Lemma read_written_lines (linesep : str) (bodies : list str) :
  linesep = [10%N] \/ linesep = [13%N; 10%N] ->
  (forall body, In body bodies -> ~ In 10%N body /\ ~ In 13%N body) ->
  read_lines (written_text linesep (map (fun body => body ++ [10%N]) bodies))
  = map (fun body => body ++ [10%N]) bodies.
Proof.
  intros Hsep Hb. unfold read_lines.
  assert (Hun : universal_newlines
                  (written_text linesep (map (fun body => body ++ [10%N]) bodies))
                = List.concat (map (fun body => body ++ [10%N]) bodies)).
  { induction bodies as [|body bodies IH]; [reflexivity|].
    destruct (Hb body) as [H10 H13]; [simpl; auto|].
    cbn [map]. rewrite written_text_line by assumption.
    rewrite universal_newlines_app by assumption.
    simpl List.concat. rewrite <- app_assoc. f_equal.
    rewrite <- IH by (intros b Hin; apply Hb; simpl; auto).
    destruct Hsep as [->| ->]; reflexivity. }
  rewrite Hun. clear Hun.
  induction bodies as [|body bodies IH]; [reflexivity|].
  destruct (Hb body) as [H10 _]; [simpl; auto|].
  cbn [map].
  change (List.concat ((body ++ [10%N]) :: map (fun body => body ++ [10%N]) bodies))
    with ((body ++ [10%N])
          ++ List.concat (map (fun body => body ++ [10%N]) bodies)).
  rewrite <- app_assoc.
  change ([10%N] ++ List.concat (map (fun body => body ++ [10%N]) bodies))
    with (10%N :: List.concat (map (fun body => body ++ [10%N]) bodies)).
  rewrite read_lines_from_line by assumption.
  rewrite IH by (intros b Hin; apply Hb; simpl; auto). reflexivity.
Qed.

Lemma strip_plain (s : str) :
  (forall c, In c s -> isspace c = false) -> strip s = s.
Proof.
  intros Hs.
  assert (Hl : forall t, (forall c, In c t -> isspace c = false) -> lstrip t = t).
  { intros [|c t] Ht; [reflexivity|]. simpl. now rewrite (Ht c) by (simpl; auto). }
  unfold strip, rstrip. rewrite (Hl s Hs), Hl.
  - apply List.rev_involutive.
  - intros c Hc. apply Hs. now apply in_rev.
Qed.

Lemma strip_plain_line (s : str) :
  (forall c, In c s -> isspace c = false) -> strip (s ++ [10%N]) = s.
Proof.
  intros Hs. destruct s as [|x s]; [reflexivity|].
  unfold strip.
  assert (Hx : isspace x = false) by (apply Hs; simpl; auto).
  rewrite <- app_comm_cons. cbn [lstrip]. rewrite Hx.
  unfold rstrip. rewrite app_comm_cons, List.rev_app_distr. cbn [List.rev app].
  change (lstrip (10%N :: List.rev (x :: s))) with (lstrip (List.rev (x :: s))).
  fold (rstrip (x :: s)).
  pose proof (strip_plain (x :: s) Hs) as H. unfold strip in H.
  cbn [lstrip] in H. now rewrite Hx in H.
Qed.

Lemma pattern_file_line_body (word : str) :
  pattern_file_line word = (word ++ colon :: py_str "(?i)" ++ word) ++ [10%N].
Proof.
  unfold pattern_file_line. rewrite <- app_assoc. reflexivity.
Qed.

Lemma generated_body_plain (word : str) (c : N) :
  word_chars word ->
  In c (word ++ colon :: py_str "(?i)" ++ word) ->
  isspace c = false /\ c <> 10%N /\ c <> 13%N.
Proof.
  intros Hw Hc. apply in_app_or in Hc.
  assert (Hword : In c word -> isspace c = false /\ c <> 10%N /\ c <> 13%N).
  { intros H. destruct (word_char_plain c (Hw c H)) as (? & _ & ? & ?). auto. }
  destruct Hc as [Hc|Hc]; auto.
  simpl in Hc.
  repeat (destruct Hc as [<-|Hc];
          [split; [reflexivity|split; discriminate]|]).
  auto.
Qed.

Lemma pattern_line_generated (word : str) :
  word <> [] -> word_chars word ->
  pattern_line (pattern_file_line word) = Some (word, py_str "(?i)" ++ word).
Proof.
  intros Hne Hw. apply pattern_line_defines.
  rewrite pattern_file_line_body.
  rewrite strip_plain_line
    by (intros c Hc; now destruct (generated_body_plain word c Hw Hc)).
  assert (Hcolon : ~ In colon word).
  { intros H. now destruct (word_char_plain colon (Hw colon H)) as (_ & ? & _). }
  split; [destruct word; [contradiction|discriminate]|].
  split; [unfold contains_char; apply existsb_exists; exists colon;
          split; [apply in_or_app; simpl; auto | apply N.eqb_refl]|].
  rewrite before_sep_app, after_sep_app by assumption.
  split; symmetry; apply strip_plain.
  - intros c Hc. now destruct (word_char_plain c (Hw c Hc)).
  - intros c Hc.
    apply (generated_body_plain word c Hw).
    apply in_or_app. right. simpl. right. exact Hc.
Qed.

Lemma defined_names_generated (words : list str) :
  (forall word, In word words -> word <> [] /\ word_chars word) ->
  defined_names (map pattern_file_line words) = words.
Proof.
  unfold defined_names. induction words as [|w words IH]; intros H; [reflexivity|].
  cbn [map flat_map]. destruct (H w) as [Hne Hw]; [simpl; auto|].
  rewrite pattern_line_generated by assumption.
  simpl. f_equal. apply IH. intros x Hx. apply H. simpl; auto.
Qed.

Lemma last_definition_generated (words : list str) (word : str) :
  (forall word, In word words -> word <> [] /\ word_chars word) ->
  In word words ->
  last_definition word (map pattern_file_line words)
  = Some (py_str "(?i)" ++ word).
Proof.
  induction words as [|w words IH]; intros H Hin; [destruct Hin|].
  cbn [map last_definition].
  destruct (H w) as [Hne Hw]; [simpl; auto|].
  rewrite pattern_line_generated by assumption.
  destruct (in_dec (list_eq_dec N.eq_dec) word words) as [Hin'|Hnot].
  - rewrite IH; auto. intros x Hx. apply H. simpl; auto.
  - destruct Hin as [->|Hin]; [|contradiction].
    rewrite str_eqb_refl.
    destruct (last_definition word (map pattern_file_line words)) as [rx|] eqn:E;
      [|reflexivity].
    exfalso. apply Hnot.
    assert (Hnames : In word (defined_names (map pattern_file_line words))).
    { clear -E. induction (map pattern_file_line words) as [|l ls IHl];
        [discriminate|].
      cbn [last_definition] in E. unfold defined_names. cbn [flat_map].
      apply in_or_app.
      destruct (last_definition word ls) as [r|] eqn:El.
      - right. now apply IHl.
      - left. destruct (pattern_line l) as [[n r]|]; [|discriminate].
        destruct (str_eqb n word) eqn:En; [|discriminate].
        apply str_eqb_eq in En. subst. simpl; auto. }
    rewrite defined_names_generated in Hnames; auto.
    intros x Hx. apply H. simpl; auto.
Qed.

Section RoundTrip.
Context {Pattern : Type} {RE : ReEngine Pattern}.

(** X15.  The file the script generates loads back on the next run: on
    a platform whose line separator is a line feed or a carriage return
    and a line feed, reading the written file gives one pattern for each
    keyword, in the order of the file, compiled from the keyword behind
    the inline flag [(?i)]. *)
Theorem generated_file_loads_back
  (calendars : list (list component)) (linesep : str) :
  linesep = [10%N] \/ linesep = [13%N; 10%N] ->
  (forall word, In word (collect_keywords calendars) ->
                re_compile (py_str "(?i)" ++ word) IGNORECASE <> None) ->
  exists patterns,
    load_or_generate_patterns
      (Some (read_lines (written_text linesep (generated_pattern_file calendars))))
    = Some patterns
    /\ dict_keys patterns = sorted (collect_keywords calendars)
    /\ forall word, In word (collect_keywords calendars) ->
                    dict_get patterns word
                    = re_compile (py_str "(?i)" ++ word) IGNORECASE.
Proof.
  intros Hsep Hok.
  set (words := sorted (collect_keywords calendars)).
  assert (Hwords : forall word, In word words -> word <> [] /\ word_chars word).
  { intros word Hin. apply (proj1 (sorted_In _ _)) in Hin.
    destruct (collect_keywords_shape calendars word Hin) as (Hlen & Hw & _).
    split; [|exact Hw]. intros ->. simpl in Hlen. lia. }
  assert (Hread : read_lines (written_text linesep (generated_pattern_file calendars))
                  = map pattern_file_line words).
  { unfold generated_pattern_file. fold words.
    rewrite (map_ext pattern_file_line
               (fun w => (fun body => body ++ [10%N])
                           (w ++ colon :: py_str "(?i)" ++ w)))
      by apply pattern_file_line_body.
    rewrite <- (map_map (fun w => w ++ colon :: py_str "(?i)" ++ w)
                        (fun body => body ++ [10%N])).
    apply read_written_lines; [exact Hsep|].
    intros body Hb. apply in_map_iff in Hb. destruct Hb as (w & <- & Hw).
    destruct (Hwords w Hw) as [_ Hchars].
    split; intros H; destruct (generated_body_plain w _ Hchars H) as (_ & ? & ?);
      congruence. }
  rewrite Hread.
  destruct (load_lines_spec (map pattern_file_line words) [])
    as (patterns & Hrun & _ & Hget).
  { constructor. }
  { intros line name regex Hin Hp.
    apply in_map_iff in Hin. destruct Hin as (w & <- & Hw).
    destruct (Hwords w Hw) as [Hne Hchars].
    rewrite pattern_line_generated in Hp by assumption.
    inversion Hp; subst. apply Hok. exact (proj1 (sorted_In _ _) Hw). }
  exists patterns. split; [exact Hrun|]. split.
  - rewrite (load_lines_keys (map pattern_file_line words) [] patterns);
      [|constructor|exact Hrun].
    simpl app. rewrite defined_names_generated by assumption.
    apply first_occurrences_id. apply ascending_NoDup.
    apply sorted_ascending. apply fold_keywords_NoDup. constructor.
  - intros word Hin. rewrite Hget.
    rewrite last_definition_generated; auto.
    exact (proj2 (sorted_In _ _) Hin).
Qed.

End RoundTrip.

(** * The further properties on the sample calendar *)

Lemma analyze_events_appends_calendars_witness :
  dict_wf sample_patterns
  /\ exists data unmatched,
       analyze_events (RE := literal_engine) (TZ := los_angeles)
         ([[timezone_block; standup]; [holiday]] ++ [[last_year]; [standup]])
         march_start march_end sample_patterns
       = Some (data, unmatched)
       /\ dict_get data (py_str "meetings") = Some ([standup_event] ++ [standup_event])
       /\ unmatched
          = [({| ld_wall := datetime_of 2024 3 12 0 0 0; ld_utcoffset := PDT |},
              py_str "Holiday", 0)] ++ [].
Proof.
  split; [exact sample_patterns_wf|].
  destruct (analyze_events_appends_calendars (RE := literal_engine)
              (TZ := los_angeles) [[timezone_block; standup]; [holiday]]
              [[last_year]; [standup]] march_start march_end sample_patterns
              sample_patterns_wf)
    as (data1 & unmatched1 & data2 & unmatched2 & data & unmatched
        & Hrun1 & Hrun2 & Hrun & Hun & Hget).
  exists data, unmatched. split; [exact Hrun|].
  destruct (Hget (py_str "meetings")) as (events1 & events2 & Hget1 & Hget2 & Hboth).
  { simpl. auto. }
  vm_compute in Hrun1. injection Hrun1 as <- <-.
  vm_compute in Hrun2. injection Hrun2 as <- <-.
  vm_compute in Hget1. injection Hget1 as <-.
  vm_compute in Hget2. injection Hget2 as <-.
  split; [rewrite Hboth | rewrite Hun]; vm_compute; reflexivity.
Defined.

Lemma analyze_events_ignores_other_components_witness :
  List.concat sample_calendars = [] ++ timezone_block :: [standup; holiday; last_year]
  /\ comp_dtstart timezone_block = None
  /\ analyze_events (RE := literal_engine) (TZ := los_angeles)
       sample_calendars march_start march_end sample_patterns
     = analyze_events (RE := literal_engine) (TZ := los_angeles)
         [[]; [standup; holiday; last_year]] march_start march_end sample_patterns.
Proof.
  split; [reflexivity|]. split; [reflexivity|].
  exact (analyze_events_ignores_other_components (RE := literal_engine)
           (TZ := los_angeles) sample_calendars march_start march_end
           sample_patterns [] [standup; holiday; last_year] timezone_block
           eq_refl (or_intror eq_refl)).
Defined.

Lemma analyze_events_window_of_dates_witness :
  dict_wf sample_patterns
  /\ List.concat sample_calendars = [timezone_block; standup; holiday] ++ last_year :: []
  /\ comp_name last_year = VEVENT
  /\ comp_dtstart last_year
     = Some (DateTimeValue (datetime_of 2023 3 11 16 0 0) utc_tzinfo)
  /\ wall_date (ld_wall (normalize (TZ := los_angeles)
                           (DateTimeValue (datetime_of 2023 3 11 17 0 0) utc_tzinfo)))
     < ymd2ord 2024 3 1
  /\ analyze_events (RE := literal_engine) (TZ := los_angeles)
       sample_calendars (main_start_time (ymd2ord 2024 3 1))
       (main_end_time (ymd2ord 2024 3 31)) sample_patterns
     = analyze_events (RE := literal_engine) (TZ := los_angeles)
         [[timezone_block; standup; holiday]; []]
         (main_start_time (ymd2ord 2024 3 1))
         (main_end_time (ymd2ord 2024 3 31)) sample_patterns.
Proof.
  split; [exact sample_patterns_wf|].
  split; [reflexivity|]. split; [reflexivity|]. split; [reflexivity|].
  split; [vm_compute; reflexivity|].
  pose proof (analyze_events_window_of_dates (RE := literal_engine)
                (TZ := los_angeles) sample_calendars (ymd2ord 2024 3 1)
                (ymd2ord 2024 3 31) sample_patterns
                [timezone_block; standup; holiday] [] last_year
                (DateTimeValue (datetime_of 2023 3 11 16 0 0) utc_tzinfo)
                sample_patterns_wf eq_refl eq_refl eq_refl) as H.
  cbv zeta in H. destruct H as [Hskip _].
  apply Hskip. left. vm_compute. reflexivity.
Defined.

Lemma statistics_of_analysis_succeed_witness :
  dict_wf sample_patterns
  /\ exists events_data unmatched distribution weekly_stats,
       analyze_events (RE := literal_engine) (TZ := los_angeles)
         sample_calendars march_start march_end sample_patterns
       = Some (events_data, unmatched)
       /\ get_day_stats (FO := exact_arith) events_data = Some distribution
       /\ dict_keys distribution = [py_str "meetings"; py_str "rooms"]
       /\ get_weekly_stats (FO := exact_arith) events_data = Some weekly_stats
       /\ dict_keys weekly_stats = [py_str "meetings"; py_str "rooms"].
Proof.
  split; [exact sample_patterns_wf|].
  destruct (statistics_of_analysis_succeed (RE := literal_engine)
              (TZ := los_angeles) (FO := exact_arith) sample_calendars
              march_start march_end sample_patterns sample_patterns_wf)
    as (events_data & unmatched & distribution & weekly_stats
        & Hrun & Hday & Hdkeys & Hweek & Hwkeys & _).
  exists events_data, unmatched, distribution, weekly_stats.
  repeat split; assumption.
Defined.

Lemma time_spent_of_analysis_witness :
  dict_wf sample_patterns
  /\ exists events_data unmatched,
       analyze_events (RE := literal_engine) (TZ := los_angeles)
         sample_calendars march_start march_end sample_patterns
       = Some (events_data, unmatched)
       /\ dict_get (get_time_spent events_data) (py_str "meetings") = Some 1800
       /\ dict_get (get_time_spent events_data) (py_str "holidays") = None.
Proof.
  split; [exact sample_patterns_wf|].
  destruct (time_spent_of_analysis (RE := literal_engine) (TZ := los_angeles)
              sample_calendars march_start march_end sample_patterns
              sample_patterns_wf)
    as (events_data & unmatched & Hrun & Hspent & Hnone).
  exists events_data, unmatched. split; [exact Hrun|]. split.
  - rewrite (Hspent (py_str "meetings") (py_str "standup", IGNORECASE) eq_refl).
    vm_compute. reflexivity.
  - apply Hnone. reflexivity.
Defined.

Lemma day_counts_add_up_witness :
  dict_wf sample_events
  /\ exists distribution by_day,
       get_day_stats (FO := exact_arith) sample_events = Some distribution
       /\ dict_get distribution (py_str "meetings") = Some by_day
       /\ dict_sum ds_count by_day = 3.
Proof.
  split; [exact sample_events_wf|].
  destruct (day_counts_add_up (FO := exact_arith) sample_events sample_events_wf)
    as (distribution & Hrun & Hsum).
  destruct (Hsum (py_str "meetings") [standup_event; holiday_event; sync_event] eq_refl)
    as (by_day & Hby & Hcount).
  exists distribution, by_day. split; [exact Hrun|]. split; [exact Hby|].
  exact Hcount.
Defined.

Lemma month_counts_add_up_witness :
  dict_wf sample_events
  /\ all_valid sample_events = true
  /\ exists monthly_stats months,
       get_monthly_stats (FO := exact_arith) sample_events = Some monthly_stats
       /\ dict_get monthly_stats (py_str "meetings") = Some months
       /\ dict_wf months
       /\ dict_sum ms_event_count months = 3.
Proof.
  split; [exact sample_events_wf|]. split; [reflexivity|].
  destruct (month_counts_add_up (FO := exact_arith) sample_events
              sample_events_wf
              (fun pattern events e Hget Hin =>
                 proj1 (all_valid_spec sample_events eq_refl pattern events e
                          Hget Hin)))
    as (Hsum & Hruns).
  destruct Hruns as (monthly_stats & Hrun).
  { intros pattern events e Hget Hin.
    apply (all_valid_spec sample_events eq_refl pattern events e Hget Hin). }
  destruct (Hsum monthly_stats Hrun (py_str "meetings")
              [standup_event; holiday_event; sync_event] eq_refl)
    as (months & Hmonths & Hwf & _ & Hcount).
  exists monthly_stats, months. repeat split; assumption.
Defined.

Lemma date_labels_are_distinct_witness :
  1 <= ymd2ord 2024 3 1
  /\ (date_label (datetime_of 2024 3 11 9 0 0) = date_label (datetime_of 2024 3 11 17 30 0)
      <-> wall_date (datetime_of 2024 3 11 9 0 0) = wall_date (datetime_of 2024 3 11 17 30 0))
  /\ NoDup (map date_label
                (date_list (wall_at (ymd2ord 2024 3 1) 0 0 0)
                           (wall_at (ymd2ord 2024 3 31) 23 59 59))).
Proof.
  assert (H1 : 1 <= ymd2ord 2024 3 1) by (vm_compute; discriminate).
  split; [exact H1|].
  destruct (date_labels_are_distinct (ymd2ord 2024 3 1) (ymd2ord 2024 3 31) H1)
    as [Hlabel Hnodup].
  split; [|exact Hnodup].
  apply Hlabel; vm_compute; discriminate.
Defined.

Lemma spreadsheet_columns_of_events_witness :
  dict_wf sample_patterns
  /\ exists events_data unmatched,
       analyze_events (RE := literal_engine) (TZ := los_angeles)
         sample_calendars (main_start_time (ymd2ord 2024 3 1))
         (main_end_time (ymd2ord 2024 3 31)) sample_patterns
       = Some (events_data, unmatched)
       /\ dict_get events_data (py_str "meetings") = Some [standup_event]
       /\ filter (fun day => ymd2ord 2024 3 11 =? wall_date day)
            (date_list (wall_at (ymd2ord 2024 3 1) 0 0 0)
                       (wall_at (ymd2ord 2024 3 31) 23 59 59))
          = [wall_at (ymd2ord 2024 3 11) 0 0 0].
Proof.
  split; [exact sample_patterns_wf|].
  destruct (spreadsheet_columns_of_events (RE := literal_engine)
              (TZ := los_angeles) sample_calendars (ymd2ord 2024 3 1)
              (ymd2ord 2024 3 31) sample_patterns sample_patterns_wf)
    as (events_data & unmatched & Hrun & Hcolumns).
  exists events_data, unmatched. split; [exact Hrun|].
  assert (Hget : dict_get events_data (py_str "meetings") = Some [standup_event]).
  { vm_compute in Hrun. injection Hrun as <- _. vm_compute. reflexivity. }
  split; [exact Hget|].
  pose proof (Hcolumns (py_str "meetings") [standup_event] standup_event Hget
                (or_introl eq_refl)) as H.
  cbv zeta in H. destruct H as (_ & Hin & _).
  destruct Hin as [Hday _]; [vm_compute; discriminate|].
  exact Hday.
Defined.

Lemma loaded_patterns_keep_first_position_witness :
  (forall line name regex,
      In line sample_lines -> pattern_line line = Some (name, regex) ->
      re_compile (ReEngine := literal_engine) regex IGNORECASE <> None)
  /\ exists patterns,
       load_or_generate_patterns (RE := literal_engine) (Some sample_lines)
       = Some patterns
       /\ dict_keys patterns = [py_str "work"; py_str "sport"].
Proof.
  assert (Hok : forall line name regex,
             In line sample_lines -> pattern_line line = Some (name, regex) ->
             re_compile (ReEngine := literal_engine) regex IGNORECASE <> None).
  { intros line name regex Hin Hp.
    destruct Hin as [<-|[<-|[<-|[<-|[<-|[]]]]]]; vm_compute in Hp;
      try discriminate; injection Hp as <- <-; vm_compute; discriminate. }
  split; [exact Hok|].
  destruct (loaded_patterns_keep_first_position (RE := literal_engine)
              sample_lines Hok) as (patterns & Hrun & Hkeys & _).
  exists patterns. split; [exact Hrun|].
  rewrite Hkeys. vm_compute. reflexivity.
Defined.

Lemma loaded_names_are_stripped_witness :
  (forall line name regex,
      In line sample_lines -> pattern_line line = Some (name, regex) ->
      re_compile (ReEngine := literal_engine) regex IGNORECASE <> None)
  /\ exists patterns,
       load_or_generate_patterns (RE := literal_engine) (Some sample_lines)
       = Some patterns
       /\ In (py_str "work") (dict_keys patterns)
       /\ strip (py_str "work") = py_str "work".
Proof.
  assert (Hok : forall line name regex,
             In line sample_lines -> pattern_line line = Some (name, regex) ->
             re_compile (ReEngine := literal_engine) regex IGNORECASE <> None).
  { intros line name regex Hin Hp.
    destruct Hin as [<-|[<-|[<-|[<-|[<-|[]]]]]]; vm_compute in Hp;
      try discriminate; injection Hp as <- <-; vm_compute; discriminate. }
  split; [exact Hok|].
  destruct (loaded_names_are_stripped (RE := literal_engine) sample_lines Hok)
    as (patterns & Hrun & Hnames).
  exists patterns. split; [exact Hrun|].
  assert (Hin : In (py_str "work") (dict_keys patterns)).
  { vm_compute in Hrun. injection Hrun as <-. vm_compute. auto. }
  split; [exact Hin|].
  exact (proj1 (proj2 (Hnames (py_str "work") Hin))).
Defined.

Lemma generated_file_loads_back_witness :
  (forall word, In word (collect_keywords sample_calendars) ->
                re_compile (ReEngine := inline_engine)
                  (py_str "(?i)" ++ word) IGNORECASE <> None)
  /\ exists patterns,
       load_or_generate_patterns (RE := inline_engine)
         (Some (read_lines
                  (written_text [13%N; 10%N] (generated_pattern_file sample_calendars))))
       = Some patterns
       /\ dict_keys patterns
          = [py_str "closed"; py_str "holiday"; py_str "office"; py_str "room";
             py_str "standup"; py_str "team"].
Proof.
  assert (Hok : forall word, In word (collect_keywords sample_calendars) ->
                  re_compile (ReEngine := inline_engine)
                    (py_str "(?i)" ++ word) IGNORECASE <> None).
  { intros word Hin. vm_compute in Hin.
    repeat (destruct Hin as [<-|Hin]; [vm_compute; discriminate|]).
    destruct Hin. }
  split; [exact Hok|].
  destruct (generated_file_loads_back (RE := inline_engine) sample_calendars
              [13%N; 10%N] (or_intror eq_refl) Hok)
    as (patterns & Hrun & Hkeys & _).
  exists patterns. split; [exact Hrun|].
  rewrite Hkeys. vm_compute. reflexivity.
Defined.
